(** * The program extractor (extractor.py): HTML to program rows

    A shallow embedding of [extractor.py] and the properties of its
    pipeline [extract_programs].

    Modelling conventions.
    - A Python [str] is a [string]: the UTF-8 bytes of the text.  The
      character classes ([\s], [\d], [\w], [str.strip], [str.split]) and the
      case mappings ([lower], [upper], [title]) are those of ASCII; bytes
      above 127 are opaque and are left as they are, which is what Python
      does with the symbols the source itself uses (the pound, euro and
      rupee signs, the en and em dashes).
    - An exception is a value: a computation that may raise returns
      [res A], and [try/except] is a match on it.
    - The libraries the module calls are not part of it: the HTML parser
      ([BeautifulSoup]), [json.loads], [dateparser.parse], [urljoin],
      [urlparse], the builtin [str()] of a non-string value and the builtin
      [float()] outside plain decimal literals are variables of the
      sections that use them.  A parsed document is the record [soup] of
      the answers of the queries that the module puts to it. *)

(** The development goes on with the two modules that use the extractor:
    the helpers and the loop of the search page ([app.py], the module
    [App]) and the statements that [database.py] runs on its tables (the
    module [Db]). *)

From Stdlib Require Import String Ascii List Bool Arith ZArith QArith Lia.
Import ListNotations.
Set Warnings "-register-all".
Close Scope Q_scope.
Open Scope list_scope.
Open Scope string_scope.

(* ===================================================================== *)
(** ** Python strings *)
(* ===================================================================== *)

Module PyStr.

Definition code (a : ascii) : nat := nat_of_ascii a.

(** [str.isspace] on one ASCII character: TAB..CR, FS..US and the blank. *)
Definition is_space (a : ascii) : bool :=
  let n := code a in
  ((9 <=? n) && (n <=? 13) || (28 <=? n) && (n <=? 32))%nat.

Definition is_digit (a : ascii) : bool :=
  let n := code a in ((48 <=? n) && (n <=? 57))%nat.

Definition is_upper (a : ascii) : bool :=
  let n := code a in ((65 <=? n) && (n <=? 90))%nat.

Definition is_lower (a : ascii) : bool :=
  let n := code a in ((97 <=? n) && (n <=? 122))%nat.

Definition is_alpha (a : ascii) : bool := is_upper a || is_lower a.

(** [\w]: letters, digits and the underscore. *)
Definition is_word (a : ascii) : bool :=
  is_alpha a || is_digit a || (code a =? 95)%nat.

Definition lower_char (a : ascii) : ascii :=
  if is_upper a then ascii_of_nat (code a + 32) else a.

Definition upper_char (a : ascii) : ascii :=
  if is_lower a then ascii_of_nat (code a - 32) else a.

Fixpoint map (f : ascii -> ascii) (s : string) : string :=
  match s with
  | EmptyString => EmptyString
  | String a s' => String (f a) (map f s')
  end.

Definition lower : string -> string := map lower_char.
Definition upper : string -> string := map upper_char.

(** [str.title]: a letter that follows a letter is lower-cased, any other
    letter is upper-cased. *)
Fixpoint title_from (prev_cased : bool) (s : string) : string :=
  match s with
  | EmptyString => EmptyString
  | String a s' =>
      String (if prev_cased then lower_char a else upper_char a)
             (title_from (is_alpha a) s')
  end.

Definition title : string -> string := title_from false.

Fixpoint lstrip (s : string) : string :=
  match s with
  | String a s' => if is_space a then lstrip s' else s
  | EmptyString => EmptyString
  end.

Fixpoint rstrip (s : string) : string :=
  match s with
  | EmptyString => EmptyString
  | String a s' =>
      match rstrip s' with
      | EmptyString => if is_space a then EmptyString else String a EmptyString
      | r => String a r
      end
  end.

Definition strip (s : string) : string := rstrip (lstrip s).

(** Truth value of a string: [bool(s)]. *)
Definition truthy (s : string) : bool :=
  match s with EmptyString => false | _ => true end.

Fixpoint starts_with (p s : string) : bool :=
  match p, s with
  | EmptyString, _ => true
  | String a p', String b s' => Ascii.eqb a b && starts_with p' s'
  | String _ _, EmptyString => false
  end.

(** [needle in hay]. *)
Fixpoint contains (needle hay : string) : bool :=
  starts_with needle hay ||
  match hay with
  | EmptyString => false
  | String _ hay' => contains needle hay'
  end.

(** [any(k in t for k in ks)]. *)
Definition any_in (ks : list string) (t : string) : bool :=
  existsb (fun k => contains k t) ks.

(** [re.sub(r"\s+", " ", s)]: every maximal run of white space becomes
    one blank. *)
Fixpoint collapse_ws_from (in_run : bool) (s : string) : string :=
  match s with
  | EmptyString => EmptyString
  | String a s' =>
      if is_space a
      then (if in_run then collapse_ws_from true s'
            else String " " (collapse_ws_from true s'))
      else String a (collapse_ws_from false s')
  end.

Definition collapse_ws : string -> string := collapse_ws_from false.

(** [len(s.split())]: the number of maximal runs of non-space characters. *)
Fixpoint count_words_from (in_word : bool) (s : string) : nat :=
  match s with
  | EmptyString => 0
  | String a s' =>
      if is_space a then count_words_from false s'
      else (if in_word then 0 else 1) + count_words_from true s'
  end.

Definition count_words : string -> nat := count_words_from false.

(** [s.replace(",", "")]. *)
Fixpoint remove_char (c : ascii) (s : string) : string :=
  match s with
  | EmptyString => EmptyString
  | String a s' =>
      if Ascii.eqb a c then remove_char c s' else String a (remove_char c s')
  end.

(** [sep.join(parts)]. *)
Fixpoint join (sep : string) (parts : list string) : string :=
  match parts with
  | [] => ""
  | [p] => p
  | p :: ps => p ++ sep ++ join sep ps
  end.

(** The first [n] characters. *)
Fixpoint take (n : nat) (s : string) : string :=
  match n, s with
  | S n', String a s' => String a (take n' s')
  | _, _ => EmptyString
  end.

End PyStr.

(* ===================================================================== *)
(** ** Regular expressions ([re]) *)
(* ===================================================================== *)

(** The fragment of the [re] syntax that the module uses, with the
    matching order of a backtracking matcher: alternatives left to right,
    quantifiers greedy. *)
Module Re.

Inductive regex : Type :=
| Eps
| Chr (a : ascii)                 (* a literal character *)
| Digit                           (* \d *)
| Space                           (* \s *)
| WordB                           (* \b *)
| Seq (r1 r2 : regex)
| Alt (r1 r2 : regex)             (* r1|r2 *)
| Opt (r : regex)                 (* r? *)
| Star (r : regex)                (* r* *)
| Group (name : string) (r : regex). (* (?P<name>r) *)

(** A sequence and a choice of several parts, in the order written. *)
Fixpoint seq (rs : list regex) : regex :=
  match rs with
  | [] => Eps
  | [r] => r
  | r :: rs' => Seq r (seq rs')
  end.

Fixpoint alt (rs : list regex) : regex :=
  match rs with
  | [] => Eps
  | [r] => r
  | r :: rs' => Alt r (alt rs')
  end.

(** A literal word. *)
Fixpoint Lit (s : string) : regex :=
  match s with
  | EmptyString => Eps
  | String a EmptyString => Chr a
  | String a s' => Seq (Chr a) (Lit s')
  end.

(** [r+] *)
Definition Plus (r : regex) : regex := Seq r (Star r).

(** [r{lo,hi}], greedy: [lo] mandatory copies, then up to [hi - lo] more. *)
Fixpoint upto (n : nat) (r : regex) : regex :=
  match n with
  | O => Eps
  | S n' => Opt (Seq r (upto n' r))
  end.

Fixpoint Rep (lo hi : nat) (r : regex) : regex :=
  match lo with
  | O => upto hi r
  | S lo' => Seq r (Rep lo' (hi - 1) r)
  end.

(** The groups that took part in a match, most recent first. *)
Definition caps := list (string * string).

Fixpoint group (name : string) (c : caps) : option string :=
  match c with
  | [] => None
  | (n, v) :: c' => if String.eqb n name then Some v else group name c'
  end.

(** A match in progress: the character before the cursor, the text after
    it and the groups so far. *)
Definition outcome := option (option ascii * string * caps).
Definition cont := option ascii -> string -> caps -> outcome.

Definition at_boundary (prev : option ascii) (s : string) : bool :=
  let before := match prev with Some a => PyStr.is_word a | None => false end in
  let after := match s with String a _ => PyStr.is_word a | EmptyString => false end in
  xorb before after.

Definition chr_eq (icase : bool) (a b : ascii) : bool :=
  if icase then Ascii.eqb (PyStr.lower_char a) (PyStr.lower_char b)
  else Ascii.eqb a b.

(** [rmatch icase r prev s c k]: match [r] at the cursor, then continue
    with [k]; [None] makes the matcher backtrack. *)
Fixpoint rmatch (icase : bool) (r : regex) (prev : option ascii) (s : string)
    (c : caps) (k : cont) {struct r} : outcome :=
  match r with
  | Eps => k prev s c
  | Chr a =>
      match s with
      | String b s' => if chr_eq icase a b then k (Some b) s' c else None
      | EmptyString => None
      end
  | Digit =>
      match s with
      | String b s' => if PyStr.is_digit b then k (Some b) s' c else None
      | EmptyString => None
      end
  | Space =>
      match s with
      | String b s' => if PyStr.is_space b then k (Some b) s' c else None
      | EmptyString => None
      end
  | WordB => if at_boundary prev s then k prev s c else None
  | Seq r1 r2 =>
      rmatch icase r1 prev s c (fun p' s' c' => rmatch icase r2 p' s' c' k)
  | Alt r1 r2 =>
      match rmatch icase r1 prev s c k with
      | Some o => Some o
      | None => rmatch icase r2 prev s c k
      end
  | Opt r1 =>
      match rmatch icase r1 prev s c k with
      | Some o => Some o
      | None => k prev s c
      end
  | Star r1 =>
      (fix loop (n : nat) (prev : option ascii) (s : string) (c : caps)
         {struct n} : outcome :=
         match n with
         | O => k prev s c
         | S n' =>
             match rmatch icase r1 prev s c
                     (fun p' s' c' =>
                        if (String.length s' <? String.length s)%nat
                        then loop n' p' s' c' else None) with
             | Some o => Some o
             | None => k prev s c
             end
         end) (String.length s) prev s c
  | Group name r1 =>
      rmatch icase r1 prev s c
        (fun p' s' c' =>
           k p' s' ((name, PyStr.take (String.length s - String.length s') s) :: c'))
  end.

(** One match attempt at the cursor: the last character of the match, the
    text left after it and its groups. *)
Definition match_here (icase : bool) (r : regex) (prev : option ascii)
    (s : string) : outcome :=
  rmatch icase r prev s [] (fun p' s' c' => Some (p', s', c')).

(** [re.finditer]: the matches from left to right, none overlapping; the
    scan resumes where a match ended (one character further when the
    match was empty or there was none). *)
Fixpoint finditer_from (fuel : nat) (icase : bool) (r : regex)
    (prev : option ascii) (s : string) : list caps :=
  match fuel with
  | O => []
  | S fuel' =>
      let step :=
        match s with
        | String a s1 => finditer_from fuel' icase r (Some a) s1
        | EmptyString => []
        end in
      match match_here icase r prev s with
      | Some (p', s', c) =>
          if (String.length s' <? String.length s)%nat
          then c :: finditer_from fuel' icase r p' s'
          else c :: step
      | None => step
      end
  end.

Definition finditer (icase : bool) (r : regex) (s : string) : list caps :=
  finditer_from (S (String.length s)) icase r None s.

(** [re.search]: the leftmost match. *)
Fixpoint search_from (fuel : nat) (icase : bool) (r : regex)
    (prev : option ascii) (s : string) : option caps :=
  match fuel with
  | O => None
  | S fuel' =>
      match match_here icase r prev s with
      | Some (_, _, c) => Some c
      | None =>
          match s with
          | String a s1 => search_from fuel' icase r (Some a) s1
          | EmptyString => None
          end
      end
  end.

Definition search (icase : bool) (r : regex) (s : string) : option caps :=
  search_from (S (String.length s)) icase r None s.

End Re.

(* ===================================================================== *)
(** ** Exceptions and floats *)
(* ===================================================================== *)

Inductive exn : Type := TypeError | ValueError | AttributeError.

(** The result of a computation that may raise. *)
Inductive res (A : Type) : Type :=
| Ok (a : A)
| Raise (e : exn).
Arguments Ok {A} a.
Arguments Raise {A} e.

Definition bind {A B : Type} (m : res A) (f : A -> res B) : res B :=
  match m with
  | Ok a => f a
  | Raise e => Raise e
  end.

Notation "x <- m ;; k" := (bind m (fun x => k))
  (at level 61, m at next level, right associativity).

(** [try: m  except: handler] with a bare [except]. *)
Definition try_except {A : Type} (m : res A) (handler : A) : A :=
  match m with
  | Ok a => a
  | Raise _ => handler
  end.

(** A Python [float].  A finite float is kept as the decimal number it was
    read from; the rounding to binary64 is not modelled. *)
Inductive pyfloat : Type :=
| Fin (q : Q)
| Inf (negative : bool)
| NaN.

(** [a < b] on floats. *)
Definition float_lt (a b : pyfloat) : bool :=
  match a, b with
  | NaN, _ | _, NaN => false
  | Fin x, Fin y => negb (Qle_bool y x)
  | Fin _, Inf neg => negb neg
  | Inf neg, Fin _ => neg
  | Inf n1, Inf n2 => n1 && negb n2
  end.

Module Decimal.

Definition digit_value (a : ascii) : Z := Z.of_nat (PyStr.code a - 48).

(** The digits of [s] read in base ten after [acc], and how many there
    were; [None] when a character is not a digit. *)
Fixpoint digits (acc : Z) (n : nat) (s : string) : option (Z * nat) :=
  match s with
  | EmptyString => Some (acc, n)
  | String a s' =>
      if PyStr.is_digit a
      then digits (10 * acc + digit_value a)%Z (S n) s'
      else None
  end.

(** The text before the first dot, and the text after it when there is
    one. *)
Fixpoint split_dot (s : string) : string * option string :=
  match s with
  | EmptyString => (EmptyString, None)
  | String a s' =>
      if Ascii.eqb a "." then (EmptyString, Some s')
      else let (i, f) := split_dot s' in (String a i, f)
  end.

(** The value of a plain decimal literal: digits, then possibly a dot and
    more digits. *)
Definition literal (s : string) : option Q :=
  let (i, f) := split_dot s in
  match digits 0 0 i with
  | Some (iv, S _) =>
      match f with
      | None => Some (Qred (Qmake iv 1))
      | Some fs =>
          match digits iv 0 fs with
          | Some (v, k) => Some (Qred (Qmake v (Z.to_pos (10 ^ Z.of_nat k))))
          | None => None
          end
      end
  | _ => None
  end.

End Decimal.

(* ===================================================================== *)
(** ** Constants of the module *)
(* ===================================================================== *)

Definition CURRENCY_MAP : list (string * string) :=
  [ ("$", "USD"); ("US$", "USD"); ("USD", "USD");
    ("A$", "AUD"); ("AU$", "AUD"); ("AUD", "AUD");
    ("£", "GBP"); ("GBP", "GBP");
    ("€", "EUR"); ("EUR", "EUR");
    ("INR", "INR"); ("₹", "INR") ].

(** [d.get(k)] on a dictionary with string keys. *)
Fixpoint dict_get {V : Type} (d : list (string * V)) (k : string) : option V :=
  match d with
  | [] => None
  | (k', v) :: d' => if String.eqb k' k then Some v else dict_get d' k
  end.

(** The canonical codes: the values of [CURRENCY_MAP]. *)
Definition canonical_codes : list string := ["USD"; "AUD"; "GBP"; "EUR"; "INR"].

Definition EDU_WORDS : list string :=
  List.map PyStr.lower
    [ "course"; "class"; "workshop"; "training"; "tutorial"; "webinar";
      "lecture"; "program"; "degree"; "diploma"; "certificate"; "bootcamp";
      "seminar"; "learn"; "education"; "study"; "mooc"; "lesson";
      "curriculum"; "module" ].

Module PriceRe.
Import Re.

(** [USD|AUD|EUR|GBP|INR|US\$|AU\$|A\$|\$|£|€|₹] *)
Definition symbol_or_code : regex :=
  alt [ Lit "USD"; Lit "AUD"; Lit "EUR"; Lit "GBP"; Lit "INR";
        Lit "US$"; Lit "AU$"; Lit "A$"; Lit "$"; Lit "£"; Lit "€"; Lit "₹" ].

(** [USD|AUD|EUR|GBP|INR] *)
Definition code_only : regex :=
  alt [ Lit "USD"; Lit "AUD"; Lit "EUR"; Lit "GBP"; Lit "INR" ].

(** [(?:\d{1,3}(?:,\d{3})*|\d+)(?:\.\d{1,2})?] *)
Definition amount : regex :=
  seq [ alt [ seq [ Rep 1 3 Digit; Star (seq [ Chr ","; Rep 3 3 Digit ]) ];
              Plus Digit ];
        Opt (seq [ Chr "."; Rep 1 2 Digit ]) ].

(** [(?:to|–|-|—|and)] *)
Definition separator : regex :=
  alt [ Lit "to"; Lit "–"; Lit "-"; Lit "—"; Lit "and" ].

(** The first alternative: a range. *)
Definition range : regex :=
  seq [ Opt (Group "curr" symbol_or_code); Star Space;
        Group "amt1" amount; Star Space;
        separator; Star Space;
        seq [ Opt (Group "curr_range" symbol_or_code); Star Space ];
        Opt (Group "amt2" amount);
        Opt (Group "curr2" code_only) ].

(** The second alternative: one amount. *)
Definition solo : regex :=
  seq [ Opt (Group "curr_solo" symbol_or_code); Star Space;
        Group "amt_solo" amount; Star Space;
        Opt (Group "curr2_solo" code_only) ].

End PriceRe.

(** [PRICE_RE], compiled with the flag [(?i)]. *)
Definition PRICE_RE : Re.regex := Re.Alt PriceRe.range PriceRe.solo.

(** [\b(20\d{2}-\d{2}-\d{2})\b], the pattern of [_rows_from_fallbacks]. *)
Definition ISO_DATE_RE : Re.regex :=
  Re.seq [ Re.WordB;
           Re.Group "1" (Re.seq [ Re.Lit "20"; Re.Rep 2 2 Re.Digit; Re.Chr "-";
                                  Re.Rep 2 2 Re.Digit; Re.Chr "-";
                                  Re.Rep 2 2 Re.Digit ]);
           Re.WordB ].

(* ===================================================================== *)
(** ** The normalizers *)
(* ===================================================================== *)

(** [_clean_text] on an [Optional[str]]. *)
Definition _clean_text (x : option string) : string :=
  match x with
  | Some s => if PyStr.truthy s then PyStr.strip (PyStr.collapse_ws s) else ""
  | None => ""
  end.

(** [_first] on strings: the first value that is neither [None] nor
    empty. *)
Fixpoint _first (values : list (option string)) : option string :=
  match values with
  | [] => None
  | Some s :: vs => if PyStr.truthy s then Some s else _first vs
  | None :: vs => _first vs
  end.

(** The table lookup of [_norm_currency] on a token that is already
    trimmed and upper-cased:
    [CURRENCY_MAP.get(cur, CURRENCY_MAP.get(cur.title(), cur))]. *)
Definition currency_lookup (cur : string) : string :=
  match dict_get CURRENCY_MAP cur with
  | Some code => code
  | None =>
      match dict_get CURRENCY_MAP (PyStr.title cur) with
      | Some code => code
      | None => cur
      end
  end.

Definition _norm_currency (cur : option string) : option string :=
  match cur with
  | None => None
  | Some s =>
      if PyStr.truthy s
      then Some (currency_lookup (PyStr.upper (PyStr.strip s)))
      else None
  end.

(** [x or y] on two [Optional[str]]. *)
Definition or_str (x y : option string) : option string :=
  match x with
  | Some s => if PyStr.truthy s then x else y
  | None => y
  end.

(** [bool(x)] on an [Optional[str]]. *)
Definition truthy_opt (x : option string) : bool :=
  match x with
  | Some s => PyStr.truthy s
  | None => false
  end.

Definition _looks_educational (text : string) : bool :=
  PyStr.any_in EDU_WORDS (PyStr.lower text).

Definition _classify_type (text : string) : string :=
  let t := PyStr.lower text in
  if PyStr.any_in ["youtube.com"; "vimeo.com"; "lecture"; "video"] t then "Video"
  else if PyStr.any_in ["webinar"; "seminar"; "workshop"; "conference"] t then "Seminar"
  else if PyStr.any_in ["course"; "bootcamp"; "mooc"; "degree"; "diploma"; "certificate"] t
       then "Course"
  else "Other".

Section Float.

(** The builtin [float()] on a text that is not a plain decimal literal
    (signs, exponents, [inf], [nan], surrounding blanks): [None] is
    [ValueError]. *)
Variable float_ext : string -> option pyfloat.

Definition py_float (s : string) : res pyfloat :=
  match Decimal.literal s with
  | Some q => Ok (Fin q)
  | None =>
      match float_ext s with
      | Some f => Ok f
      | None => Raise ValueError
      end
  end.

(** One match of [PRICE_RE] in [_extract_prices]. *)
Definition price_of_match (m : Re.caps) : list (pyfloat * option string) :=
  let amt := or_str (Re.group "amt1" m) (Re.group "amt_solo" m) in
  let cur := _norm_currency (_first
               [ Re.group "curr" m; Re.group "curr_range" m; Re.group "curr2" m;
                 Re.group "curr_solo" m; Re.group "curr2_solo" m ]) in
  match amt with
  | Some a =>
      if PyStr.truthy a
      then try_except (v <- py_float (PyStr.remove_char "," a) ;; Ok [(v, cur)]) []
      else []
  | None => []
  end.

Definition _extract_prices (text : string) : list (pyfloat * option string) :=
  flat_map price_of_match (Re.finditer true PRICE_RE text).

End Float.

(* ===================================================================== *)
(** ** Dates *)
(* ===================================================================== *)

(** A naive [datetime]. *)
Record datetime : Type := {
  year : Z; month : Z; day : Z;
  hour : Z; minute : Z; second : Z; microsecond : Z
}.

Module Calendar.

(** The number of the day [y-m-d] in the proleptic Gregorian calendar,
    counted from 1970-01-01. *)
Definition days_from_civil (y m d : Z) : Z :=
  let y' := (if m <=? 2 then y - 1 else y)%Z in
  let era := (y' / 400)%Z in
  let yoe := (y' - era * 400)%Z in
  let mp := ((m + 9) mod 12)%Z in
  let doy := ((153 * mp + 2) / 5 + d - 1)%Z in
  let doe := (yoe * 365 + yoe / 4 - yoe / 100 + doy)%Z in
  (era * 146097 + doe - 719468)%Z.

Definition ordinal (t : datetime) : Z :=
  days_from_civil (year t) (month t) (day t).

(** The time of the day in microseconds. *)
Definition time_of_day (t : datetime) : Z :=
  (((hour t * 60 + minute t) * 60 + second t) * 1000000 + microsecond t)%Z.

(** [a.date() < b.date()] *)
Definition date_lt (a b : datetime) : bool := (ordinal a <? ordinal b)%Z.

(** [(a - b).days]: a [timedelta] keeps its seconds and microseconds
    non-negative, so the days are rounded down. *)
Definition delta_days (a b : datetime) : Z :=
  (((ordinal a - ordinal b) * 86400000000 + (time_of_day a - time_of_day b))
   / 86400000000)%Z.

(** The decimal digits of a natural number, at least [width] of them. *)
Fixpoint digits_of (fuel : nat) (n : Z) (acc : string) : string :=
  match fuel with
  | O => acc
  | S fuel' =>
      let acc' := String (ascii_of_nat (48 + Z.to_nat (n mod 10))) acc in
      if (n / 10 =? 0)%Z then acc' else digits_of fuel' (n / 10)%Z acc'
  end.

Fixpoint zeros (n : nat) : string :=
  match n with
  | O => EmptyString
  | S n' => String "0" (zeros n')
  end.

Definition decimal (width : nat) (n : Z) : string :=
  let body := digits_of (S (Z.to_nat (Z.log2 (Z.abs n)))) (Z.abs n) "" in
  let padded := zeros (width - String.length body) ++ body in
  if (n <? 0)%Z then String "-" padded else padded.

(** [t.strftime("%Y-%m-%d")]; a year below 1000 is padded to four digits
    here (C libraries differ on that). *)
Definition strftime_ymd (t : datetime) : string :=
  decimal 4 (year t) ++ "-" ++ decimal 2 (month t) ++ "-" ++ decimal 2 (day t).

End Calendar.

(** [f"{d} {datetime.now().year + 1}"]: the text that [_to_iso] parses for
    the reinterpretation. *)
Definition with_next_year (now : datetime) (d : string) : string :=
  d ++ " " ++ Calendar.decimal 1 (year now + 1).

Section ToIso.

(** [dateparser.parse(text, settings)], the settings being those of
    [_to_iso] with [RELATIVE_BASE] the given instant; [None] when the text
    is not understood. *)
Variable dateparser_parse : string -> datetime -> option datetime.

(** [datetime.now()]: the instant of the call. *)
Variable now : datetime.

Definition _to_iso (d : option string) : option string :=
  match d with
  | None => None
  | Some d =>
      if negb (PyStr.truthy d) then None
      else
        let dt := dateparser_parse d now in
        let dt :=
          match dt with
          | Some t =>
              if Calendar.date_lt t now then
                match dateparser_parse (with_next_year now d) now with
                | Some alt =>
                    if (Calendar.delta_days alt now <? 400)%Z
                    then Some alt else dt
                | None => dt
                end
              else dt
          | None => None
          end in
        option_map Calendar.strftime_ymd dt
  end.

End ToIso.

(* ===================================================================== *)
(** ** Values read from JSON *)
(* ===================================================================== *)

(** What [json.loads] returns: [None], a [bool], an [int], a [float], a
    [str], a [list] or a [dict] with string keys. *)
Inductive json : Type :=
| JNull
| JBool (b : bool)
| JInt (z : Z)
| JFloat (f : pyfloat)
| JStr (s : string)
| JList (items : list json)
| JDict (fields : list (string * json)).

Module Py.

(** [bool(x)] *)
Definition truthy (x : json) : bool :=
  match x with
  | JNull => false
  | JBool b => b
  | JInt z => negb (z =? 0)%Z
  | JFloat (Fin q) => negb (Qeq_bool q 0)
  | JFloat _ => true
  | JStr s => PyStr.truthy s
  | JList items => match items with [] => false | _ => true end
  | JDict fields => match fields with [] => false | _ => true end
  end.

(** [x or y] *)
Definition or (x y : json) : json := if truthy x then x else y.

(** [d.get(k)]: [None] when the key is missing. *)
Definition get (d : list (string * json)) (k : string) : json :=
  match dict_get d k with
  | Some v => v
  | None => JNull
  end.

(** [d.get(k, default)] *)
Definition get_default (d : list (string * json)) (k : string) (default : json)
  : json :=
  match dict_get d k with
  | Some v => v
  | None => default
  end.

(** [k in d] *)
Definition has_key (d : list (string * json)) (k : string) : bool :=
  match dict_get d k with
  | Some _ => true
  | None => false
  end.

(** An [Optional[str]] as a value. *)
Definition of_opt (x : option string) : json :=
  match x with
  | Some s => JStr s
  | None => JNull
  end.

(** [v in (None, "", [], {})] *)
Definition is_blank (v : json) : bool :=
  match v with
  | JNull | JStr EmptyString | JList [] | JDict [] => true
  | _ => false
  end.

(** [x == [s1, s2, ...]] for a list of strings. *)
Fixpoint eq_str_list (items : list json) (ss : list string) : bool :=
  match items, ss with
  | [], [] => true
  | JStr s :: items', s' :: ss' => String.eqb s s' && eq_str_list items' ss'
  | _, _ => false
  end.

(** The strings of a list when every item is a string. *)
Fixpoint all_strings (items : list json) : option (list string) :=
  match items with
  | [] => Some []
  | JStr s :: items' => option_map (cons s) (all_strings items')
  | _ :: _ => None
  end.

(** [sep.join(items)]: a [TypeError] when an item is not a string. *)
Definition join (sep : string) (items : list json) : res string :=
  match all_strings items with
  | Some ss => Ok (PyStr.join sep ss)
  | None => Raise TypeError
  end.

End Py.

(* ===================================================================== *)
(** ** Program rows and parsed documents *)
(* ===================================================================== *)

(** A row: the dictionary with the twelve keys that every extractor
    builds.  A value [None] is [None]. *)
Record row : Type := {
  title : option string;
  description : option string;
  url : string;
  price : option pyfloat;
  currency : option string;
  start_date : option string;
  end_date : option string;
  mode : option string;
  venue : option string;
  city : option string;
  country : option string;
  type : option string
}.

(** An element of the parsed document, as far as the module looks at it:
    its name, its attributes, [.string] and [.get_text()]. *)
Record tag : Type := {
  tag_name : string;
  tag_attrs : list (string * string);
  tag_string : option string;
  tag_text : string
}.

(** [t.get(attr)] *)
Definition tag_get (t : tag) (attr : string) : option string :=
  dict_get (tag_attrs t) attr.

(** An element selected by ['[itemscope][itemtype]'], with the answers of
    its [select_one] queries. *)
Record microdata_item : Type := {
  itemtype : option string;
  name_tag : option tag;
  desc_tag : option tag;
  url_tag : option tag;
  start_tag : option tag;
  end_tag : option tag;
  price_tag : option tag;
  curr_tag : option tag;
  venue_tag : option tag;
  city_tag : option tag;
  country_tag : option tag
}.

(** An element selected by the list selectors: its descendant elements in
    document order and its [get_text(" ")]. *)
Record list_item : Type := {
  descendants : list tag;
  item_text : string
}.

(** A parsed document: the answers to the queries of the module. *)
Record soup : Type := {
  (* [.string] of each <script type="application/ld+json">, in order *)
  ld_json_scripts : list (option string);
  (* soup.select('[itemscope][itemtype]') *)
  microdata_items : list microdata_item;
  (* soup.select(",".join(selectors)) *)
  list_candidates : list list_item;
  (* soup.find("meta", property="og:title") and the like *)
  og_title : option tag;
  og_desc : option tag;
  tw_title : option tag;
  tw_desc : option tag;
  (* soup.title *)
  soup_title : option tag;
  (* soup.get_text(" ") *)
  soup_text : string
}.

(** [item.find(names, string=pred)]: the first descendant with one of the
    names whose [.string] passes [pred]. *)
Definition find_by_string (names : list string) (pred : option string -> bool)
    (item : list_item) : option tag :=
  find (fun t => existsb (String.eqb (tag_name t)) names && pred (tag_string t))
       (descendants item).

(** [item.find(name, href=True)] *)
Definition find_with_attr (name attr : string) (item : list_item) : option tag :=
  find (fun t => String.eqb (tag_name t) name &&
                 match tag_get t attr with Some _ => true | None => false end)
       (descendants item).

(** [lambda t: t and len(t.split()) > n] *)
Definition more_words_than (n : nat) (t : option string) : bool :=
  match t with
  | Some s => PyStr.truthy s && (n <? PyStr.count_words s)%nat
  | None => false
  end.

(** The parts of [urlparse(u)] that the module reads. *)
Record parse_result : Type := {
  netloc : string;
  fragment : string
}.

(** [prices[0] if prices else (None, None)] *)
Definition first_price (prices : list (pyfloat * option string))
  : option pyfloat * option string :=
  match prices with
  | (v, c) :: _ => (Some v, c)
  | [] => (None, None)
  end.

(* ===================================================================== *)
(** ** The extractors *)
(* ===================================================================== *)

Section Extractor.

(** The libraries (see the head of the file). *)
Variable BeautifulSoup : string -> soup.
Variable json_loads : string -> option json.         (* [None]: it raised *)
Variable py_repr : json -> string.                   (* [str(x)], [x] not a [str] *)
Variable float_ext : string -> option pyfloat.
Variable dateparser_parse : string -> datetime -> option datetime.
Variable now : datetime.
Variable urlparse : string -> res parse_result.
Variable urljoin : string -> string -> res string.

Local Abbreviation py_float := (py_float float_ext).
Local Abbreviation _extract_prices := (_extract_prices float_ext).
Local Abbreviation _to_iso := (_to_iso dateparser_parse now).

(** [str(x)] *)
Definition py_str (x : json) : string :=
  match x with
  | JStr s => s
  | _ => py_repr x
  end.

(** [_clean_text] on any value. *)
Definition _clean_text_any (x : json) : string :=
  if Py.truthy x then PyStr.strip (PyStr.collapse_ws (py_str x)) else "".

(** [_first] on any values. *)
Fixpoint _first_any (values : list json) : json :=
  match values with
  | [] => JNull
  | v :: vs => if Py.is_blank v then _first_any vs else v
  end.

Definition _coerce_str (x : json) : option string :=
  match x with
  | JNull => None
  | JList items => Some (_clean_text_any (_first_any items))
  | _ => Some (_clean_text (Some (py_str x)))
  end.

Definition _entity_name (ent : json) : option string :=
  match ent with
  | JDict d => _coerce_str (Py.or (Py.get d "name") (Py.get d "addressLocality"))
  | _ => _coerce_str ent
  end.

Definition _country_from_addr (addr : json) : option string :=
  match addr with
  | JDict d => _coerce_str (Py.get d "addressCountry")
  | _ => None
  end.

Definition _city_from_addr (addr : json) : option string :=
  match addr with
  | JDict d => _coerce_str (Py.or (Py.get d "addressLocality") (Py.get d "addressRegion"))
  | _ => None
  end.

(** [_norm_currency] on any value: [cur.strip()] is an [AttributeError]
    when [cur] is truthy and not a string. *)
Definition _norm_currency_any (cur : json) : res (option string) :=
  if negb (Py.truthy cur) then Ok None
  else match cur with
       | JStr s => Ok (_norm_currency (Some s))
       | _ => Raise AttributeError
       end.

(** [it.get]: an [AttributeError] when [it] is not a dictionary. *)
Definition as_dict (it : json) : res (list (string * json)) :=
  match it with
  | JDict d => Ok d
  | _ => Raise AttributeError
  end.

(** The body of the loop of [_from_offers], inside its [try]. *)
Definition offer_step (best : option pyfloat * option string) (it : json)
  : option pyfloat * option string :=
  try_except
    (d <- as_dict it ;;
     let p := Py.get d "price" in
     c <- _norm_currency_any (Py.get d "priceCurrency") ;;
     match p with
     | JNull => Ok best
     | _ =>
         pv <- py_float (py_str p) ;;
         match fst best with
         | None => Ok (Some pv, c)
         | Some b => if float_lt pv b then Ok (Some pv, c) else Ok best
         end
     end)
    best.

Definition _from_offers (offers : json) : option pyfloat * option string :=
  if negb (Py.truthy offers) then (None, None)
  else
    let items := match offers with JList l => l | _ => [offers] end in
    fold_left offer_step items (None, None).

(** [_clean_text(x) if x else None] *)
Definition clean_or_none (x : option string) : option string :=
  if truthy_opt x then Some (_clean_text x) else None.

(** [x or None] on an [Optional[str]]. *)
Definition or_none (x : option string) : option string := or_str x None.

(** [s or default] on a string. *)
Definition or_default (s default : string) : string :=
  if PyStr.truthy s then s else default.

(** The local function [add_row] of [_rows_from_jsonld]: the row that it
    appends, if it appends one. *)
Definition add_row (base_url : string)
    (name desc start end_ mode venue city country : option string)
    (price : option pyfloat) (currency : option string)
    (url : string) (rtype : option string) : list row :=
  let url := or_default url base_url in
  let r :=
    {| title := clean_or_none name;
       description := clean_or_none desc;
       url := url; price := price; currency := currency;
       start_date := _to_iso start; end_date := _to_iso end_;
       mode := or_none (_coerce_str (Py.of_opt mode));
       venue := clean_or_none venue;
       city := clean_or_none city;
       country := clean_or_none country;
       type := or_none rtype |} in
  if truthy_opt (title r) || truthy_opt (description r) then [r] else [].

(** [_coerce_str(x) or base_url] *)
Definition coerce_or (x : json) (base_url : string) : string :=
  match _coerce_str x with
  | Some s => or_default s base_url
  | None => base_url
  end.

Definition _rows_from_jsonld (obj : list (string * json)) (base_url : string)
  : res (list row) :=
  let typ_raw := Py.get_default obj "@type" (JStr "") in
  typ_raw <- match typ_raw with
             | JList items => s <- Py.join "," items ;; Ok (JStr s)
             | _ => Ok typ_raw
             end ;;
  let typ := PyStr.lower (py_str typ_raw) in
  if PyStr.any_in ["jobposting"; "person"; "organization"; "faqpage"; "article"] typ
  then Ok []
  else if PyStr.contains "course" typ ||
          match Py.get obj "@type" with
          | JList items => Py.eq_str_list items ["LearningResource"; "Course"]
          | _ => false
          end
  then
    let name := _coerce_str (Py.get obj "name") in
    let desc := _coerce_str (Py.get obj "description") in
    let url := coerce_or (Py.or (Py.get obj "url") (Py.get obj "mainEntityOfPage"))
                         base_url in
    let start := _coerce_str (Py.get obj "startDate") in
    let end_ := _coerce_str (Py.get obj "endDate") in
    let mode := _coerce_str (Py.get obj "courseMode") in
    let org := Py.or (Py.get obj "provider") (Py.get obj "organizer") in
    let venue := _entity_name org in
    let (price, currency) := _from_offers (Py.get obj "offers") in
    Ok (add_row base_url name desc start end_ mode venue None None
                price currency url (Some "Course"))
  else if PyStr.contains "event" typ
  then
    let name := _coerce_str (Py.get obj "name") in
    let desc := _coerce_str (Py.get obj "description") in
    let url := coerce_or (Py.get obj "url") base_url in
    let start := _coerce_str (Py.get obj "startDate") in
    let end_ := _coerce_str (Py.get obj "endDate") in
    let mode := _coerce_str (Py.get obj "eventAttendanceMode") in
    let loc := Py.or (Py.get obj "location") (JDict []) in
    let venue := _entity_name loc in
    let addr := match loc with JDict d => Py.get d "address" | _ => JNull end in
    let city := _city_from_addr addr in
    let country := _country_from_addr addr in
    let (price, currency) := _from_offers (Py.get obj "offers") in
    Ok (add_row base_url name desc start end_ mode venue city country
                price currency url (Some "Seminar"))
  else if PyStr.any_in ["creativework"; "learningresource"] typ
  then
    let name := _coerce_str (Py.get obj "name") in
    let desc := _coerce_str (Py.get obj "description") in
    let url := coerce_or (Py.get obj "url") base_url in
    Ok (add_row base_url name desc None None None None None None
                None None url None)
  else Ok [].

(** The dictionaries of a list. *)
Definition dicts_of (items : list json) : list (list (string * json)) :=
  flat_map (fun item => match item with JDict d => [d] | _ => [] end) items.

(** What one script block yields in [_iter_jsonld]. *)
Definition jsonld_of_script (s : option string) : list (list (string * json)) :=
  match json_loads (match or_str s (Some "{}") with Some t => t | None => "{}" end) with
  | None => []
  | Some (JList items) => dicts_of items
  | Some (JDict d) =>
      match dict_get d "@graph" with
      | Some (JList items) => dicts_of items
      | _ => [d]
      end
  | Some _ => []
  end.

Definition _iter_jsonld (sp : soup) : list (list (string * json)) :=
  flat_map jsonld_of_script (ld_json_scripts sp).

(** [t.get_text() if t else None] *)
Definition text_of (t : option tag) : option string := option_map tag_text t.

(** [_to_iso(t.get('content') if t else None) or _to_iso(t.get_text() if t else None)] *)
Definition date_of_tag (t : option tag) : option string :=
  or_str (_to_iso (match t with Some t => tag_get t "content" | None => None end))
         (_to_iso (text_of t)).

(** The row of one annotated element in [_rows_from_microdata]. *)
Definition microdata_row (item : microdata_item) (base_url : string)
  : res (list row) :=
  let itype := PyStr.lower (match or_str (itemtype item) (Some "") with
                            | Some t => t | None => "" end) in
  if PyStr.any_in ["course"; "event"; "education"] itype then
    let title := _clean_text (text_of (name_tag item)) in
    let desc := _clean_text (text_of (desc_tag item)) in
    let url2 := or_default
                  (_clean_text (match url_tag item with
                                | Some t => tag_get t "href"
                                | None => Some base_url
                                end))
                  base_url in
    url2 <- (if PyStr.truthy url2 then
               p <- urlparse url2 ;;
               if negb (PyStr.truthy (netloc p)) then urljoin base_url url2
               else Ok url2
             else Ok url2) ;;
    let price :=
      match price_tag item with
      | Some t =>
          if PyStr.truthy (tag_text t)
          then try_except (v <- py_float (PyStr.strip (tag_text t)) ;; Ok (Some v)) None
          else None
      | None => None
      end in
    let currency := _norm_currency (text_of (curr_tag item)) in
    Ok [ {| title := or_none (Some title);
            description := or_none (Some desc);
            url := url2; price := price; currency := currency;
            start_date := date_of_tag (start_tag item);
            end_date := date_of_tag (end_tag item);
            mode := None;
            venue := or_none (Some (_clean_text (text_of (venue_tag item))));
            city := or_none (Some (_clean_text (text_of (city_tag item))));
            country := or_none (Some (_clean_text (text_of (country_tag item))));
            type := Some (_classify_type itype) |} ]
  else Ok [].

(** [rows] after a loop that appends what [f] gives for each item; the
    first exception ends it. *)
Fixpoint collect {A : Type} (f : A -> res (list row)) (items : list A)
  : res (list row) :=
  match items with
  | [] => Ok []
  | x :: xs =>
      rs <- f x ;;
      rest <- collect f xs ;;
      Ok (rs ++ rest)%list
  end.

Definition _rows_from_microdata (sp : soup) (base_url : string) : res (list row) :=
  collect (fun item => microdata_row item base_url) (microdata_items sp).

(** The row of one candidate element in [_rows_from_lists]. *)
Definition list_row (item : list_item) (base_url : string) : res (list row) :=
  let title_tag := find_by_string ["h2"; "h3"; "h4"; "a"] (more_words_than 1) item in
  let link_tag := find_with_attr "a" "href" item in
  match title_tag, link_tag with
  | Some title_tag, Some link_tag =>
      let title := _clean_text (Some (tag_text title_tag)) in
      u <- urljoin base_url (match tag_get link_tag "href" with
                             | Some h => h | None => "" end) ;;
      p <- urlparse u ;;
      if negb (PyStr.truthy (netloc p)) || PyStr.truthy (fragment p) then Ok []
      else
        let desc_tag := find_by_string ["p"; "div"] (more_words_than 5) item in
        let desc := option_map (fun t => _clean_text (Some (tag_text t))) desc_tag in
        let combined := title ++ " " ++
                        match or_str desc (Some "") with Some d => d | None => "" end in
        if negb (_looks_educational combined) then Ok []
        else
          let prices := _extract_prices (item_text item) in
          let (price, currency) := first_price prices in
          let mode := if PyStr.any_in ["online"; "virtual"] (PyStr.lower (item_text item))
                      then Some "Online" else None in
          Ok [ {| title := Some title; description := desc; url := u;
                  price := price; currency := currency;
                  start_date := None; end_date := None; mode := mode;
                  venue := None; city := None; country := None;
                  type := Some (_classify_type combined) |} ]
  | _, _ => Ok []
  end.

Definition _rows_from_lists (sp : soup) (base_url : string) : res (list row) :=
  collect (fun item => list_row item base_url) (firstn 60 (list_candidates sp)).

(** [t.get("content") if t else None] *)
Definition content_of (t : option tag) : option string :=
  match t with
  | Some t => tag_get t "content"
  | None => None
  end.

Definition _rows_from_fallbacks (sp : soup) (base_url : string) : list row :=
  let page_title :=
    match soup_title sp with
    | Some t => if PyStr.truthy (tag_text t)
                then Some (_clean_text (Some (tag_text t))) else None
    | None => None
    end in
  let title := _first [content_of (og_title sp); content_of (tw_title sp); page_title] in
  let desc := _first [content_of (og_desc sp); content_of (tw_desc sp)] in
  let text := _clean_text (Some (soup_text sp)) in
  if negb (_looks_educational text) then []
  else
    let prices := _extract_prices text in
    let (price, currency) := first_price prices in
    let iso_date := Re.search false ISO_DATE_RE text in
    let start_date :=
      match iso_date with
      | Some m => _to_iso (Re.group "1" m)
      | None => None
      end in
    [ {| title := or_str (or_str title page_title) (Some "Program");
         description := or_none desc; url := base_url;
         price := price; currency := currency;
         start_date := start_date; end_date := None;
         mode := if PyStr.contains "online" (PyStr.lower text)
                 then Some "Online" else None;
         venue := None; city := None; country := None;
         type := Some (_classify_type text) |} ].

End Extractor.

(* ===================================================================== *)
(** ** Deduplication and the normalization pass *)
(* ===================================================================== *)

(** [str(x)] of an [Optional[str]]. *)
Definition str_of_opt (x : option string) : string :=
  match x with
  | Some s => s
  | None => "None"
  end.

(** The key of [_dedupe]. *)
Definition dedupe_key (r : row) : string * string :=
  (PyStr.lower (PyStr.strip (str_of_opt (title r))),
   PyStr.lower (PyStr.strip (url r))).

Definition key_eqb (a b : string * string) : bool :=
  String.eqb (fst a) (fst b) && String.eqb (snd a) (snd b).

(** [key in seen] *)
Definition seen_mem (key : string * string) (seen : list (string * string)) : bool :=
  existsb (key_eqb key) seen.

(** The loop of [_dedupe], from a given set [seen]. *)
Fixpoint dedupe_from (seen : list (string * string)) (rows : list row) : list row :=
  match rows with
  | [] => []
  | r :: rows' =>
      let key := dedupe_key r in
      if seen_mem key seen then dedupe_from seen rows'
      else r :: dedupe_from (key :: seen) rows'
  end.

Definition _dedupe (rows : list row) : list row := dedupe_from [] rows.

Definition ONLINE_WORDS : list string := ["online"; "virtual"; "remote"].
Definition IN_PERSON_WORDS : list string :=
  ["inperson"; "in-person"; "campus"; "onsite"; "on-site"; "classroom"].

(** The mode that the normalization pass of [extract_programs] stores. *)
Definition normalize_mode (raw : option string) : string :=
  let mode := PyStr.lower (match or_str raw (Some "") with
                           | Some m => m | None => "" end) in
  if PyStr.any_in ONLINE_WORDS mode then "Online"
  else if PyStr.any_in IN_PERSON_WORDS mode then "In-person"
  else match or_str raw (Some "Unknown") with
       | Some m => m
       | None => "Unknown"
       end.

(** [" ".join(parts)]: a [TypeError] when a part is [None]. *)
Definition join_opt (sep : string) (parts : list (option string)) : res string :=
  Py.join sep (List.map Py.of_opt parts).

(** The body of the normalization loop of [extract_programs] on one row. *)
Definition normalize_row (page_url : string) (r : row) : res row :=
  let title' := or_default (_clean_text (title r)) "Program" in
  let description' := or_str (Some (_clean_text (description r))) None in
  let url' := or_default (url r) page_url in
  let currency' := if truthy_opt (currency r) then _norm_currency (currency r)
                   else currency r in
  let mode' := normalize_mode (mode r) in
  type' <- (if truthy_opt (type r) then Ok (type r)
            else s <- join_opt " " [Some title'; description'] ;;
                 Ok (Some (_classify_type s))) ;;
  Ok {| title := Some title'; description := description'; url := url';
        price := price r; currency := currency';
        start_date := start_date r; end_date := end_date r;
        mode := Some mode';
        venue := venue r; city := city r; country := country r;
        type := type' |}.

(** The normalization loop. *)
Fixpoint normalize_rows (page_url : string) (rows : list row) : res (list row) :=
  match rows with
  | [] => Ok []
  | r :: rows' =>
      r' <- normalize_row page_url r ;;
      nr <- normalize_rows page_url rows' ;;
      Ok (r' :: nr)
  end.

(** [nr[:30]] when [len(nr) > 30]. *)
Definition cap (nr : list row) : list row :=
  if (30 <? List.length nr)%nat then firstn 30 nr else nr.

Section Pipeline.

Variable BeautifulSoup : string -> soup.
Variable json_loads : string -> option json.
Variable py_repr : json -> string.
Variable float_ext : string -> option pyfloat.
Variable dateparser_parse : string -> datetime -> option datetime.
Variable now : datetime.
Variable urlparse : string -> res parse_result.
Variable urljoin : string -> string -> res string.

(** The rows of the four extractors, as [extract_programs] gathers them
    from a parsed document. *)
Definition candidate_rows (sp : soup) (url : string) : res (list row) :=
  from_jsonld <- collect
                   (fun obj => _rows_from_jsonld py_repr float_ext
                                 dateparser_parse now obj url)
                   (_iter_jsonld json_loads sp) ;;
  from_microdata <- _rows_from_microdata float_ext dateparser_parse now
                      urlparse urljoin sp url ;;
  let rows := (from_jsonld ++ from_microdata)%list in
  rows <- (if (List.length rows <? 5)%nat
           then from_lists <- _rows_from_lists float_ext urlparse urljoin sp url ;;
                Ok (rows ++ from_lists)%list
           else Ok rows) ;;
  Ok (match rows with
      | [] => _rows_from_fallbacks float_ext dateparser_parse now sp url
      | _ => rows
      end).

(** The candidates after the normalization pass. *)
Definition normalized_rows (sp : soup) (url : string) : res (list row) :=
  rows <- candidate_rows sp url ;;
  normalize_rows url rows.

Definition extract_programs (html_raw url : string) : res (list row) :=
  if negb (PyStr.truthy html_raw) then Ok []
  else
    let sp := BeautifulSoup html_raw in
    nr <- normalized_rows sp url ;;
    Ok (cap (_dedupe nr)).

End Pipeline.

(* ===================================================================== *)
(** ** Vocabulary of the properties *)
(* ===================================================================== *)

(** The three labels of the delivery mode. *)
Definition canonical_modes : list string := ["Online"; "In-person"; "Unknown"].

(** [l1] is [l2] with some elements left out, the order kept. *)
Inductive subsequence {A : Type} : list A -> list A -> Prop :=
| sub_nil : subsequence [] []
| sub_skip (x : A) (l1 l2 : list A) :
    subsequence l1 l2 -> subsequence l1 (x :: l2)
| sub_keep (x : A) (l1 l2 : list A) :
    subsequence l1 l2 -> subsequence (x :: l1) (x :: l2).

(** The first row of [rows] with the key [k]. *)
Definition first_with_key (k : string * string) (rows : list row) : option row :=
  find (fun r => key_eqb (dedupe_key r) k) rows.

(** The rows with the key [k]. *)
Definition with_key (k : string * string) (rows : list row) : list row :=
  filter (fun r => key_eqb (dedupe_key r) k) rows.

(** A run of ASCII digits. *)
Fixpoint all_digits (s : string) : bool :=
  match s with
  | EmptyString => true
  | String a s' => PyStr.is_digit a && all_digits s'
  end.

Definition digit_chars : list ascii :=
  ["0"; "1"; "2"; "3"; "4"; "5"; "6"; "7"; "8"; "9"]%char.

(** The text after the first [n] characters. *)
Fixpoint drop (n : nat) (s : string) : string :=
  match n, s with
  | S n', String _ s' => drop n' s'
  | _, _ => s
  end.

Fixpoint last_char (s : string) : option ascii :=
  match s with
  | EmptyString => None
  | String a EmptyString => Some a
  | String _ s' => last_char s'
  end.

(** A part of a pattern that cannot start at a digit nor at the end of
    the text. *)
Definition rejects_digits (r : Re.regex) : Prop :=
  forall p s c k, all_digits s = true -> Re.rmatch true r p s c k = None.

(** Every white-space character is a blank and no two of them are
    adjacent ([prev_space]: the character before the text is one). *)
Fixpoint single_spaced_from (prev_space : bool) (s : string) : bool :=
  match s with
  | EmptyString => true
  | String a s' =>
      if PyStr.is_space a
      then Ascii.eqb a " " && negb prev_space && single_spaced_from true s'
      else single_spaced_from false s'
  end.

(** The first character is not white space. *)
Definition no_leading_space (s : string) : bool :=
  match s with
  | String a _ => negb (PyStr.is_space a)
  | EmptyString => true
  end.

(** The four labels of the resource type. *)
Definition type_labels : list string := ["Video"; "Seminar"; "Course"; "Other"].

(** The types that [_rows_from_jsonld] leaves out. *)
Definition DENIED_TYPES : list string :=
  ["jobposting"; "person"; "organization"; "faqpage"; "article"].

(** [str(typ_raw).lower()] in [_rows_from_jsonld], when it does not raise. *)
Definition jsonld_type (py_repr : json -> string) (obj : list (string * json))
  : option string :=
  match Py.get_default obj "@type" (JStr "") with
  | JList items =>
      match Py.join "," items with
      | Ok s => Some (PyStr.lower s)
      | Raise _ => None
      end
  | t => Some (PyStr.lower (match t with JStr s => s | _ => py_repr t end))
  end.

(** [tag.string or "{}"]: the text that [_iter_jsonld] hands to
    [json.loads]. *)
Definition script_text (s : option string) : string :=
  match or_str s (Some "{}") with
  | Some t => t
  | None => "{}"
  end.

(** The offers that [_from_offers] goes through. *)
Definition offer_items (offers : json) : list json :=
  match offers with
  | JList l => l
  | _ => [offers]
  end.

(** What the loop of [_from_offers] reads from one offer: its price and
    its currency, or nothing when the offer is skipped (it is not a
    dictionary, its currency is not a string, it has no price or the
    price is not a number). *)
Definition offer_quote (py_repr : json -> string)
    (float_ext : string -> option pyfloat) (it : json)
  : option (pyfloat * option string) :=
  match it with
  | JDict d =>
      match _norm_currency_any (Py.get d "priceCurrency") with
      | Ok c =>
          match Py.get d "price" with
          | JNull => None
          | p =>
              match py_float float_ext (py_str py_repr p) with
              | Ok pv => Some (pv, c)
              | Raise _ => None
              end
          end
      | Raise _ => None
      end
  | _ => None
  end.
(** The state of the loop of [_from_offers] after the offers [seen]. *)
Definition offers_invariant (py_repr : json -> string)
    (float_ext : string -> option pyfloat) (seen : list json)
    (best : option pyfloat * option string) : Prop :=
  match fst best with
  | None =>
      snd best = None /\
      forall it, In it seen -> offer_quote py_repr float_ext it = None
  | Some b =>
      (exists it, In it seen /\
                  offer_quote py_repr float_ext it = Some (b, snd best)) /\
      forall it pv c, In it seen ->
        offer_quote py_repr float_ext it = Some (pv, c) -> float_lt pv b = false
  end.





(** The test of [_rows_from_microdata] on an annotated element. *)
Definition microdata_selected (item : microdata_item) : bool :=
  PyStr.any_in ["course"; "event"; "education"]
    (PyStr.lower (match or_str (itemtype item) (Some "") with
                  | Some t => t | None => "" end)).

(** A field that is absent or a clean text that is not empty. *)
Definition clean_field (x : option string) : Prop :=
  x = None \/ exists t, x = Some t /\ t <> "" /\ _clean_text (Some t) = t.


(* ===================================================================== *)
(** ** The search page ([app.py]) *)
(* ===================================================================== *)

(** The helpers of [app.py] and the body of its loop over the rows of a
    page.  What the page displays ([st.error], [st.progress]) is not
    modelled.  The network and the libraries are variables: the search
    service ([GoogleSearch(params).get_dict()]), [dateparser.parse] with
    its default settings, and the product and the quotient of two
    floats. *)
Module App.

Definition EXCLUSION_TERMS : list string :=
  ["-jobs"; "-careers"; "-employment"; "-hire"; "-vacancy"; "-scholarship"].

Definition EXCHANGE_RATES : list (string * pyfloat) :=
  [ ("USD", Fin (1 # 1)%Q); ("AUD", Fin (65 # 100)%Q); ("GBP", Fin (125 # 100)%Q);
    ("EUR", Fin (108 # 100)%Q); ("INR", Fin (12 # 1000)%Q) ].

Definition EDU_KEYWORDS : list string :=
  [ "course"; "class"; "workshop"; "training"; "tutorial";
    "webinar"; "lecture"; "program"; "degree"; "diploma";
    "certificate"; "bootcamp"; "seminar"; "learn"; "education"; "study" ].

Definition is_educational (text : string) : bool :=
  PyStr.any_in EDU_KEYWORDS (PyStr.lower text).

Definition classify_type (text : string) : string :=
  let t := PyStr.lower text in
  if PyStr.any_in ["webinar"; "seminar"; "workshop"] t then "Seminar"
  else if PyStr.any_in ["video"; "youtube"; "lecture"] t then "Video"
  else if PyStr.any_in ["course"; "bootcamp"; "mooc"] t then "Course"
  else "Other".

Definition matches_location (combined_text country region : string) : bool :=
  let text := PyStr.lower combined_text in
  if String.eqb country "Any" then true
  else
    let c := PyStr.lower country in
    let r := PyStr.lower region in
    if String.eqb region "Any" then PyStr.contains c text
    else PyStr.contains c text || PyStr.contains r text.

(** [bool(f)] on a float. *)
Definition float_truthy (f : pyfloat) : bool := Py.truthy (JFloat f).

(** A byte of UTF-8 that continues a character. *)
Definition is_continuation (a : ascii) : bool :=
  let n := PyStr.code a in ((128 <=? n) && (n <=? 191))%nat.

(** [s[:n]] for [n >= 0]: the first [n] characters, a character being a
    byte that is no continuation with the continuations after it. *)
Fixpoint take_chars (n : nat) (s : string) : string :=
  match s with
  | EmptyString => EmptyString
  | String a s' =>
      if is_continuation a then String a (take_chars n s')
      else match n with
           | O => EmptyString
           | S n' => String a (take_chars n' s')
           end
  end.

(** [len(s)]: the number of characters. *)
Fixpoint char_count (s : string) : nat :=
  match s with
  | EmptyString => O
  | String a s' => (if is_continuation a then 0 else 1) + char_count s'
  end.

(** [l[:n]] on a list. *)
Definition slice_to {A : Type} (n : Z) (l : list A) : list A :=
  if (0 <=? n)%Z then firstn (Z.to_nat n) l
  else firstn (List.length l - Z.to_nat (- n)) l.

(** Whether [s[:n]] is the empty string. *)
Definition slice_is_empty (n : Z) (s : string) : bool :=
  if (0 <=? n)%Z then (n =? 0)%Z || negb (PyStr.truthy s)
  else (char_count s <=? Z.to_nat (- n))%nat.

(** [s.split()]: the maximal runs of characters that are not white
    space. *)
Fixpoint split (s : string) : list string :=
  match s with
  | EmptyString => []
  | String a s' =>
      if PyStr.is_space a then split s'
      else
        match s' with
        | EmptyString => [String a EmptyString]
        | String b _ =>
            if PyStr.is_space b then String a EmptyString :: split s'
            else match split s' with
                 | w :: ws => String a w :: ws
                 | [] => [String a EmptyString]
                 end
        end
  end.

(** A text without white space. *)
Fixpoint no_space (s : string) : bool :=
  match s with
  | EmptyString => true
  | String a s' => negb (PyStr.is_space a) && no_space s'
  end.

(** A word: a text without white space that is not empty. *)
Definition is_word (w : string) : bool := PyStr.truthy w && no_space w.

Definition preview_5_words (text : string) : string :=
  if negb (PyStr.truthy text) then ""
  else
    let words := split text in
    PyStr.join " " (firstn 5 words) ++
    (if (5 <? List.length words)%nat then "…" else "").

(** [llm_extract]: the hook is a placeholder and returns [None]. *)
Definition llm_extract (topic html url : string) : option (list row) := None.

(** A search result as [_run_serpapi_query] returns it. *)
Record hit : Type := {
  hit_title : json;
  hit_link : json;
  hit_snippet : json
}.

(** The filters of the search form. *)
Record filters : Type := {
  f_type : string;
  f_mode : string;
  f_cost : string;
  f_country : string;
  f_region : string
}.

(** A row with the key [price_usd] that the page adds. *)
Record program : Type := {
  fields : row;
  price_usd : option pyfloat
}.

(** [x == s] on an [Optional[str]]. *)
Definition opt_eqb (x : option string) (s : string) : bool :=
  match x with
  | Some t => String.eqb t s
  | None => false
  end.

Section Helpers.

(** [dateparser.parse(val)] with the default settings. *)
Variable dateparser_default : string -> option datetime.

(** [a * b] and [a / b] on floats. *)
Variable float_mul : pyfloat -> pyfloat -> pyfloat.
Variable float_div : pyfloat -> pyfloat -> pyfloat.

(** The key of the search service. *)
Variable API_KEY : string.

(** [GoogleSearch(params).get_dict()] for the query [q] and the number
    [num]; [None] when it raises. *)
Variable GoogleSearch : string -> Z -> option json.

Definition normalize_date (val : option string) : option string :=
  match val with
  | None => None
  | Some v =>
      if negb (PyStr.truthy v) then None
      else option_map Calendar.strftime_ymd (dateparser_default v)
  end.

(** [EXCHANGE_RATES["USD"]] is there, so that the last [None] is never
    returned. *)
Definition get_usd_price (price : option pyfloat) (currency : option string)
  : option pyfloat :=
  match price, currency with
  | Some p, Some c =>
      if negb (PyStr.truthy c) then None
      else
        match dict_get EXCHANGE_RATES (PyStr.upper c) with
        | Some rate =>
            if negb (float_truthy rate) then None
            else match dict_get EXCHANGE_RATES "USD" with
                 | Some usd => Some (float_mul p (float_div usd rate))
                 | None => None
                 end
        | None => None
        end
  | _, _ => None
  end.

(** The body of the loop of [_run_serpapi_query] on one result; [None]
    when [r.get] raises, [r] being no dictionary. *)
Definition hit_of (r : json) : option (list hit) :=
  match r with
  | JDict d =>
      let title := Py.get_default d "title" (JStr "") in
      let link := Py.get_default d "link" (JStr "") in
      let snippet := Py.get_default d "snippet" (JStr "") in
      Some (if Py.truthy link
            then [ {| hit_title := title; hit_link := link; hit_snippet := snippet |} ]
            else [])
  | _ => None
  end.

Fixpoint hits_of (organic : list json) : option (list hit) :=
  match organic with
  | [] => Some []
  | r :: rest =>
      match hit_of r with
      | Some hs =>
          match hits_of rest with
          | Some out => Some (hs ++ out)%list
          | None => None
          end
      | None => None
      end
  end.

(** [None] when it raises: the key is missing, the service raises, or
    the answer has not the form that the code reads. *)
Definition _run_serpapi_query (query : string) (max_results : Z)
  : option (list hit) :=
  if negb (PyStr.truthy API_KEY) then None
  else
    match GoogleSearch query max_results with
    | Some (JDict data) =>
        match Py.get_default data "organic_results" (JList []) with
        | JList l => hits_of (slice_to max_results l)
        | JStr s => if slice_is_empty max_results s then Some [] else None
        | _ => None
        end
    | _ => None
    end.

(** The words of the query without the place. *)
Definition base_parts (topic : string) (f : filters) : list string :=
  ([topic; "education"; "course OR workshop OR webinar OR training"]
   ++ EXCLUSION_TERMS
   ++ (if String.eqb (f_type f) "Course" then ["course"] else [])
   ++ (if String.eqb (f_type f) "Seminar" then ["seminar OR workshop"] else [])
   ++ (if String.eqb (f_type f) "Video" then ["video OR lecture"] else [])
   ++ (if String.eqb (f_mode f) "Online" then ["online"] else [])
   ++ (if String.eqb (f_mode f) "In-person" then ["in person OR on campus"] else [])
   ++ (if String.eqb (f_cost f) "Free" then ["free"] else [])
   ++ (if String.eqb (f_cost f) "Paid / Unknown" then ["fee OR $"] else []))%list.

(** The queries that [search_web] tries, in order. *)
Definition tries (topic : string) (f : filters) : list (list string) :=
  let country := f_country f in
  let region := f_region f in
  ((if negb (String.eqb country "Any") && negb (String.eqb region "Any")
    then [(base_parts topic f ++ [country; region])%list] else [])
   ++ (if negb (String.eqb country "Any")
       then [(base_parts topic f ++ [country])%list] else [])
   ++ [base_parts topic f])%list.

(** The loop of [search_web] over the queries. *)
Fixpoint first_result (max_results : Z) (queries : list (list string)) : list hit :=
  match queries with
  | [] => []
  | parts :: rest =>
      let res := match _run_serpapi_query (PyStr.join " " parts) max_results with
                 | Some res => res
                 | None => []
                 end in
      match res with
      | [] => first_result max_results rest
      | _ => res
      end
  end.

Definition search_web (topic : string) (f : filters) (max_results : Z) : list hit :=
  if negb (PyStr.truthy API_KEY) then []
  else first_result max_results (tries topic f).

(** The body of the loop over the rows of a page, for a search result
    with the title [hit_title], the page title [page_title] and the text
    [combined], the form naming [sel_country] and [sel_region]; the titles
    are strings. *)
Definition enrich_row (hit_title page_title combined sel_country sel_region : string)
    (r : row) : program :=
  let title' :=
    if negb (truthy_opt (title r)) || opt_eqb (title r) "Program"
    then Some (take_chars 140
                 (or_default hit_title (or_default page_title "Program")))
    else title r in
  let type' :=
    if negb (truthy_opt (type r)) || opt_eqb (type r) "Other"
    then Some (classify_type combined)
    else type r in
  let mode' :=
    if negb (truthy_opt (mode r)) || opt_eqb (mode r) "Unknown"
    then (if PyStr.contains "online" (PyStr.lower combined)
          then Some "Online" else mode r)
    else mode r in
  let country' :=
    if negb (truthy_opt (country r)) && negb (String.eqb sel_country "Any")
    then Some sel_country else country r in
  let city' :=
    if negb (truthy_opt (city r)) && negb (String.eqb sel_region "Any")
    then Some sel_region else city r in
  {| fields :=
       {| title := title'; description := description r; url := url r;
          price := price r; currency := currency r;
          start_date := normalize_date (start_date r);
          end_date := normalize_date (end_date r);
          mode := mode'; venue := venue r; city := city';
          country := country'; type := type' |};
     price_usd := get_usd_price (price r) (currency r) |}.

End Helpers.

(** A search result whose fields are strings, as the search service gives
    them. *)
Record result : Type := {
  r_title : string;
  r_link : string;
  r_snippet : string
}.

Section Page.

(** The libraries of the extractor. *)
Variable BeautifulSoup : string -> soup.
Variable json_loads : string -> option json.
Variable py_repr : json -> string.
Variable float_ext : string -> option pyfloat.
Variable dateparser_parse : string -> datetime -> option datetime.
Variable now : datetime.
Variable urlparse : string -> res parse_result.
Variable urljoin : string -> string -> res string.

Variable dateparser_default : string -> option datetime.
Variable float_mul : pyfloat -> pyfloat -> pyfloat.
Variable float_div : pyfloat -> pyfloat -> pyfloat.

(** [fetch_html], [get_page_title_from_html] and [html_to_text]: the
    network and the HTML parser; none of them raises. *)
Variable fetch_html : string -> string.
Variable get_page_title_from_html : string -> option string.
Variable html_to_text : string -> string.

(** The body of the loop over the search results: the records of one
    result, for the topic and the place of the form. *)
Definition page_rows (topic sel_country sel_region : string) (r : result)
  : res (list program) :=
  let html_raw := fetch_html (r_link r) in
  let page_title :=
    match or_str (or_str (get_page_title_from_html html_raw) (Some (r_title r)))
                 (Some "Program") with
    | Some t => t
    | None => "Program"
    end in
  let text := html_to_text html_raw in
  let combined := r_title r ++ " " ++ r_snippet r ++ " " ++ text in
  if negb (is_educational combined) then Ok []
  else if negb (matches_location combined sel_country sel_region) then Ok []
  else
    rows <- match llm_extract topic html_raw (r_link r) with
            | Some (x :: l) => Ok (x :: l)
            | _ => extract_programs BeautifulSoup json_loads py_repr float_ext
                     dateparser_parse now urlparse urljoin html_raw (r_link r)
            end ;;
    Ok (List.map (enrich_row dateparser_default float_mul float_div
                    (r_title r) page_title combined sel_country sel_region)
                 rows).

(** [all_rows] after the loop; the first exception ends it. *)
Fixpoint all_rows (topic sel_country sel_region : string) (results : list result)
  : res (list program) :=
  match results with
  | [] => Ok []
  | r :: rest =>
      rows <- page_rows topic sel_country sel_region r ;;
      more <- all_rows topic sel_country sel_region rest ;;
      Ok (rows ++ more)%list
  end.

End Page.

End App.

(* ===================================================================== *)
(** ** The store ([database.py]) *)
(* ===================================================================== *)

(** The tables of [database.py] and the statements that its functions run
    on them.  A table is the list of its rows in the order of their
    insertion, which is the order of their ids.  One connection works at
    a time.  The columns [created_at] and [last_scraped_at] and the table
    [queries] are left out: no function modelled here reads them.  An id
    is one more than the last id that the table has given; whether an
    [INSERT OR IGNORE] that is ignored uses up an id is not fixed by
    SQLite, and is a variable. *)
Module Db.

(** A row of [users]; the column [password_hash] receives the password as
    it is given. *)
Record user : Type := {
  user_id : Z;
  user_email : string;
  user_name : string;
  user_password_hash : string;
  user_role : string
}.

(** A row of [sources]. *)
Record source : Type := {
  source_id : Z;
  source_url : string
}.

(** A row of [programs]: its id, the id of its source, the thirteen
    columns that come from a record of the search page, and the mark
    [is_approved]. *)
Record stored : Type := {
  program_id : Z;
  program_source : Z;
  program : App.program;
  is_approved : Z
}.

Record t : Type := {
  users : list user;
  users_seq : Z;
  sources : list source;
  sources_seq : Z;
  programs : list stored;
  programs_seq : Z
}.

(** The tables after [create_database] on a new file. *)
Definition empty : t :=
  {| users := []; users_seq := 0; sources := []; sources_seq := 0;
     programs := []; programs_seq := 0 |}.

(** [LOWER(x)] of SQLite: the ASCII letters only. *)
Definition sql_lower : string -> string := PyStr.lower.

(** [s.split("@")[0]]: the text before the first [@]. *)
Fixpoint before_at (s : string) : string :=
  match s with
  | EmptyString => EmptyString
  | String a s' => if Ascii.eqb a "@" then EmptyString else String a (before_at s')
  end.

Definition create_user (d : t) (email name password role : string)
  : t * (bool * string) :=
  let email := PyStr.lower (PyStr.strip email) in
  let name := PyStr.strip name in
  if negb (PyStr.truthy email) || negb (PyStr.truthy password)
  then (d, (false, "Email and password are required."))
  else if existsb (fun u => String.eqb (user_email u) email) (users d)
  then (d, (false, "Email already exists."))
  else
    let id := (users_seq d + 1)%Z in
    ({| users := (users d ++
                  [ {| user_id := id; user_email := email;
                       user_name := or_default name (before_at email);
                       user_password_hash := password;
                       user_role := role |} ])%list;
        users_seq := id;
        sources := sources d; sources_seq := sources_seq d;
        programs := programs d; programs_seq := programs_seq d |},
     (true, "Account created.")).

Definition get_user_by_email (d : t) (email : string) : option user :=
  find (fun u => String.eqb (sql_lower (user_email u))
                            (sql_lower (PyStr.strip email)))
       (users d).

(** The dictionary that [verify_user] returns: id, email, name, role. *)
Definition verify_user (d : t) (email password : string)
  : option (Z * string * string * string) :=
  match get_user_by_email d email with
  | None => None
  | Some u =>
      if String.eqb password (user_password_hash u)
      then Some (user_id u, user_email u, user_name u, user_role u)
      else None
  end.

(** What SQLite keeps of a float: a NaN is stored as [NULL]. *)
Definition store_float (x : option pyfloat) : option pyfloat :=
  match x with
  | Some NaN => None
  | _ => x
  end.

(** Two values of a [UNIQUE] column collide: neither is [NULL] and they
    are the same text. *)
Definition collide (x y : option string) : bool :=
  match x, y with
  | Some a, Some b => String.eqb a b
  | _, _ => false
  end.

Section Store.

Variable urlparse : string -> res parse_result.

(** Whether an [INSERT OR IGNORE] that is ignored uses up an id. *)
Variable ignored_takes_id : bool.

Definition _domain_of (url : string) : string :=
  match urlparse url with
  | Ok p => PyStr.lower (or_default (netloc p) url)
  | Raise _ => PyStr.lower url
  end.

(** [INSERT OR IGNORE INTO sources(url) VALUES (?)] *)
Definition insert_source (d : t) (domain : string) : t :=
  let id := (sources_seq d + 1)%Z in
  if existsb (fun s => String.eqb (source_url s) domain) (sources d)
  then {| users := users d; users_seq := users_seq d;
          sources := sources d;
          sources_seq := if ignored_takes_id then id else sources_seq d;
          programs := programs d; programs_seq := programs_seq d |}
  else {| users := users d; users_seq := users_seq d;
          sources := (sources d ++ [ {| source_id := id; source_url := domain |} ])%list;
          sources_seq := id;
          programs := programs d; programs_seq := programs_seq d |}.

(** [SELECT id FROM sources WHERE url=?], then [fetchone()[0]]: a
    [TypeError] when there is no such row. *)
Definition select_source (d : t) (domain : string) : res Z :=
  match find (fun s => String.eqb (source_url s) domain) (sources d) with
  | Some s => Ok (source_id s)
  | None => Raise TypeError
  end.

Definition _ensure_source_within (d : t) (program_url : string) : res (t * Z) :=
  let domain := _domain_of program_url in
  let d := insert_source d domain in
  id <- select_source d domain ;;
  Ok (d, id).

(** The columns that [save_program_rows] binds for the record [p] with
    the url [program_url]. *)
Definition columns (program_url : string) (p : App.program) : App.program :=
  let r := App.fields p in
  {| App.fields :=
       {| title := title r; description := description r; url := program_url;
          price := store_float (price r); currency := currency r;
          start_date := start_date r; end_date := end_date r;
          mode := mode r; venue := venue r; city := city r;
          country := country r; type := type r |};
     App.price_usd := store_float (App.price_usd p) |}.

(** [INSERT OR IGNORE INTO programs (...) VALUES (...)], the table being
    [UNIQUE(url, title)]. *)
Definition insert_program (d : t) (source : Z) (program_url : string)
    (p : App.program) : t :=
  let id := (programs_seq d + 1)%Z in
  if existsb (fun q => String.eqb (url (App.fields (program q))) program_url &&
                       collide (title (App.fields (program q)))
                               (title (App.fields p)))
             (programs d)
  then {| users := users d; users_seq := users_seq d;
          sources := sources d; sources_seq := sources_seq d;
          programs := programs d;
          programs_seq := if ignored_takes_id then id else programs_seq d |}
  else {| users := users d; users_seq := users_seq d;
          sources := sources d; sources_seq := sources_seq d;
          programs := (programs d ++
                       [ {| program_id := id; program_source := source;
                            program := columns program_url p;
                            is_approved := 1 |} ])%list;
          programs_seq := id |}.

(** The loop of [save_program_rows]. *)
Fixpoint save_rows (d : t) (rows : list App.program) : res t :=
  match rows with
  | [] => Ok d
  | p :: rest =>
      let program_url := or_default (url (App.fields p)) "" in
      if negb (PyStr.truthy program_url) then save_rows d rest
      else
        ds <- _ensure_source_within d program_url ;;
        save_rows (insert_program (fst ds) (snd ds) program_url p) rest
  end.

(** [Ok d']: the transaction is committed; [Raise e]: it is rolled back,
    the tables are as before, and [e] is raised again. *)
Definition save_program_rows (d : t) (rows : list App.program) : res t :=
  match rows with
  | [] => Ok d
  | _ => save_rows d rows
  end.

Definition save_result (d : t) (query title link content : string) : res t :=
  save_program_rows d
    [ {| App.fields :=
           {| title := Some (or_default title "Program");
              description := Some (or_default content "");
              url := link; price := None; currency := None;
              start_date := None; end_date := None;
              mode := Some "Unknown"; venue := None; city := None;
              country := None; type := Some "Other" |};
         App.price_usd := None |} ].

End Store.

(** [SELECT id, '' as query, COALESCE(title,'Program'), COALESCE(url,''),
    COALESCE(description,'') FROM programs ORDER BY id DESC] *)
Definition get_results (d : t) : list (Z * string * string * string * string) :=
  List.map (fun q =>
              let r := App.fields (program q) in
              (program_id q, "",
               match title r with Some s => s | None => "Program" end,
               url r,
               match description r with Some s => s | None => "" end))
           (rev (programs d)).

(** [UPDATE programs SET is_approved = 1 - is_approved WHERE id=?] *)
Definition toggle_program_approved (d : t) (pid : Z) : t :=
  {| users := users d; users_seq := users_seq d;
     sources := sources d; sources_seq := sources_seq d;
     programs :=
       List.map (fun q =>
                   if (program_id q =? pid)%Z
                   then {| program_id := program_id q;
                           program_source := program_source q;
                           program := program q;
                           is_approved := 1 - is_approved q |}
                   else q)
                (programs d);
     programs_seq := programs_seq d |}.

(** The three counts of [quick_stats]. *)
Definition quick_stats (d : t) : nat * nat * nat :=
  (List.length (programs d),
   List.length (filter (fun q => (is_approved q =? 1)%Z) (programs d)),
   List.length (sources d)).

(** The filters of the page of the programs. *)
Record listing_filters : Type := {
  lf_type : string;
  lf_mode : string;
  lf_cost : string;
  country_contains : string;
  city_contains : string
}.

(** [x = 0] and [x > 0] on a stored float. *)
Definition float_is_zero (x : pyfloat) : bool :=
  match x with
  | Fin q => Qeq_bool q 0
  | _ => false
  end.

Definition float_is_positive (x : pyfloat) : bool := float_lt (Fin 0) x.

Section Listing.

(** [x LIKE pattern] of SQLite on two texts. *)
Variable sql_like : string -> string -> bool.

(** [filters.get(k) and filters[k] != "Any"] *)
Definition chosen (v : string) : bool :=
  PyStr.truthy v && negb (String.eqb v "Any").

(** [LOWER(column) LIKE '%' || x.lower() || '%']; [NULL] is not like
    anything. *)
Definition contains_like (column : option string) (x : string) : bool :=
  match column with
  | Some c => sql_like (sql_lower c) ("%" ++ PyStr.lower x ++ "%")
  | None => false
  end.

(** The [WHERE] clause that [list_programs] puts together. *)
Definition listed (f : listing_filters) (q : stored) : bool :=
  let r := App.fields (program q) in
  (if chosen (lf_type f) then App.opt_eqb (type r) (lf_type f) else true) &&
  (if chosen (lf_mode f) then App.opt_eqb (mode r) (lf_mode f) else true) &&
  (if chosen (lf_cost f) then
     if String.eqb (lf_cost f) "Free"
     then match price r with None => true | Some x => float_is_zero x end
     else match price r with None => false | Some x => float_is_positive x end
   else true) &&
  (if PyStr.truthy (country_contains f)
   then contains_like (country r) (country_contains f) else true) &&
  (if PyStr.truthy (city_contains f)
   then contains_like (city r) (city_contains f) else true).

(** The rows of [list_programs]: id, title, type, mode, country, city,
    price, currency, url. *)
Definition list_programs (d : t) (f : listing_filters)
  : list (Z * option string * option string * option string * option string *
          option string * option pyfloat * option string * string) :=
  List.map (fun q =>
              let r := App.fields (program q) in
              (program_id q, title r, type r, mode r, country r, city r,
               price r, currency r, url r))
           (filter (listed f) (programs d)).

End Listing.

(** A text of ASCII characters. *)
Fixpoint ascii_text (s : string) : bool :=
  match s with
  | EmptyString => true
  | String a s' => (PyStr.code a <? 128)%nat && ascii_text s'
  end.

(** The key of the constraint [UNIQUE(url, title)] for a row with a
    title. *)
Definition unique_key (q : stored) : option (string * string) :=
  match title (App.fields (program q)) with
  | Some s => Some (url (App.fields (program q)), s)
  | None => None
  end.

(** The keys of the rows that have a title. *)
Definition program_keys (ps : list stored) : list (string * string) :=
  flat_map (fun q => match unique_key q with
                     | Some k => [k]
                     | None => []
                     end) ps.

(** What the functions keep true of the tables: the emails of the users
    are in lower case and all different; the urls of the sources are all
    different; a program has a url, the id of a source that is there, a
    mark that is 0 or 1, and, if it has a title, a pair of url and title
    that no other program has; the ids of a table are all different and
    none is above the last id given. *)
Record wf (d : t) : Prop := {
  wf_emails_lower : Forall (fun u => sql_lower (user_email u) = user_email u) (users d);
  wf_emails : NoDup (List.map user_email (users d));
  wf_user_ids : NoDup (List.map user_id (users d));
  wf_user_seq : Forall (fun u => (user_id u <= users_seq d)%Z) (users d);
  wf_source_urls : NoDup (List.map source_url (sources d));
  wf_source_ids : NoDup (List.map source_id (sources d));
  wf_source_seq : Forall (fun s => (source_id s <= sources_seq d)%Z) (sources d);
  wf_program_urls : Forall (fun q => url (App.fields (program q)) <> "") (programs d);
  wf_program_sources :
    Forall (fun q => In (program_source q) (List.map source_id (sources d)))
           (programs d);
  wf_program_marks :
    Forall (fun q => is_approved q = 0%Z \/ is_approved q = 1%Z) (programs d);
  wf_program_keys : NoDup (program_keys (programs d));
  wf_program_ids : NoDup (List.map program_id (programs d));
  wf_program_seq : Forall (fun q => (program_id q <= programs_seq d)%Z) (programs d)
}.

End Db.



(* ===================================================================== *)
(** ** Sample pages *)
(* ===================================================================== *)

(** Stand-ins for the libraries on a few concrete pages, to run the
    pipeline on them: the parsers are tables from a text to what the
    library gives for it. *)
Module Sample.

Definition dq : string := String (ascii_of_nat 34) EmptyString.
Definition quoted (s : string) : string := dq ++ s ++ dq.

(** The JSON text of a value made of strings, lists and objects. *)
Fixpoint show (j : json) : string :=
  match j with
  | JStr s => quoted s
  | JList items =>
      "[" ++ (fix go (l : list json) : string :=
                match l with
                | [] => ""
                | x :: l' =>
                    show x ++ match l' with [] => "" | _ => ", " ++ go l' end
                end) items ++ "]"
  | JDict fields =>
      "{" ++ (fix go (l : list (string * json)) : string :=
                match l with
                | [] => ""
                | (k, v) :: l' =>
                    quoted k ++ ": " ++ show v ++
                    match l' with [] => "" | _ => ", " ++ go l' end
                end) fields ++ "}"
  | _ => "null"
  end.

(** [json.loads] on the texts of the given values. *)
Definition loads (samples : list json) (text : string) : option json :=
  find (fun j => String.eqb (show j) text) samples.

Definition empty_soup : soup :=
  {| ld_json_scripts := []; microdata_items := []; list_candidates := [];
     og_title := None; og_desc := None; tw_title := None; tw_desc := None;
     soup_title := None; soup_text := "" |}.

(** The parser on the given pages. *)
Definition parser (pages : list (string * soup)) (html : string) : soup :=
  match dict_get pages html with
  | Some sp => sp
  | None => empty_soup
  end.

(** A page that is one JSON-LD block, and its parse. *)
Definition jsonld_page (j : json) : string :=
  "<script type='application/ld+json'>" ++ show j ++ "</script>".

Definition jsonld_soup (j : json) : soup :=
  {| ld_json_scripts := [Some (show j)];
     microdata_items := []; list_candidates := [];
     og_title := None; og_desc := None; tw_title := None; tw_desc := None;
     soup_title := None; soup_text := "" |}.

(** A page that is a paragraph of text, and its parse. *)
Definition text_page (text : string) : string := "<p>" ++ text ++ "</p>".

Definition text_soup (text : string) : soup :=
  {| ld_json_scripts := []; microdata_items := []; list_candidates := [];
     og_title := None; og_desc := None; tw_title := None; tw_desc := None;
     soup_title := None; soup_text := text |}.

Definition obj (fields : list (string * string)) : json :=
  JDict (List.map (fun kv => (fst kv, JStr (snd kv))) fields).

(** A typed object with a name and nothing else. *)
Definition untyped_work : json :=
  obj [("@type", "CreativeWork"); ("name", "Intro")].

(** A course whose mode names no keyword. *)
Definition hybrid_course : json :=
  obj [("@type", "Course"); ("name", "Intro"); ("courseMode", "Hybrid flexible")].

(** A course priced in a currency that the table does not list. *)
Definition cad_course : json :=
  JDict [ ("@type", JStr "Course"); ("name", JStr "Intro");
          ("offers", JDict [("price", JStr "10"); ("priceCurrency", JStr "CAD")]) ].

(** The same course twice, the second time in another case. *)
Definition twice : json :=
  JList [ obj [("@type", "Course"); ("name", "Intro to Rocq"); ("url", "http://host/a")];
          obj [("@type", "Course"); ("name", "Algebra"); ("url", "http://host/b")];
          obj [("@type", "Course"); ("name", "INTRO TO ROCQ "); ("url", "http://host/A")] ].

(** Forty courses with forty names. *)
Fixpoint marks (n : nat) : string :=
  match n with
  | O => ""
  | S n' => String "i" (marks n')
  end.

Definition numbered_course (n : nat) : json :=
  obj [("@type", "Course"); ("name", "Course " ++ marks n)].

Definition forty : json := JList (List.map numbered_course (seq 1 40)).

(** Thirty-one courses with thirty-one names, and the last of them once
    more. *)
Definition crowded : json :=
  JList (List.map numbered_course (seq 1 31) ++ [numbered_course 31])%list.

Definition samples : list json :=
  [untyped_work; hybrid_course; cad_course; twice; forty; crowded].

Definition pages : list (string * soup) :=
  (text_page "Grade 5 course", text_soup "Grade 5 course") ::
  List.map (fun j => (jsonld_page j, jsonld_soup j)) samples.

Definition no_float (s : string) : option pyfloat := None.
Definition no_date (s : string) (base : datetime) : option datetime := None.
Definition no_repr (x : json) : string := "".

Definition midnight (y m d : Z) : datetime :=
  {| year := y; month := m; day := d;
     hour := 0; minute := 0; second := 0; microsecond := 0 |}.

(** URLs of the form http://host/path. *)
Definition http_urlparse (u : string) : res parse_result :=
  Ok {| netloc := if PyStr.starts_with "http://" u then "host" else "";
        fragment := "" |}.

Definition http_urljoin (base u : string) : res string :=
  Ok (if PyStr.starts_with "http://" u then u else base ++ u).

(** The pipeline over the stand-ins. *)
Definition run (html_raw url : string) : res (list row) :=
  extract_programs (parser pages) (loads samples) no_repr no_float no_date
    (midnight 2026 11 4) http_urlparse http_urljoin html_raw url.

(** What the pipeline returns on a sample page ([[]] if it raises). *)
Definition output (html_raw url : string) : list row :=
  match run html_raw url with
  | Ok rows => rows
  | Raise _ => []
  end.

Definition forty_output : list row :=
  Eval vm_compute in output (jsonld_page forty) "http://x".

Definition twice_output : list row :=
  Eval vm_compute in output (jsonld_page twice) "http://x".


Definition cad_output : list row :=
  Eval vm_compute in output (jsonld_page cad_course) "http://x".


Definition crowded_output : list row :=
  Eval vm_compute in output (jsonld_page crowded) "http://x".

(** The normalized candidates of the crowded page. *)
Definition crowded_candidates : list row :=
  Eval vm_compute in
    match normalized_rows (loads samples) no_repr no_float no_date
            (midnight 2026 11 4) http_urlparse http_urljoin
            (jsonld_soup crowded) "http://x" with
    | Ok rows => rows
    | Raise _ => []
    end.



(** A list element: a link with the words "Grade 5 course". *)
Definition grade_item : list_item :=
  {| descendants :=
       [ {| tag_name := "a"; tag_attrs := [("href", "http://host/grade5")];
            tag_string := Some "Grade 5 course"; tag_text := "Grade 5 course" |} ];
     item_text := "Grade 5 course" |}.

Definition grade_rows : list row :=
  Eval vm_compute in
    match list_row no_float http_urlparse http_urljoin grade_item "http://host/" with
    | Ok rows => rows
    | Raise _ => []
    end.

(** The fourth of November 2026, at half past ten. *)
Definition november : datetime :=
  {| year := 2026; month := 11; day := 4;
     hour := 10; minute := 30; second := 0; microsecond := 0 |}.

(** A candidate row as an extractor may leave it, and what the
    normalization pass makes of it. *)
Definition raw_row : row :=
  {| title := Some "  Intro   to  Rocq "; description := Some "A   short course ";
     url := ""; price := None; currency := Some " usd";
     start_date := None; end_date := None; mode := Some "Virtual classroom";
     venue := None; city := None; country := None; type := None |}.

Definition normal_row : row :=
  Eval vm_compute in
    match normalize_row "http://x" raw_row with
    | Ok r => r
    | Raise _ => raw_row
    end.


(** The fields of the course whose mode names no keyword. *)
Definition hybrid_fields : list (string * json) :=
  [("@type", JStr "Course"); ("name", JStr "Intro");
   ("courseMode", JStr "Hybrid flexible")].

Definition hybrid_rows : list row :=
  Eval vm_compute in
    match _rows_from_jsonld no_repr no_float no_date (midnight 2026 11 4)
            hybrid_fields "http://x" with
    | Ok rows => rows
    | Raise _ => []
    end.

(** A page with one list element. *)
Definition list_soup : soup :=
  {| ld_json_scripts := []; microdata_items := []; list_candidates := [grade_item];
     og_title := None; og_desc := None; tw_title := None; tw_desc := None;
     soup_title := None; soup_text := "Grade 5 course" |}.

(** Two pages with the same good block, one of them with a broken block
    before it. *)
Definition broken_block : option string := Some "{broken".

Definition broken_soup : soup :=
  {| ld_json_scripts := [broken_block; Some (show hybrid_course)];
     microdata_items := []; list_candidates := [];
     og_title := None; og_desc := None; tw_title := None; tw_desc := None;
     soup_title := None; soup_text := "" |}.

(** Three offers: one in dollars, one that is no dictionary, a cheaper one
    in euros. *)
Definition three_offers : json :=
  JList [ JDict [("price", JStr "12"); ("priceCurrency", JStr "USD")];
          JStr "free";
          JDict [("price", JStr "9.50"); ("priceCurrency", JStr "EUR")] ].

(** An annotated element: a course with a name and nothing else. *)
Definition course_item : microdata_item :=
  {| itemtype := Some "https://schema.org/Course";
     name_tag := Some {| tag_name := "span"; tag_attrs := [];
                         tag_string := Some " Intro  to Rocq";
                         tag_text := " Intro  to Rocq" |};
     desc_tag := None; url_tag := None; start_tag := None; end_tag := None;
     price_tag := None; curr_tag := None; venue_tag := None; city_tag := None;
     country_tag := None |}.

(** A page with that element and one of another type. *)
Definition microdata_soup : soup :=
  {| ld_json_scripts := [];
     microdata_items :=
       [ course_item;
         {| itemtype := Some "https://schema.org/Person";
            name_tag := None; desc_tag := None; url_tag := None; start_tag := None;
            end_tag := None; price_tag := None; curr_tag := None; venue_tag := None;
            city_tag := None; country_tag := None |} ];
     list_candidates := [];
     og_title := None; og_desc := None; tw_title := None; tw_desc := None;
     soup_title := None; soup_text := "" |}.

Definition microdata_rows : list row :=
  Eval vm_compute in
    match _rows_from_microdata no_float no_date (midnight 2026 11 4)
            http_urlparse http_urljoin microdata_soup "http://host/" with
    | Ok rows => rows
    | Raise _ => []
    end.

(** Stand-ins for the libraries of the search page: a date parser that
    reads nothing, floats multiplied and divided as the rationals they
    were read from. *)
Definition no_default_date (s : string) : option datetime := None.

Definition exact_mul (a b : pyfloat) : pyfloat :=
  match a, b with
  | Fin x, Fin y => Fin (Qred (x * y))
  | _, _ => NaN
  end.

Definition exact_div (a b : pyfloat) : pyfloat :=
  match a, b with
  | Fin x, Fin y => Fin (Qred (x / y))
  | _, _ => NaN
  end.

(** A search service that answers every query with three results, the
    second of them without a link. *)
Definition three_results : json :=
  JDict [ ("organic_results",
           JList [ obj [("title", "Intro to Rocq"); ("link", "http://host/a");
                        ("snippet", "A course")];
                   obj [("title", "No link")];
                   obj [("title", "Algebra"); ("link", "http://host/b")] ]) ].

Definition search_service (q : string) (num : Z) : option json := Some three_results.

Definition any_filters : App.filters :=
  {| App.f_type := "Any"; App.f_mode := "Any"; App.f_cost := "Any";
     App.f_country := "Any"; App.f_region := "Any" |}.

(** The tables after the registration of one user. *)
Definition registered : Db.t :=
  Eval vm_compute in
    fst (Db.create_user Db.empty " Ada@Example.org " "" "difference" "user").

(** A record of the search page, and the tables after it was saved. *)
Definition saved_program : App.program :=
  {| App.fields :=
       {| title := Some "Intro to Rocq"; description := None;
          url := "http://host/a"; price := Some (Fin (10 # 1)%Q);
          currency := Some "USD"; start_date := None; end_date := None;
          mode := Some "Online"; venue := None; city := None; country := None;
          type := Some "Course" |};
     App.price_usd := Some (Fin (10 # 1)%Q) |}.

Definition stocked : Db.t :=
  Eval vm_compute in
    match Db.save_program_rows http_urlparse true Db.empty [saved_program] with
    | Ok d => d
    | Raise _ => Db.empty
    end.

(** One search result, whose page is the page of the three courses. *)
Definition one_result : App.result :=
  {| App.r_title := "Intro to Rocq"; App.r_link := "http://x";
     App.r_snippet := "A course" |}.

Definition fetch (link : string) : string := jsonld_page twice.
Definition no_page_title (html : string) : option string := None.
Definition page_text (html : string) : string := "Intro course".

(** The records of the search, and the tables after they were saved. *)
Definition search_rows : list App.program :=
  Eval vm_compute in
    match App.all_rows (parser pages) (loads samples) no_repr no_float no_date
            (midnight 2026 11 4) http_urlparse http_urljoin no_default_date
            exact_mul exact_div fetch no_page_title page_text
            "rocq" "Any" "Any" [one_result] with
    | Ok ps => ps
    | Raise _ => []
    end.

Definition search_saved : Db.t :=
  Eval vm_compute in
    match Db.save_program_rows http_urlparse true Db.empty search_rows with
    | Ok d => d
    | Raise _ => Db.empty
    end.

(** A [LIKE] that holds of every text, and filters that choose
    nothing. *)
Definition like_all (x pattern : string) : bool := true.

Definition no_listing_filters : Db.listing_filters :=
  {| Db.lf_type := "Any"; Db.lf_mode := "Any"; Db.lf_cost := "Any";
     Db.country_contains := ""; Db.city_contains := "" |}.

(** The program of the stocked tables. *)
Definition stocked_program : Db.stored :=
  Eval vm_compute in
    match Db.programs stocked with
    | q :: _ => q
    | [] => {| Db.program_id := 0; Db.program_source := 0;
               Db.program := saved_program; Db.is_approved := 0 |}
    end.

End Sample.

(* ===================================================================== *)
(** ** Facts about the parts *)
(* ===================================================================== *)

Lemma bind_Ok {A B : Type} (m : res A) (f : A -> res B) (b : B) :
  bind m f = Ok b -> exists a, m = Ok a /\ f a = Ok b.
Proof.
  destruct m as [a | e]; simpl; intros H.
  - exists a; split; [reflexivity | exact H].
  - discriminate H.
Qed.

Lemma truthy_nonempty (s : string) : PyStr.truthy s = true <-> s <> "".
Proof.
  destruct s; simpl; split; intros H; congruence.
Qed.

Lemma or_default_truthy (s default : string) :
  PyStr.truthy default = true -> PyStr.truthy (or_default s default) = true.
Proof.
  intros Hd. unfold or_default. destruct (PyStr.truthy s) eqn:E; assumption.
Qed.

(** *** The normalization pass *)

Lemma normalize_rows_In (page_url : string) (rows nr : list row) :
  normalize_rows page_url rows = Ok nr ->
  forall r', In r' nr -> exists r, In r rows /\ normalize_row page_url r = Ok r'.
Proof.
  revert nr. induction rows as [| r rows IH]; simpl; intros nr H r' Hin.
  - injection H as <-. destruct Hin.
  - apply bind_Ok in H as (r1 & Hr1 & H).
    apply bind_Ok in H as (nr1 & Hnr1 & H).
    injection H as <-.
    destruct Hin as [<- | Hin].
    + exists r; auto.
    + destruct (IH nr1 Hnr1 r' Hin) as (r0 & Hin0 & Hr0).
      exists r0; auto.
Qed.

Lemma normalize_row_title (page_url : string) (r r' : row) :
  normalize_row page_url r = Ok r' ->
  title r' = Some (or_default (_clean_text (title r)) "Program").
Proof.
  unfold normalize_row. intros H.
  apply bind_Ok in H as (t & _ & H). injection H as <-. reflexivity.
Qed.


Lemma normalize_row_currency (page_url : string) (r r' : row) :
  normalize_row page_url r = Ok r' ->
  currency r' = if truthy_opt (currency r) then _norm_currency (currency r)
                else currency r.
Proof.
  unfold normalize_row. intros H.
  apply bind_Ok in H as (t & _ & H). injection H as <-. reflexivity.
Qed.

Lemma normalize_row_mode (page_url : string) (r r' : row) :
  normalize_row page_url r = Ok r' -> mode r' = Some (normalize_mode (mode r)).
Proof.
  unfold normalize_row. intros H.
  apply bind_Ok in H as (t & _ & H). injection H as <-. reflexivity.
Qed.

(** *** The currency table *)

Lemma dict_get_In {V : Type} (d : list (string * V)) (k : string) (v : V) :
  dict_get d k = Some v -> In v (List.map snd d).
Proof.
  induction d as [| [k' v'] d IH]; simpl; intros H.
  - discriminate H.
  - destruct (String.eqb k' k).
    + injection H as ->. now left.
    + right. now apply IH.
Qed.

Lemma CURRENCY_MAP_values : incl (List.map snd CURRENCY_MAP) canonical_codes.
Proof.
  intros v Hv. simpl in Hv. unfold canonical_codes.
  repeat (destruct Hv as [<- | Hv]; [simpl; tauto |]). destruct Hv.
Qed.

(** A looked-up token is a canonical code or comes back as it was. *)
Lemma currency_lookup_cases (cur : string) :
  In (currency_lookup cur) canonical_codes \/
  (dict_get CURRENCY_MAP cur = None /\ currency_lookup cur = cur).
Proof.
  unfold currency_lookup.
  destruct (dict_get CURRENCY_MAP cur) as [code |] eqn:E1.
  - left. apply CURRENCY_MAP_values. eapply dict_get_In; eassumption.
  - destruct (dict_get CURRENCY_MAP (PyStr.title cur)) as [code |] eqn:E2.
    + left. apply CURRENCY_MAP_values. eapply dict_get_In; eassumption.
    + right. split; reflexivity.
Qed.

(** *** The mode *)

(** The stored mode is one of the three labels, or it is the raw text,
    which then holds no keyword of either family. *)
Lemma normalize_mode_cases (raw : option string) :
  In (normalize_mode raw) canonical_modes \/
  (raw = Some (normalize_mode raw) /\
   PyStr.truthy (normalize_mode raw) = true /\
   PyStr.any_in ONLINE_WORDS (PyStr.lower (normalize_mode raw)) = false /\
   PyStr.any_in IN_PERSON_WORDS (PyStr.lower (normalize_mode raw)) = false).
Proof.
  unfold normalize_mode, canonical_modes.
  destruct raw as [m |]; simpl or_str.
  - destruct (PyStr.truthy m) eqn:Et.
    + destruct (PyStr.any_in ONLINE_WORDS (PyStr.lower m)) eqn:E1;
        [left; simpl; tauto |].
      destruct (PyStr.any_in IN_PERSON_WORDS (PyStr.lower m)) eqn:E2;
        [left; simpl; tauto |].
      right. repeat split; assumption.
    + left. destruct m; [| discriminate Et]. vm_compute. tauto.
  - left. vm_compute. tauto.
Qed.

(** *** Deduplication *)

Lemma key_eqb_eq (a b : string * string) : key_eqb a b = true <-> a = b.
Proof.
  destruct a as [a1 a2], b as [b1 b2]. unfold key_eqb; simpl.
  rewrite andb_true_iff, !String.eqb_eq. split.
  - intros [-> ->]; reflexivity.
  - intros H; injection H as -> ->; auto.
Qed.

Lemma key_eqb_refl (a : string * string) : key_eqb a a = true.
Proof. now apply key_eqb_eq. Qed.

Lemma key_eqb_neq (a b : string * string) : key_eqb a b = false <-> a <> b.
Proof.
  split.
  - intros H E. apply key_eqb_eq in E. congruence.
  - intros H. destruct (key_eqb a b) eqn:E; [| reflexivity].
    apply key_eqb_eq in E. contradiction.
Qed.

Lemma seen_mem_In (key : string * string) (seen : list (string * string)) :
  seen_mem key seen = true <-> In key seen.
Proof.
  unfold seen_mem. rewrite existsb_exists. split.
  - intros (k & Hin & E). apply key_eqb_eq in E. now subst.
  - intros Hin. exists key. split; [assumption | apply key_eqb_refl].
Qed.

Lemma subsequence_refl {A : Type} (l : list A) : subsequence l l.
Proof. induction l; constructor; assumption. Qed.

Lemma subsequence_nil {A : Type} (l : list A) : subsequence [] l.
Proof. induction l; constructor; assumption. Qed.

Lemma subsequence_trans {A : Type} (l1 l2 l3 : list A) :
  subsequence l1 l2 -> subsequence l2 l3 -> subsequence l1 l3.
Proof.
  intros H12 H23. revert l1 H12.
  induction H23 as [| x l2 l3 H23 IH | x l2 l3 H23 IH]; intros l1 H12.
  - exact H12.
  - constructor. now apply IH.
  - inversion H12; subst.
    + apply sub_skip. now apply IH.
    + apply sub_keep. now apply IH.
Qed.

Lemma subsequence_In {A : Type} (l1 l2 : list A) (x : A) :
  subsequence l1 l2 -> In x l1 -> In x l2.
Proof.
  induction 1 as [| y l1 l2 H IH | y l1 l2 H IH]; simpl; intros Hin.
  - assumption.
  - right; auto.
  - destruct Hin; [left | right]; auto.
Qed.

Lemma firstn_subsequence {A : Type} (n : nat) (l : list A) :
  subsequence (firstn n l) l.
Proof.
  revert n. induction l as [| x l IH]; intros [| n]; simpl.
  - constructor.
  - constructor.
  - apply subsequence_nil.
  - apply sub_keep, IH.
Qed.

Lemma subsequence_map {A B : Type} (f : A -> B) (l1 l2 : list A) :
  subsequence l1 l2 -> subsequence (List.map f l1) (List.map f l2).
Proof. induction 1; simpl; constructor; assumption. Qed.

Lemma subsequence_NoDup {A : Type} (l1 l2 : list A) :
  subsequence l1 l2 -> NoDup l2 -> NoDup l1.
Proof.
  induction 1 as [| x l1 l2 H IH | x l1 l2 H IH]; intros Hnd.
  - assumption.
  - inversion Hnd; subst; auto.
  - inversion Hnd; subst. constructor; auto.
    intros Hin. eauto using subsequence_In.
Qed.

Lemma subsequence_filter {A : Type} (f : A -> bool) (l1 l2 : list A) :
  subsequence l1 l2 -> subsequence (filter f l1) (filter f l2).
Proof.
  induction 1 as [| x l1 l2 H IH | x l1 l2 H IH]; simpl.
  - constructor.
  - destruct (f x); [apply sub_skip |]; exact IH.
  - destruct (f x); [apply sub_keep |]; exact IH.
Qed.

Lemma subsequence_of_nil {A : Type} (l : list A) : subsequence l [] -> l = [].
Proof. intros H. inversion H. reflexivity. Qed.

Lemma subsequence_of_one {A : Type} (l : list A) (x : A) :
  subsequence l [x] -> l = [] \/ l = [x].
Proof.
  intros H. inversion H as [| y l1 l2 H' | y l1 l2 H']; subst.
  - left. now apply subsequence_of_nil.
  - right. f_equal. now apply subsequence_of_nil.
Qed.

Lemma dedupe_from_subsequence (seen : list (string * string)) (rows : list row) :
  subsequence (dedupe_from seen rows) rows.
Proof.
  revert seen. induction rows as [| r rows IH]; intros seen; simpl.
  - constructor.
  - destruct (seen_mem (dedupe_key r) seen); constructor; apply IH.
Qed.

Lemma dedupe_from_fresh (seen : list (string * string)) (rows : list row) (r : row) :
  In r (dedupe_from seen rows) -> ~ In (dedupe_key r) seen.
Proof.
  revert seen. induction rows as [| r0 rows IH]; intros seen; simpl.
  - intros [].
  - destruct (seen_mem (dedupe_key r0) seen) eqn:E.
    + apply IH.
    + intros [<- | Hin].
      * rewrite <- seen_mem_In. congruence.
      * intros Hs. apply (IH _ Hin). now right.
Qed.

Lemma dedupe_from_NoDup (seen : list (string * string)) (rows : list row) :
  NoDup (List.map dedupe_key (dedupe_from seen rows)).
Proof.
  revert seen. induction rows as [| r rows IH]; intros seen; simpl.
  - constructor.
  - destruct (seen_mem (dedupe_key r) seen) eqn:E.
    + apply IH.
    + simpl. constructor; [| apply IH].
      rewrite in_map_iff. intros (r' & Hk & Hin).
      apply dedupe_from_fresh in Hin. apply Hin. rewrite Hk. now left.
Qed.

Lemma dedupe_from_seen_key (seen : list (string * string)) (rows : list row)
    (k : string * string) :
  In k seen -> with_key k (dedupe_from seen rows) = [].
Proof.
  intros Hk. unfold with_key.
  destruct (filter _ _) as [| r l] eqn:E; [reflexivity |].
  assert (Hin : In r (filter (fun r => key_eqb (dedupe_key r) k)
                             (dedupe_from seen rows))) by (rewrite E; now left).
  apply filter_In in Hin as [Hin Hkey].
  apply key_eqb_eq in Hkey. apply dedupe_from_fresh in Hin. congruence.
Qed.

Lemma dedupe_from_first (seen : list (string * string)) (rows : list row)
    (k : string * string) (first : row) :
  ~ In k seen -> first_with_key k rows = Some first ->
  with_key k (dedupe_from seen rows) = [first].
Proof.
  revert seen. induction rows as [| r rows IH]; intros seen Hk Hf; simpl in *.
  - discriminate Hf.
  - unfold first_with_key in Hf; simpl in Hf.
    destruct (key_eqb (dedupe_key r) k) eqn:Ek.
    + injection Hf as <-. apply key_eqb_eq in Ek. subst k.
      destruct (seen_mem (dedupe_key r) seen) eqn:Es.
      * apply seen_mem_In in Es. contradiction.
      * unfold with_key; simpl. rewrite key_eqb_refl.
        f_equal. apply (dedupe_from_seen_key _ _ (dedupe_key r)). now left.
    + destruct (seen_mem (dedupe_key r) seen) eqn:Es.
      * now apply IH.
      * unfold with_key; simpl. rewrite Ek.
        apply IH; [| exact Hf].
        intros [E | Hin]; [| contradiction].
        apply key_eqb_neq in Ek. contradiction.
Qed.

Lemma dedupe_from_is_first (seen : list (string * string)) (rows : list row)
    (r : row) :
  In r (dedupe_from seen rows) -> first_with_key (dedupe_key r) rows = Some r.
Proof.
  revert seen. induction rows as [| r0 rows IH]; intros seen; simpl.
  - intros [].
  - unfold first_with_key; simpl.
    destruct (seen_mem (dedupe_key r0) seen) eqn:Es.
    + intros Hin.
      destruct (key_eqb (dedupe_key r0) (dedupe_key r)) eqn:Ek.
      * apply key_eqb_eq in Ek. apply dedupe_from_fresh in Hin.
        apply seen_mem_In in Es. congruence.
      * eapply IH; eassumption.
    + intros [<- | Hin].
      * now rewrite key_eqb_refl.
      * destruct (key_eqb (dedupe_key r0) (dedupe_key r)) eqn:Ek.
        -- apply key_eqb_eq in Ek. apply dedupe_from_fresh in Hin.
           exfalso. apply Hin. rewrite Ek. now left.
        -- eapply IH; eassumption.
Qed.

(** *** The cap *)

Lemma cap_firstn (nr : list row) : cap nr = firstn 30 nr.
Proof.
  unfold cap. destruct (30 <? List.length nr)%nat eqn:E; [reflexivity |].
  apply Nat.ltb_ge in E. symmetry. now apply firstn_all2.
Qed.

Lemma cap_length (nr : list row) : (List.length (cap nr) <= 30)%nat.
Proof. rewrite cap_firstn. apply firstn_le_length. Qed.

Lemma cap_subsequence (nr : list row) : subsequence (cap nr) nr.
Proof. rewrite cap_firstn. apply firstn_subsequence. Qed.

Lemma first_with_key_exists (rows : list row) (r : row) :
  In r rows -> exists first, first_with_key (dedupe_key r) rows = Some first.
Proof.
  intros Hin. unfold first_with_key.
  destruct (find _ rows) as [first |] eqn:E.
  - now exists first.
  - apply (find_none _ _ E) in Hin. now rewrite key_eqb_refl in Hin.
Qed.

(* ===================================================================== *)
(** ** Facts about the price pattern *)
(* ===================================================================== *)

Lemma digit_cases (a : ascii) : PyStr.is_digit a = true -> In a digit_chars.
Proof.
  destruct a as [[] [] [] [] [] [] [] []]; intros H; try discriminate H;
    simpl; tauto.
Qed.

Module ReFacts.
Import Re.

Lemma rmatch_Seq i r1 r2 p s c k :
  rmatch i (Seq r1 r2) p s c k =
  rmatch i r1 p s c (fun p' s' c' => rmatch i r2 p' s' c' k).
Proof. reflexivity. Qed.

Lemma rmatch_fails_on_digits (r : regex) :
  forall k : cont,
    (forall p s c, all_digits s = true -> k p s c = None) ->
    forall p s c, all_digits s = true -> rmatch true r p s c k = None.
Proof.
  induction r as [| a | | | | r1 IH1 r2 IH2 | r1 IH1 r2 IH2 | r1 IH1 | r1 IH1
                 | name r1 IH1]; intros k Hk p s c Hs; cbn [rmatch].
  - now apply Hk.
  - destruct s as [| b s']; [reflexivity |].
    simpl in Hs. apply andb_prop in Hs as [_ Hs].
    destruct (chr_eq true a b); [now apply Hk | reflexivity].
  - destruct s as [| b s']; [reflexivity |].
    simpl in Hs. apply andb_prop in Hs as [_ Hs].
    destruct (PyStr.is_digit b); [now apply Hk | reflexivity].
  - destruct s as [| b s']; [reflexivity |].
    simpl in Hs. apply andb_prop in Hs as [_ Hs].
    destruct (PyStr.is_space b); [now apply Hk | reflexivity].
  - destruct (at_boundary p s); [now apply Hk | reflexivity].
  - apply IH1; [| assumption]. intros. now apply IH2.
  - rewrite IH1 by assumption. now apply IH2.
  - rewrite IH1 by assumption. now apply Hk.
  - generalize (String.length s) as n. intros n. revert p s c Hs.
    induction n as [| n IHn]; intros p s c Hs.
    + now apply Hk.
    + rewrite IH1; [now apply Hk | | assumption].
      intros p' s' c' Hs'. destruct (String.length s' <? String.length s)%nat;
        [now apply IHn | reflexivity].
  - apply IH1; [| assumption]. intros. now apply Hk.
Qed.


Lemma rmatch_Alt i r1 r2 p s c k :
  rmatch i (Alt r1 r2) p s c k =
  match rmatch i r1 p s c k with
  | Some o => Some o
  | None => rmatch i r2 p s c k
  end.
Proof. reflexivity. Qed.

Lemma rmatch_Opt i r p s c k :
  rmatch i (Opt r) p s c k =
  match rmatch i r p s c k with
  | Some o => Some o
  | None => k p s c
  end.
Proof. reflexivity. Qed.

Lemma rmatch_Group i name r p s c k :
  rmatch i (Group name r) p s c k =
  rmatch i r p s c
    (fun p' s' c' =>
       k p' s' ((name, PyStr.take (String.length s - String.length s') s) :: c')).
Proof. reflexivity. Qed.

Lemma rmatch_Eps i p s c k : rmatch i Eps p s c k = k p s c.
Proof. reflexivity. Qed.

Lemma rmatch_Digit_cons i p d s c k :
  PyStr.is_digit d = true -> rmatch i Digit p (String d s) c k = k (Some d) s c.
Proof. intros H. cbn [rmatch]. now rewrite H. Qed.

Lemma rmatch_Digit_nil i p c k : rmatch i Digit p "" c k = None.
Proof. reflexivity. Qed.

Lemma Opt_skip r p s c k :
  rejects_digits r -> all_digits s = true -> rmatch true (Opt r) p s c k = k p s c.
Proof. intros Hr Hs. rewrite rmatch_Opt, Hr by assumption. reflexivity. Qed.

Lemma Star_skip r p s c k :
  rejects_digits r -> all_digits s = true -> rmatch true (Star r) p s c k = k p s c.
Proof.
  intros Hr Hs. cbn [rmatch]. destruct (String.length s); [reflexivity |].
  rewrite Hr by assumption. reflexivity.
Qed.

Ltac reject_at_digit :=
  let p := fresh "p" in let s := fresh "s" in let c := fresh "c" in
  let k := fresh "k" in let Hs := fresh "Hs" in let Hd := fresh "Hd" in
  intros p s c k Hs;
  destruct s as [| d s]; [reflexivity |];
  simpl in Hs; apply andb_prop in Hs as [Hd _];
  apply digit_cases in Hd; simpl in Hd;
  repeat (destruct Hd as [<- | Hd]; [reflexivity |]); destruct Hd.

Lemma Space_rejects : rejects_digits Space.
Proof. reject_at_digit. Qed.

Lemma separator_rejects : rejects_digits PriceRe.separator.
Proof. reject_at_digit. Qed.

Lemma symbol_rejects name : rejects_digits (Group name PriceRe.symbol_or_code).
Proof. reject_at_digit. Qed.

Lemma code_rejects name : rejects_digits (Group name PriceRe.code_only).
Proof. reject_at_digit. Qed.

Lemma thousands_rejects : rejects_digits (seq [Chr ","; Rep 3 3 Digit]).
Proof. reject_at_digit. Qed.

Lemma fraction_rejects : rejects_digits (seq [Chr "."; Rep 1 2 Digit]).
Proof. reject_at_digit. Qed.


Ltac split_digits H :=
  simpl in H; apply andb_prop in H;
  let Hd := fresh "Hd" in destruct H as [Hd H].

(** The amount at the head of a run of digits: its first three digits (or
    all, when there are fewer), when the rest of the pattern accepts what
    follows them. *)
Lemma amount_on_digits p ds c k o :
  ds <> "" -> all_digits ds = true ->
  k (last_char (PyStr.take 3 ds)) (drop 3 ds) c = Some o ->
  rmatch true PriceRe.amount p ds c k = Some o.
Proof.
  intros Hne Hds Hk.
  unfold PriceRe.amount. cbn [seq alt Rep upto Nat.sub].
  rewrite rmatch_Seq, rmatch_Alt, !rmatch_Seq.
  destruct ds as [| d1 t1]; [congruence |]. split_digits Hds.
  rewrite rmatch_Digit_cons by assumption. rewrite rmatch_Opt, rmatch_Seq.
  destruct t1 as [| d2 t2].
  { rewrite rmatch_Digit_nil.
    rewrite Star_skip by (exact thousands_rejects || reflexivity).
    rewrite Opt_skip by (exact fraction_rejects || reflexivity).
    simpl in Hk. rewrite Hk. reflexivity. }
  split_digits Hds.
  rewrite rmatch_Digit_cons by assumption. rewrite rmatch_Opt, rmatch_Seq.
  destruct t2 as [| d3 t3].
  { rewrite rmatch_Digit_nil.
    rewrite Star_skip by (exact thousands_rejects || reflexivity).
    rewrite Opt_skip by (exact fraction_rejects || reflexivity).
    simpl in Hk. rewrite Hk. reflexivity. }
  split_digits Hds.
  rewrite rmatch_Digit_cons by assumption. rewrite rmatch_Eps.
  rewrite Star_skip by (exact thousands_rejects || assumption).
  rewrite Opt_skip by (exact fraction_rejects || assumption).
  simpl in Hk. rewrite Hk. reflexivity.
Qed.


Lemma all_digits_drop n s : all_digits s = true -> all_digits (drop n s) = true.
Proof.
  revert s. induction n as [| n IH]; intros s Hs; [destruct s; exact Hs |].
  destruct s as [| a s]; [exact Hs |]. simpl in *.
  apply andb_prop in Hs as [_ Hs]. now apply IH.
Qed.

Lemma all_digits_take n s : all_digits s = true -> all_digits (PyStr.take n s) = true.
Proof.
  revert s. induction n as [| n IH]; intros s Hs; [reflexivity |].
  destruct s as [| a s]; [reflexivity |]. simpl in *.
  apply andb_prop in Hs as [Ha Hs]. rewrite Ha. now apply IH.
Qed.

Lemma take_length_drop n s :
  PyStr.take (String.length s - String.length (drop n s)) s = PyStr.take n s.
Proof.
  revert s. induction n as [| n IH]; intros s.
  - destruct s; simpl; [reflexivity |]. now rewrite Nat.sub_diag.
  - destruct s as [| a s]; [reflexivity |].
    cbn [drop]. specialize (IH s).
    assert (Hle : (String.length (drop n s) <= String.length s)%nat).
    { clear. revert s. induction n as [| n IHn]; intros s; [destruct s; simpl; lia |].
      destruct s as [| b s]; simpl; [lia |]. specialize (IHn s). lia. }
    replace (String.length (String a s) - String.length (drop n s))%nat
      with (S (String.length s - String.length (drop n s)))
      by (change (String.length (String a s)) with (S (String.length s)); lia).
    simpl. now rewrite IH.
Qed.

(** The single-amount alternative at the head of a run of digits. *)
Lemma solo_on_digits p ds :
  ds <> "" -> all_digits ds = true ->
  rmatch true PriceRe.solo p ds [] (fun p' s' c' => Some (p', s', c')) =
  Some (last_char (PyStr.take 3 ds), drop 3 ds, [("amt_solo", PyStr.take 3 ds)]).
Proof.
  intros Hne Hds. unfold PriceRe.solo. cbn [seq].
  rewrite rmatch_Seq, Opt_skip by (apply symbol_rejects || assumption).
  rewrite rmatch_Seq, Star_skip by (exact Space_rejects || assumption).
  rewrite rmatch_Seq, rmatch_Group.
  apply amount_on_digits; [assumption | assumption |].
  rewrite rmatch_Seq.
  rewrite Star_skip by (exact Space_rejects || now apply all_digits_drop).
  rewrite Opt_skip by (apply code_rejects || now apply all_digits_drop).
  now rewrite take_length_drop.
Qed.

(** The range alternative finds no separator in a run of digits. *)
Lemma range_on_digits p ds c k :
  all_digits ds = true -> rmatch true PriceRe.range p ds c k = None.
Proof.
  intros Hds. unfold PriceRe.range. cbn [seq].
  rewrite rmatch_Seq. apply rmatch_fails_on_digits; [| assumption].
  intros p1 s1 c1 H1.
  rewrite rmatch_Seq. apply rmatch_fails_on_digits; [| assumption].
  intros p2 s2 c2 H2.
  rewrite rmatch_Seq. apply rmatch_fails_on_digits; [| assumption].
  intros p3 s3 c3 H3.
  rewrite rmatch_Seq. apply rmatch_fails_on_digits; [| assumption].
  intros p4 s4 c4 H4.
  rewrite rmatch_Seq. now apply separator_rejects.
Qed.

Lemma PRICE_RE_on_digits p ds :
  ds <> "" -> all_digits ds = true ->
  match_here true PRICE_RE p ds =
  Some (last_char (PyStr.take 3 ds), drop 3 ds, [("amt_solo", PyStr.take 3 ds)]).
Proof.
  intros Hne Hds. unfold match_here, PRICE_RE.
  rewrite rmatch_Alt, range_on_digits by assumption.
  now apply solo_on_digits.
Qed.

End ReFacts.

Lemma remove_comma_digits s :
  all_digits s = true -> PyStr.remove_char "," s = s.
Proof.
  induction s as [| a s IH]; simpl; intros H; [reflexivity |].
  apply andb_prop in H as [Ha H]. rewrite (IH H).
  apply digit_cases in Ha. simpl in Ha.
  repeat (destruct Ha as [<- | Ha]; [reflexivity |]). destruct Ha.
Qed.

Lemma split_dot_digits s :
  all_digits s = true -> Decimal.split_dot s = (s, None).
Proof.
  induction s as [| a s IH]; simpl; intros H; [reflexivity |].
  apply andb_prop in H as [Ha H]. rewrite (IH H).
  apply digit_cases in Ha. simpl in Ha.
  repeat (destruct Ha as [<- | Ha]; [reflexivity |]). destruct Ha.
Qed.

Lemma digits_of_digits s acc n :
  all_digits s = true ->
  exists v, Decimal.digits acc n s = Some (v, (n + String.length s)%nat).
Proof.
  revert acc n. induction s as [| a s IH]; intros acc n H;
    cbn [Decimal.digits String.length]; simpl in H.
  - exists acc. now rewrite Nat.add_0_r.
  - apply andb_prop in H as [Ha H]. rewrite Ha.
    destruct (IH (10 * acc + Decimal.digit_value a)%Z (S n) H) as (v & Hv).
    exists v. rewrite Hv. f_equal. f_equal. lia.
Qed.

(** A non-empty run of digits is a decimal literal. *)
Lemma literal_of_digits s :
  s <> "" -> all_digits s = true -> exists q, Decimal.literal s = Some q.
Proof.
  intros Hne H. unfold Decimal.literal. rewrite split_dot_digits by assumption.
  destruct (digits_of_digits s 0 0 H) as (v & ->).
  destruct s as [| a s]; [congruence |]. simpl. eauto.
Qed.

Lemma price_of_digits (float_ext : string -> option pyfloat) (ds : string) :
  ds <> "" -> all_digits ds = true ->
  exists q rest,
    Decimal.literal (PyStr.take 3 ds) = Some q /\
    _extract_prices float_ext ds = (Fin q, None) :: rest.
Proof.
  intros Hne Hds.
  assert (Htk : all_digits (PyStr.take 3 ds) = true) by now apply ReFacts.all_digits_take.
  assert (Hne3 : PyStr.take 3 ds <> "") by (destruct ds; [congruence | discriminate]).
  destruct (literal_of_digits _ Hne3 Htk) as (q & Hq).
  assert (Hone : price_of_match float_ext [("amt_solo", PyStr.take 3 ds)] = [(Fin q, None)]).
  { unfold price_of_match. cbn [Re.group String.eqb Ascii.eqb Bool.eqb].
    cbn [or_str _first _norm_currency].
    destruct (PyStr.take 3 ds) as [| a tk] eqn:E; [congruence |].
    cbn [PyStr.truthy]. rewrite remove_comma_digits by assumption.
    unfold py_float. rewrite Hq. reflexivity. }
  unfold _extract_prices, Re.finditer. cbn [Re.finditer_from].
  rewrite ReFacts.PRICE_RE_on_digits by assumption.
  destruct (String.length (drop 3 ds) <? String.length ds)%nat;
    cbn [flat_map]; rewrite Hone; simpl; eauto.
Qed.

(* ===================================================================== *)
(** ** The pipeline *)
(* ===================================================================== *)

Section PipelineFacts.

Variable BeautifulSoup : string -> soup.
Variable json_loads : string -> option json.
Variable py_repr : json -> string.
Variable float_ext : string -> option pyfloat.
Variable dateparser_parse : string -> datetime -> option datetime.
Variable now : datetime.
Variable urlparse : string -> res parse_result.
Variable urljoin : string -> string -> res string.

(** What a returned list is made of: the normalized candidates [nr],
    deduplicated and capped. *)
Lemma extract_programs_Ok (html_raw url : string) (rows : list row) :
  extract_programs BeautifulSoup json_loads py_repr float_ext
    dateparser_parse now urlparse urljoin html_raw url = Ok rows ->
  exists nr,
    rows = cap (_dedupe nr) /\
    (PyStr.truthy html_raw = true ->
     normalized_rows json_loads py_repr float_ext dateparser_parse now
       urlparse urljoin (BeautifulSoup html_raw) url = Ok nr) /\
    (forall r', In r' nr -> exists r, normalize_row url r = Ok r').
Proof.
  unfold extract_programs. destruct (PyStr.truthy html_raw) eqn:Eh; simpl.
  - intros H. apply bind_Ok in H as (nr & Hnr & H). injection H as <-.
    exists nr. split; [reflexivity |]. split; [auto |].
    unfold normalized_rows in Hnr. apply bind_Ok in Hnr as (raw & _ & Hnr).
    intros r' Hin. destruct (normalize_rows_In _ _ _ Hnr r' Hin) as (r & _ & Hr).
    now exists r.
  - intros H. injection H as <-. exists []. split; [reflexivity |].
    split; [discriminate |]. intros r' [].
Qed.

Lemma extract_programs_In (html_raw url : string) (rows : list row) (r' : row) :
  extract_programs BeautifulSoup json_loads py_repr float_ext
    dateparser_parse now urlparse urljoin html_raw url = Ok rows -> In r' rows ->
  exists r, normalize_row url r = Ok r'.
Proof.
  intros H Hin. apply extract_programs_Ok in H as (nr & -> & _ & Hnr).
  apply Hnr. eapply subsequence_In; [| eassumption].
  eapply subsequence_trans; [apply cap_subsequence |].
  apply dedupe_from_subsequence.
Qed.


(** C9: an empty HTML text gives the empty list at once, whatever the URL:
    the parser and the extractors are not consulted and nothing is
    raised. *)
Theorem extract_programs_empty_html (url : string) :
  extract_programs BeautifulSoup json_loads py_repr float_ext
    dateparser_parse now urlparse urljoin "" url = Ok [].
Proof. reflexivity. Qed.

(** C2: a returned list has at most 30 records, however many candidates
    the extractors produced. *)
Theorem extract_programs_at_most_30 (html_raw url : string) (rows : list row) :
  extract_programs BeautifulSoup json_loads py_repr float_ext
    dateparser_parse now urlparse urljoin html_raw url = Ok rows -> (List.length rows <= 30)%nat.
Proof.
  intros H. apply extract_programs_Ok in H as (nr & -> & _).
  apply cap_length.
Qed.

(** C3, amended: no two records of a returned list share the key
    (lower-cased trimmed title, lower-cased trimmed url).  The list is the
    first 30 of the deduplicated candidates [_dedupe nr], in the order of
    the candidates, and every returned record is the first candidate with
    its key.  Of the candidates with one key exactly one record is in
    [_dedupe nr], the first of them; in the returned list it is the only
    record with that key, or the cap has cut it off, which does not
    happen when [_dedupe nr] has 30 records or fewer. *)
Theorem extract_programs_dedupes (html_raw url : string) (rows : list row) :
  extract_programs BeautifulSoup json_loads py_repr float_ext
    dateparser_parse now urlparse urljoin html_raw url = Ok rows ->
  NoDup (List.map dedupe_key rows) /\
  exists nr,
    (PyStr.truthy html_raw = true ->
     normalized_rows json_loads py_repr float_ext dateparser_parse now
       urlparse urljoin (BeautifulSoup html_raw) url = Ok nr) /\
    rows = firstn 30 (_dedupe nr) /\
    subsequence rows nr /\
    (forall r, In r rows -> first_with_key (dedupe_key r) nr = Some r) /\
    (forall r, In r nr ->
       exists first,
         first_with_key (dedupe_key r) nr = Some first /\
         with_key (dedupe_key r) (_dedupe nr) = [first] /\
         (with_key (dedupe_key r) rows = [first] \/
          with_key (dedupe_key r) rows = []) /\
         ((List.length (_dedupe nr) <= 30)%nat ->
          with_key (dedupe_key r) rows = [first])).
Proof.
  intros H. apply extract_programs_Ok in H as (nr & -> & Hnr & _).
  assert (Hsub : subsequence (cap (_dedupe nr)) (_dedupe nr))
    by apply cap_subsequence.
  split.
  - eapply subsequence_NoDup.
    + apply subsequence_map. exact Hsub.
    + apply dedupe_from_NoDup.
  - exists nr. split; [exact Hnr |]. split; [apply cap_firstn |]. split.
    + eapply subsequence_trans; [exact Hsub | apply dedupe_from_subsequence].
    + split.
      * intros r Hin. apply (dedupe_from_is_first []).
        eapply subsequence_In; eassumption.
      * intros r Hin. destruct (first_with_key_exists nr r Hin) as (first & Hf).
        assert (Hone : with_key (dedupe_key r) (_dedupe nr) = [first])
          by (apply dedupe_from_first; [intros [] | exact Hf]).
        exists first. split; [exact Hf |]. split; [exact Hone |]. split.
        -- apply or_comm, subsequence_of_one. rewrite <- Hone.
           apply subsequence_filter. exact Hsub.
        -- intros Hlen. rewrite cap_firstn, firstn_all2 by exact Hlen.
           exact Hone.
Qed.


(** C5, amended: the currency of a returned record is unset, or it is what
    the table lookup gives for a trimmed, upper-cased token: a
    canonical code (USD, AUD, GBP, EUR, INR), or, when the token is not a
    key of the table, the token itself. *)
Theorem extract_programs_currency (html_raw url : string) (rows : list row) :
  extract_programs BeautifulSoup json_loads py_repr float_ext
    dateparser_parse now urlparse urljoin html_raw url = Ok rows ->
  Forall (fun r' =>
            currency r' = None \/
            exists token,
              let cur := PyStr.upper (PyStr.strip token) in
              currency r' = Some (currency_lookup cur) /\
              (In (currency_lookup cur) canonical_codes \/
               (dict_get CURRENCY_MAP cur = None /\ currency_lookup cur = cur)))
         rows.
Proof.
  intros H. apply Forall_forall. intros r' Hin.
  destruct (extract_programs_In _ _ _ _ H Hin) as (r & Hr).
  rewrite (normalize_row_currency _ _ _ Hr).
  destruct (currency r) as [c |]; simpl; [| now left].
  right. exists c. cbv zeta.
  split; [| apply currency_lookup_cases].
  destruct (PyStr.truthy c) eqn:E; [reflexivity |].
  destruct c; [reflexivity | discriminate E].
Qed.


(** C1: a page whose only structured block is a typed creative work with
    a name and no description makes [extract_programs] raise: the row has
    no type and no description, and the normalization pass joins its
    title with [None]. *)
Theorem extract_programs_raises (html_raw url : string) :
  PyStr.truthy html_raw = true ->
  BeautifulSoup html_raw = Sample.jsonld_soup Sample.untyped_work ->
  json_loads (Sample.show Sample.untyped_work) = Some Sample.untyped_work ->
  extract_programs BeautifulSoup json_loads py_repr float_ext
    dateparser_parse now urlparse urljoin html_raw url = Raise TypeError.
Proof.
  intros Hh Hs Hj. unfold extract_programs. rewrite Hh, Hs. simpl negb. cbv iota.
  unfold normalized_rows, candidate_rows, _iter_jsonld, Sample.jsonld_soup.
  cbn [ld_json_scripts flat_map]. unfold jsonld_of_script.
  replace (match or_str (Some (Sample.show Sample.untyped_work)) (Some "{}") with
           | Some t => t | None => "{}" end)
    with (Sample.show Sample.untyped_work) by reflexivity.
  rewrite Hj. reflexivity.
Qed.

End PipelineFacts.

(** C7: the price matcher gives the lower bound 100 for both texts, but
    the currency USD only for "$100–150".  In "100 to 150 USD" the code
    stands after a blank, where the range alternative of the pattern does
    not look for it (the single-amount alternative does, and so does the
    range alternative when the code follows at once). *)
Theorem price_range_currency (float_ext : string -> option pyfloat) :
  _extract_prices float_ext "100 to 150 USD" = [(Fin (100 # 1)%Q, None)] /\
  _extract_prices float_ext "$100–150" = [(Fin (100 # 1)%Q, Some "USD")] /\
  _extract_prices float_ext "100 to 150USD" = [(Fin (100 # 1)%Q, Some "USD")] /\
  _extract_prices float_ext "150 USD" = [(Fin (150 # 1)%Q, Some "USD")].
Proof. split; [| split; [| split]]; vm_compute; reflexivity. Qed.

Section DateFacts.

Variable dateparser_parse : string -> datetime -> option datetime.
Variable now : datetime.


End DateFacts.

Section PriceFacts.

Variable float_ext : string -> option pyfloat.
Variable dateparser_parse : string -> datetime -> option datetime.
Variable now : datetime.
Variable urlparse : string -> res parse_result.
Variable urljoin : string -> string -> res string.

(** C10: a bare run of digits is a price without a currency, and the list
    extractor and the fallback extractor store the first pair of the text
    of their element as the price and the currency of the row; so the 5 of
    "Grade 5" becomes the price.  But the first pair of a run of digits
    is read from its first three digits only: "Grade 1234" gives 123, and
    then 4, where the range alternative reads the whole of 1234. *)
Theorem bare_number_is_a_price :
  (forall ds : string,
      ds <> "" -> all_digits ds = true ->
      exists q rest,
        Decimal.literal (PyStr.take 3 ds) = Some q /\
        _extract_prices float_ext ds = (Fin q, None) :: rest) /\
  _extract_prices float_ext "Grade 5" = [(Fin (5 # 1)%Q, None)] /\
  _extract_prices float_ext "Grade 1234"
  = [(Fin (123 # 1)%Q, None); (Fin (4 # 1)%Q, None)] /\
  _extract_prices float_ext "1234-1500"
  = [(Fin (1234 # 1)%Q, None); (Fin (0 # 1)%Q, None)] /\
  (forall (item : list_item) (base_url : string) (rows : list row) (r : row),
      list_row float_ext urlparse urljoin item base_url = Ok rows ->
      In r rows ->
      (price r, currency r) =
      first_price (_extract_prices float_ext (item_text item))) /\
  (forall (sp : soup) (base_url : string) (r : row),
      In r (_rows_from_fallbacks float_ext dateparser_parse now sp base_url) ->
      (price r, currency r) =
      first_price (_extract_prices float_ext (_clean_text (Some (soup_text sp))))).
Proof.
  split; [| split; [| split; [| split; [| split]]]].
  - intros ds Hne Hds. now apply price_of_digits.
  - vm_compute. reflexivity.
  - vm_compute. reflexivity.
  - vm_compute. reflexivity.
  - intros item base_url rows r H Hin. unfold list_row in H.
    destruct (find_by_string _ _ item) as [title_tag |];
      [| injection H as <-; destruct Hin].
    destruct (find_with_attr _ _ item) as [link_tag |];
      [| injection H as <-; destruct Hin].
    apply bind_Ok in H as (u & _ & H). apply bind_Ok in H as (p & _ & H).
    destruct (negb (PyStr.truthy (netloc p)) || PyStr.truthy (fragment p));
      [injection H as <-; destruct Hin |].
    destruct (negb (_looks_educational _)); [injection H as <-; destruct Hin |].
    destruct (first_price _) as [pr cu].
    injection H as <-. destruct Hin as [<- | []]. reflexivity.
  - intros sp base_url r Hin. unfold _rows_from_fallbacks in Hin.
    destruct (negb (_looks_educational _)); [destruct Hin |].
    destruct (first_price _) as [pr cu].
    destruct Hin as [<- | []]. reflexivity.
Qed.

End PriceFacts.

(* ===================================================================== *)
(** ** The properties on the sample pages *)
(* ===================================================================== *)

Lemma extract_programs_raises_witness :
  Sample.run (Sample.jsonld_page Sample.untyped_work) "http://x" = Raise TypeError.
Proof.
  unfold Sample.run. apply extract_programs_raises; reflexivity.
Defined.

Lemma extract_programs_at_most_30_witness :
  Sample.run (Sample.jsonld_page Sample.forty) "http://x" = Ok Sample.forty_output /\
  (List.length Sample.forty_output <= 30)%nat.
Proof.
  assert (H : Sample.run (Sample.jsonld_page Sample.forty) "http://x"
              = Ok Sample.forty_output) by (vm_compute; reflexivity).
  split; [exact H |]. unfold Sample.run in H.
  exact (extract_programs_at_most_30 _ _ _ _ _ _ _ _ _ _ _ H).
Defined.

Lemma extract_programs_dedupes_witness :
  Sample.run (Sample.jsonld_page Sample.twice) "http://x" = Ok Sample.twice_output /\
  NoDup (List.map dedupe_key Sample.twice_output) /\
  List.map title Sample.twice_output = [Some "Intro to Rocq"; Some "Algebra"].
Proof.
  assert (H : Sample.run (Sample.jsonld_page Sample.twice) "http://x"
              = Ok Sample.twice_output) by (vm_compute; reflexivity).
  split; [exact H |]. unfold Sample.run in H.
  split; [| reflexivity].
  exact (proj1 (extract_programs_dedupes _ _ _ _ _ _ _ _ _ _ _ H)).
Defined.


Lemma extract_programs_currency_witness :
  Sample.run (Sample.jsonld_page Sample.cad_course) "http://x" = Ok Sample.cad_output /\
  Forall (fun r' =>
            currency r' = None \/
            exists token,
              currency r' = Some (currency_lookup (PyStr.upper (PyStr.strip token))))
         Sample.cad_output.
Proof.
  assert (H : Sample.run (Sample.jsonld_page Sample.cad_course) "http://x"
              = Ok Sample.cad_output) by (vm_compute; reflexivity).
  split; [exact H |]. unfold Sample.run in H.
  eapply Forall_impl; [| exact (extract_programs_currency _ _ _ _ _ _ _ _ _ _ _ H)].
  intros r' [Hn | (token & Hc & _)]; [now left | right; now exists token].
Defined.



Lemma bare_number_is_a_price_witness :
  (exists q rest,
      Decimal.literal "202" = Some q /\
      _extract_prices Sample.no_float "2024" = (Fin q, None) :: rest) /\
  Forall (fun r => (price r, currency r) = (Some (Fin (5 # 1)%Q), None))
         Sample.grade_rows /\
  Forall (fun r => (price r, currency r) = (Some (Fin (5 # 1)%Q), None))
         (_rows_from_fallbacks Sample.no_float Sample.no_date Sample.november
            (Sample.text_soup "Grade 5 course") "http://x").
Proof.
  destruct (bare_number_is_a_price Sample.no_float Sample.no_date Sample.november
              Sample.http_urlparse Sample.http_urljoin)
    as (Hdigits & _ & _ & _ & Hlist & Hfallback).
  split; [| split].
  - apply (Hdigits "2024"); [discriminate | reflexivity].
  - apply Forall_forall. intros r Hin.
    rewrite (Hlist Sample.grade_item "http://host/" Sample.grade_rows r);
      [reflexivity | reflexivity | exact Hin].
  - apply Forall_forall. intros r Hin.
    rewrite (Hfallback _ _ r Hin). reflexivity.
Defined.

(** *** Where the claims as first stated fail *)

(** C3 as first stated: the thirty-first and the thirty-second candidate
    share a key, and no record with that key is returned. *)
Lemma capped_key_has_no_survivor :
  normalized_rows (Sample.loads Sample.samples) Sample.no_repr Sample.no_float
    Sample.no_date (Sample.midnight 2026 11 4) Sample.http_urlparse
    Sample.http_urljoin (Sample.jsonld_soup Sample.crowded) "http://x"
  = Ok Sample.crowded_candidates /\
  Sample.run (Sample.jsonld_page Sample.crowded) "http://x"
  = Ok Sample.crowded_output /\
  exists a b,
    nth_error Sample.crowded_candidates 30 = Some a /\
    nth_error Sample.crowded_candidates 31 = Some b /\
    dedupe_key a = dedupe_key b /\
    with_key (dedupe_key a) Sample.crowded_output = [].
Proof.
  split; [vm_compute; reflexivity |]. split; [vm_compute; reflexivity |].
  eexists. eexists. split; [reflexivity |]. split; [reflexivity |].
  split; vm_compute; reflexivity.
Qed.


(** C5 as first stated: a code that the table does not list is passed
    through. *)
Lemma unlisted_currency_passes_through :
  Sample.run (Sample.jsonld_page Sample.cad_course) "http://x" = Ok Sample.cad_output /\
  exists r, In r Sample.cad_output /\
            currency r = Some "CAD" /\ ~ In "CAD" canonical_codes.
Proof.
  split; [vm_compute; reflexivity |].
  eexists. split; [left; reflexivity |]. split; [reflexivity |].
  unfold canonical_codes. simpl. intros H.
  repeat (destruct H as [H | H]; [discriminate H |]). exact H.
Qed.



(* ===================================================================== *)
(** ** Further properties of the extractor *)
(* ===================================================================== *)

Module StrFacts.
Import PyStr.

Lemma is_space_upper a : is_space (upper_char a) = is_space a.
Proof. destruct a as [[] [] [] [] [] [] [] []]; reflexivity. Qed.


Lemma upper_char_idem a : upper_char (upper_char a) = upper_char a.
Proof. destruct a as [[] [] [] [] [] [] [] []]; reflexivity. Qed.

Lemma lower_char_idem a : lower_char (lower_char a) = lower_char a.
Proof. destruct a as [[] [] [] [] [] [] [] []]; reflexivity. Qed.

Lemma map_idem f s : (forall a, f (f a) = f a) -> map f (map f s) = map f s.
Proof. intros Hf. induction s as [| a s IH]; simpl; [reflexivity |]. now rewrite Hf, IH. Qed.

Lemma upper_idem s : upper (upper s) = upper s.
Proof. apply map_idem, upper_char_idem. Qed.

Lemma lower_idem s : lower (lower s) = lower s.
Proof. apply map_idem, lower_char_idem. Qed.

Lemma lstrip_no_leading s : no_leading_space (lstrip s) = true.
Proof.
  induction s as [| a s IH]; simpl; [reflexivity |].
  destruct (is_space a) eqn:E; [exact IH |]. simpl. now rewrite E.
Qed.

Lemma lstrip_fixed s : no_leading_space s = true -> lstrip s = s.
Proof.
  destruct s as [| a s]; simpl; [reflexivity |].
  destruct (is_space a); [discriminate | reflexivity].
Qed.

Lemma rstrip_idem s : rstrip (rstrip s) = rstrip s.
Proof.
  induction s as [| a s IH]; simpl; [reflexivity |].
  destruct (rstrip s) as [| b r] eqn:E.
  - destruct (is_space a) eqn:Ea; simpl; [reflexivity |]. now rewrite Ea.
  - simpl in *. now rewrite IH.
Qed.

Lemma rstrip_no_leading s :
  no_leading_space s = true -> no_leading_space (rstrip s) = true.
Proof.
  destruct s as [| a s]; simpl; [reflexivity |]. intros Ha.
  destruct (rstrip s); simpl; [| exact Ha].
  destruct (is_space a) eqn:E; [discriminate | simpl; now rewrite E].
Qed.

Lemma strip_no_leading s : no_leading_space (strip s) = true.
Proof. apply rstrip_no_leading, lstrip_no_leading. Qed.

Lemma strip_idem s : strip (strip s) = strip s.
Proof.
  unfold strip. rewrite (lstrip_fixed (rstrip (lstrip s))).
  - apply rstrip_idem.
  - apply rstrip_no_leading, lstrip_no_leading.
Qed.

Lemma lstrip_map f s :
  (forall a, is_space (f a) = is_space a) -> lstrip (map f s) = map f (lstrip s).
Proof.
  intros Hf. induction s as [| a s IH]; simpl; [reflexivity |].
  rewrite Hf. destruct (is_space a); [exact IH | reflexivity].
Qed.

Lemma rstrip_map f s :
  (forall a, is_space (f a) = is_space a) -> rstrip (map f s) = map f (rstrip s).
Proof.
  intros Hf. induction s as [| a s IH]; simpl; [reflexivity |].
  rewrite IH, Hf. destruct (rstrip s); simpl; [| reflexivity].
  destruct (is_space a); reflexivity.
Qed.

Lemma strip_upper s : strip (upper s) = upper (strip s).
Proof.
  unfold strip, upper. rewrite lstrip_map, rstrip_map by apply is_space_upper.
  reflexivity.
Qed.


(** The normal form of [collapse_ws]. *)
Lemma collapse_single_spaced b s :
  single_spaced_from b (collapse_ws_from b s) = true.
Proof.
  revert b. induction s as [| a s IH]; intros b; simpl; [reflexivity |].
  destruct (is_space a) eqn:E.
  - destruct b; [apply IH |]. simpl. apply IH.
  - simpl. rewrite E. apply IH.
Qed.

Lemma single_spaced_collapse b s :
  single_spaced_from b s = true -> collapse_ws_from b s = s.
Proof.
  revert b. induction s as [| a s IH]; intros b; simpl; [reflexivity |].
  destruct (is_space a) eqn:E.
  - intros H. apply andb_prop in H as [H Hs]. apply andb_prop in H as [Ha Hb].
    apply Ascii.eqb_eq in Ha. subst a. destruct b; [discriminate |].
    now rewrite IH.
  - intros H. now rewrite IH.
Qed.

Lemma single_spaced_weaken s :
  single_spaced_from true s = true -> single_spaced_from false s = true.
Proof.
  destruct s as [| a s]; simpl; [reflexivity |].
  destruct (is_space a); [| auto].
  intros H. apply andb_prop in H as [H _]. apply andb_prop in H as [_ H].
  discriminate H.
Qed.

Lemma single_spaced_lstrip s :
  single_spaced_from false s = true -> single_spaced_from false (lstrip s) = true.
Proof.
  destruct s as [| a s]; simpl; [reflexivity |].
  destruct (is_space a) eqn:E; [| simpl; now rewrite E].
  intros H. apply andb_prop in H as [_ H].
  destruct s as [| b s]; [reflexivity |]. simpl in *.
  destruct (is_space b) eqn:Eb.
  - apply andb_prop in H as [H _]. apply andb_prop in H as [_ H]. discriminate H.
  - simpl. now rewrite Eb.
Qed.

Lemma single_spaced_rstrip b s :
  single_spaced_from b s = true -> single_spaced_from b (rstrip s) = true.
Proof.
  revert b. induction s as [| a s IH]; intros b; simpl; [reflexivity |].
  destruct (is_space a) eqn:E.
  - intros H. apply andb_prop in H as [H Hs]. specialize (IH true Hs).
    destruct (rstrip s) as [| c r]; [reflexivity |].
    simpl. rewrite E, H. exact IH.
  - intros Hs. specialize (IH false Hs).
    destruct (rstrip s) as [| c r]; simpl; rewrite E; [reflexivity | exact IH].
Qed.

End StrFacts.

Lemma clean_text_idem (x : option string) :
  _clean_text (Some (_clean_text x)) = _clean_text x.
Proof.
  assert (H : forall s, _clean_text (Some (PyStr.strip (PyStr.collapse_ws s)))
                        = PyStr.strip (PyStr.collapse_ws s)).
  { intros s. unfold _clean_text.
    destruct (PyStr.truthy _) eqn:E;
      [| destruct (PyStr.strip _); [reflexivity | discriminate]].
    assert (Hss : single_spaced_from false (PyStr.strip (PyStr.collapse_ws s)) = true).
    { unfold PyStr.strip. apply StrFacts.single_spaced_rstrip,
        StrFacts.single_spaced_lstrip, StrFacts.collapse_single_spaced. }
    unfold PyStr.collapse_ws at 1. rewrite StrFacts.single_spaced_collapse by exact Hss.
    apply StrFacts.strip_idem. }
  destruct x as [s |]; [| reflexivity].
  unfold _clean_text at 2 3. destruct (PyStr.truthy s); [apply H | reflexivity].
Qed.

Lemma clean_text_normal (x : option string) :
  PyStr.strip (_clean_text x) = _clean_text x /\
  single_spaced_from false (_clean_text x) = true.
Proof.
  destruct x as [s |]; [| split; reflexivity]. unfold _clean_text.
  destruct (PyStr.truthy s); [| split; reflexivity]. split.
  - apply StrFacts.strip_idem.
  - unfold PyStr.strip. apply StrFacts.single_spaced_rstrip,
      StrFacts.single_spaced_lstrip, StrFacts.collapse_single_spaced.
Qed.

Lemma canonical_codes_fixed (code : string) :
  In code canonical_codes ->
  currency_lookup (PyStr.upper (PyStr.strip code)) = code.
Proof.
  unfold canonical_codes. simpl. intros H.
  repeat (destruct H as [<- | H]; [reflexivity |]). destruct H.
Qed.

(** The normalizer leaves its own results as they are. *)
Lemma norm_currency_stable (s c : string) :
  _norm_currency (Some s) = Some c -> c <> "" ->
  _norm_currency (Some c) = Some c.
Proof.
  unfold _norm_currency. destruct (PyStr.truthy s); [| discriminate].
  intros H Hc. injection H as H.
  apply truthy_nonempty in Hc. rewrite Hc. f_equal.
  destruct (currency_lookup_cases (PyStr.upper (PyStr.strip s))) as [Hin | [_ Hsame]].
  - rewrite H in Hin. now apply canonical_codes_fixed.
  - rewrite H in Hsame. rewrite Hsame at 1.
    rewrite StrFacts.strip_upper, StrFacts.strip_idem, StrFacts.upper_idem.
    rewrite Hsame at 1. congruence.
Qed.

Lemma classify_type_label (text : string) : In (_classify_type text) type_labels.
Proof.
  unfold _classify_type, type_labels.
  repeat match goal with |- context [if ?b then _ else _] => destruct b end;
    simpl; tauto.
Qed.

Lemma classify_type_truthy (text : string) : PyStr.truthy (_classify_type text) = true.
Proof.
  pose proof (classify_type_label text) as H. unfold type_labels in H. simpl in H.
  repeat (destruct H as [<- | H]; [reflexivity |]). destruct H.
Qed.

Lemma normalize_mode_idem (raw : option string) :
  normalize_mode (Some (normalize_mode raw)) = normalize_mode raw.
Proof.
  destruct (normalize_mode_cases raw) as [Hc | (_ & Ht & Ho & Hi)].
  - unfold canonical_modes in Hc. simpl in Hc.
    repeat (destruct Hc as [<- | Hc]; [reflexivity |]). destruct Hc.
  - unfold normalize_mode at 1. simpl or_str. rewrite Ht, Ho, Hi. reflexivity.
Qed.

Lemma or_default_idem (s d : string) : or_default (or_default s d) d = or_default s d.
Proof.
  unfold or_default. destruct (PyStr.truthy s) eqn:E; [now rewrite E |].
  destruct (PyStr.truthy d); reflexivity.
Qed.

Lemma clean_title_idem (t : option string) :
  or_default (_clean_text (Some (or_default (_clean_text t) "Program"))) "Program"
  = or_default (_clean_text t) "Program".
Proof.
  unfold or_default at 2 3. destruct (PyStr.truthy (_clean_text t)) eqn:E.
  - rewrite clean_text_idem. unfold or_default. now rewrite E.
  - reflexivity.
Qed.

Lemma clean_description_idem (d : option string) :
  or_str (Some (_clean_text (or_str (Some (_clean_text d)) None))) None
  = or_str (Some (_clean_text d)) None.
Proof.
  unfold or_str at 2 3. destruct (PyStr.truthy (_clean_text d)) eqn:E.
  - rewrite clean_text_idem. unfold or_str. now rewrite E.
  - reflexivity.
Qed.

Lemma renormalize_currency (c : option string) :
  let c' := if truthy_opt c then _norm_currency c else c in
  (if truthy_opt c' then _norm_currency c' else c') = c'.
Proof.
  cbv zeta. destruct c as [s |]; [| reflexivity].
  change (truthy_opt (Some s)) with (PyStr.truthy s).
  destruct (PyStr.truthy s) eqn:E.
  - remember (_norm_currency (Some s)) as c' eqn:Ex. symmetry in Ex.
    destruct c' as [x |]; [| reflexivity].
    change (truthy_opt (Some x)) with (PyStr.truthy x).
    destruct (PyStr.truthy x) eqn:Et; [| reflexivity].
    eapply norm_currency_stable; [exact Ex |]. now apply truthy_nonempty.
  - change (truthy_opt (Some s)) with (PyStr.truthy s). now rewrite E.
Qed.

(** The normalization pass changes nothing in a row that it has made,
    and does not raise on it. *)
Lemma normalize_row_idem (page_url : string) (r r' : row) :
  normalize_row page_url r = Ok r' -> normalize_row page_url r' = Ok r'.
Proof.
  intros H. unfold normalize_row in H.
  apply bind_Ok in H as (ty & Hty & H). injection H as <-.
  assert (Htruthy : truthy_opt ty = true).
  { destruct (truthy_opt (type r)) eqn:E.
    - injection Hty as <-. exact E.
    - apply bind_Ok in Hty as (s & _ & Hty). injection Hty as <-.
      apply classify_type_truthy. }
  unfold normalize_row. cbn [title description url price currency start_date
    end_date mode venue city country type].
  rewrite Htruthy. cbn [bind]. f_equal.
  f_equal; try reflexivity;
    first [ apply (f_equal Some), clean_title_idem
          | exact (clean_description_idem _)
          | apply or_default_idem
          | exact (renormalize_currency _)
          | apply (f_equal Some), normalize_mode_idem ].
Qed.

Lemma collect_In {A : Type} (f : A -> res (list row)) (items : list A)
    (rows : list row) (r : row) :
  collect f items = Ok rows -> In r rows ->
  exists x rs, In x items /\ f x = Ok rs /\ In r rs.
Proof.
  revert rows. induction items as [| x items IH]; simpl; intros rows H Hin.
  - injection H as <-. destruct Hin.
  - apply bind_Ok in H as (rs & Hrs & H). apply bind_Ok in H as (rest & Hrest & H).
    injection H as <-. apply in_app_or in Hin as [Hin | Hin].
    + exists x, rs. auto.
    + destruct (IH rest Hrest Hin) as (x' & rs' & Hx & Hf & Hr).
      exists x', rs'. auto.
Qed.

Lemma collect_length {A : Type} (f : A -> res (list row)) (items : list A)
    (rows : list row) :
  (forall x rs, f x = Ok rs -> (List.length rs <= 1)%nat) ->
  collect f items = Ok rows -> (List.length rows <= List.length items)%nat.
Proof.
  intros Hf. revert rows. induction items as [| x items IH]; simpl; intros rows H.
  - injection H as <-. simpl. lia.
  - apply bind_Ok in H as (rs & Hrs & H). apply bind_Ok in H as (rest & Hrest & H).
    injection H as <-. rewrite length_app.
    specialize (Hf x rs Hrs). specialize (IH rest Hrest). lia.
Qed.

Lemma collect_app {A : Type} (f : A -> res (list row)) (l1 l2 : list A) :
  collect f (l1 ++ l2)%list =
  bind (collect f l1) (fun r1 => bind (collect f l2) (fun r2 => Ok (r1 ++ r2)%list)).
Proof.
  induction l1 as [| x l1 IH]; simpl.
  - destruct (collect f l2); reflexivity.
  - destruct (f x) as [rs | e]; simpl; [| reflexivity].
    rewrite IH. destruct (collect f l1) as [r1 | e]; simpl; [| reflexivity].
    destruct (collect f l2) as [r2 | e]; simpl; [| reflexivity].
    now rewrite app_assoc.
Qed.

Section ExtractorFacts.

Variable json_loads : string -> option json.
Variable py_repr : json -> string.
Variable float_ext : string -> option pyfloat.
Variable dateparser_parse : string -> datetime -> option datetime.
Variable now : datetime.
Variable urlparse : string -> res parse_result.
Variable urljoin : string -> string -> res string.

(** What [add_row] appends. *)
Lemma add_row_In base_url name desc start end_ md venue city country pr cu u
    rtype r :
  In r (add_row py_repr dateparser_parse now base_url name desc start end_ md
          venue city country pr cu u rtype) ->
  (truthy_opt (title r) || truthy_opt (description r) = true) /\
  url r = or_default u base_url /\
  type r = or_none rtype /\
  price r = pr /\ currency r = cu.
Proof.
  unfold add_row. cbv zeta. cbn [title description].
  destruct (_ || _) eqn:E; [| intros []].
  intros [<- | []]. cbn. auto.
Qed.

Lemma add_row_length base_url name desc start end_ md venue city country pr cu u
    rtype :
  (List.length (add_row py_repr dateparser_parse now base_url name desc start
                  end_ md venue city country pr cu u rtype) <= 1)%nat.
Proof.
  unfold add_row. cbv zeta. destruct (_ || _); simpl; lia.
Qed.

Lemma coerce_or_nonempty (x : json) (base_url : string) :
  base_url <> "" -> coerce_or py_repr x base_url <> "".
Proof.
  intros Hb. unfold coerce_or. destruct (_coerce_str py_repr x) as [s |]; [| exact Hb].
  apply truthy_nonempty, or_default_truthy. now apply truthy_nonempty.
Qed.

(** The rows of one structured object: at most one; it has a title or a
    description, a url that is not empty when the page URL is not, and the
    type Course or Seminar or none.  An object of a denied type gives
    nothing. *)
Lemma rows_from_jsonld_facts (obj : list (string * json)) (base_url : string)
    (rows : list row) :
  _rows_from_jsonld py_repr float_ext dateparser_parse now obj base_url = Ok rows ->
  (List.length rows <= 1)%nat /\
  (forall typ, jsonld_type py_repr obj = Some typ ->
               PyStr.any_in DENIED_TYPES typ = true -> rows = []) /\
  forall r, In r rows ->
    (truthy_opt (title r) || truthy_opt (description r) = true) /\
    (base_url <> "" -> url r <> "") /\
    (type r = None \/ type r = Some "Course" \/ type r = Some "Seminar").
Proof.
  unfold _rows_from_jsonld, jsonld_type. cbv zeta. intros H.
  apply bind_Ok in H as (typ_raw & Htyp & H).
  assert (Hty : forall typ,
            match Py.get_default obj "@type" (JStr "") with
            | JList items =>
                match Py.join "," items with
                | Ok s => Some (PyStr.lower s)
                | Raise _ => None
                end
            | t => Some (PyStr.lower (match t with JStr s => s | _ => py_repr t end))
            end = Some typ ->
            typ = PyStr.lower (py_str py_repr typ_raw)).
  { intros typ. revert Htyp.
    destruct (Py.get_default obj "@type" (JStr "")) as [| b | z | f | s | items | d];
      intros Htyp;
      try (injection Htyp as <-; intros E; injection E as <-; reflexivity).
    apply bind_Ok in Htyp as (s & Hs & Htyp). injection Htyp as <-.
    rewrite Hs. intros E. injection E as <-. reflexivity. }
  clear Htyp.
  set (typ := PyStr.lower (py_str py_repr typ_raw)) in *.
  destruct (PyStr.any_in _ typ) eqn:Edeny.
  { injection H as <-. split; [simpl; lia |]. split; [reflexivity |]. intros r []. }
  assert (Hdeny : forall t, Some t = Some typ -> PyStr.any_in DENIED_TYPES t = true -> rows = []).
  { intros t E. injection E as ->. unfold DENIED_TYPES. rewrite Edeny. discriminate. }
  assert (Hrow : forall name desc start end_ md venue city country pr cu u rtype,
            Ok (add_row py_repr dateparser_parse now base_url name desc start end_
                  md venue city country pr cu u rtype) = Ok rows ->
            (rtype = None \/ rtype = Some "Course" \/ rtype = Some "Seminar") ->
            (base_url <> "" -> or_default u base_url <> "") ->
            (List.length rows <= 1)%nat /\
            forall r, In r rows ->
              (truthy_opt (title r) || truthy_opt (description r) = true) /\
              (base_url <> "" -> url r <> "") /\
              (type r = None \/ type r = Some "Course" \/ type r = Some "Seminar")).
  { intros name desc start end_ md venue city country pr cu u rtype E Hrt Hu.
    injection E as <-. split; [apply add_row_length |].
    intros r Hin. apply add_row_In in Hin as (Ht & Hurl & Htype & _).
    split; [exact Ht |]. split; [rewrite Hurl; exact Hu |].
    rewrite Htype. destruct Hrt as [-> | [-> | ->]]; simpl; auto. }
  assert (Hu : forall x, base_url <> "" ->
                 or_default (coerce_or py_repr x base_url) base_url <> "").
  { intros x Hb. apply truthy_nonempty, or_default_truthy. now apply truthy_nonempty. }
  assert (Hfin : (List.length rows <= 1)%nat /\
            forall r, In r rows ->
              (truthy_opt (title r) || truthy_opt (description r) = true) /\
              (base_url <> "" -> url r <> "") /\
              (type r = None \/ type r = Some "Course" \/ type r = Some "Seminar")).
  { destruct (PyStr.contains "course" typ || _).
    { destruct (_from_offers _ _ _) as [pr cu]. eapply Hrow; eauto. }
    destruct (PyStr.contains "event" typ).
    { destruct (_from_offers _ _ _) as [pr cu]. eapply Hrow; eauto. }
    destruct (PyStr.any_in ["creativework"; "learningresource"] typ).
    { eapply Hrow; eauto. }
    injection H as <-. split; [simpl; lia | intros r []]. }
  destruct Hfin as [Hlen Hall]. split; [exact Hlen |]. split; [| exact Hall].
  intros t Ht. apply Hdeny. f_equal. now apply Hty.
Qed.

Lemma microdata_row_facts (item : microdata_item) (base_url : string)
    (rows : list row) :
  microdata_row float_ext dateparser_parse now urlparse urljoin item base_url
  = Ok rows ->
  (List.length rows <= 1)%nat /\
  forall r, In r rows ->
    mode r = None /\ exists t, type r = Some t /\ In t type_labels.
Proof.
  unfold microdata_row. cbv zeta.
  destruct (PyStr.any_in _ _); [| intros H; injection H as <-; simpl; split; [lia | intros r []]].
  intros H. apply bind_Ok in H as (url2 & _ & H). injection H as <-.
  split; [simpl; lia |]. intros r [<- | []].
  cbv beta iota delta [mode type].
  split; [reflexivity |]. eexists. split; [reflexivity | apply classify_type_label].
Qed.

Lemma or_empty_default (o : option string) :
  match or_str o (Some "") with Some d => d | None => "" end
  = match o with Some d => d | None => "" end.
Proof.
  destruct o as [d |]; [| reflexivity]. unfold or_str.
  destruct (PyStr.truthy d) eqn:E; [reflexivity |].
  destruct d; [reflexivity | discriminate].
Qed.

(** A row of the list extractor: a title of more than one word taken
    from a heading or a link, a url with a network location and no
    fragment, and a text that names an educational word. *)
Lemma list_row_facts (item : list_item) (base_url : string) (rows : list row) :
  list_row float_ext urlparse urljoin item base_url = Ok rows ->
  (List.length rows <= 1)%nat /\
  forall r, In r rows ->
    (exists t, title r = Some t) /\
    (exists p, urlparse (url r) = Ok p /\
               netloc p <> "" /\ fragment p = "") /\
    (exists t, type r = Some t /\ In t type_labels) /\
    (mode r = None \/ mode r = Some "Online") /\
    _looks_educational
      (str_of_opt (title r) ++ " " ++
       match description r with Some d => d | None => "" end) = true.
Proof.
  unfold list_row. cbv zeta.
  destruct (find_by_string _ _ item) as [title_tag |];
    [| intros H; injection H as <-; simpl; split; [lia | intros r []]].
  destruct (find_with_attr _ _ item) as [link_tag |];
    [| intros H; injection H as <-; simpl; split; [lia | intros r []]].
  intros H. apply bind_Ok in H as (u & _ & H). apply bind_Ok in H as (p & Hp & H).
  destruct (negb (PyStr.truthy (netloc p))) eqn:En;
    [injection H as <-; simpl; split; [lia | intros r []] |].
  destruct (PyStr.truthy (fragment p)) eqn:Ef;
    [injection H as <-; simpl; split; [lia | intros r []] |].
  cbv beta iota delta [orb] in H.
  destruct (negb (_looks_educational _)) eqn:Ee;
    [injection H as <-; simpl; split; [lia | intros r []] |].
  destruct (first_price _) as [pr cu]. injection H as <-.
  split; [simpl; lia |]. intros r [<- | []].
  cbv beta iota delta [title url type mode description str_of_opt].
  split; [eauto |]. split.
  - exists p. split; [exact Hp |]. split.
    + apply truthy_nonempty. now apply negb_false_iff.
    + destruct (fragment p); [reflexivity | discriminate].
  - split; [eexists; split; [reflexivity | apply classify_type_label] |].
    split; [match goal with |- context [if ?b then Some "Online" else None] => destruct b end; auto |].
    apply negb_false_iff in Ee. rewrite or_empty_default in Ee. exact Ee.
Qed.

Lemma or_str_default_truthy (x : option string) (d : string) :
  PyStr.truthy d = true -> exists t, or_str x (Some d) = Some t /\ t <> "".
Proof.
  intros Hd. unfold or_str. destruct x as [s |].
  - destruct (PyStr.truthy s) eqn:E; eexists; split; try reflexivity;
      now apply truthy_nonempty.
  - eexists; split; [reflexivity | now apply truthy_nonempty].
Qed.

Lemma rows_from_fallbacks_facts (sp : soup) (base_url : string) :
  let rows := _rows_from_fallbacks float_ext dateparser_parse now sp base_url in
  (List.length rows <= 1)%nat /\
  (rows = [] <-> _looks_educational (_clean_text (Some (soup_text sp))) = false) /\
  forall r, In r rows ->
    url r = base_url /\
    (exists t, title r = Some t /\ t <> "") /\
    (exists t, type r = Some t /\ In t type_labels) /\
    (mode r = None \/ mode r = Some "Online").
Proof.
  unfold _rows_from_fallbacks. cbv zeta.
  destruct (_looks_educational _) eqn:Ee; cbn [negb].
  - destruct (first_price _) as [pr cu].
    split; [simpl; lia |]. split; [split; discriminate |].
    intros r [<- | []]. cbv beta iota delta [url title type mode].
    split; [reflexivity |]. split.
    + apply or_str_default_truthy. reflexivity.
    + split; [eexists; split; [reflexivity | apply classify_type_label] |].
      destruct (PyStr.contains _ _); auto.
  - split; [simpl; lia |]. split; [split; reflexivity |]. intros r [].
Qed.

End ExtractorFacts.

Section PipelineMore.

Variable BeautifulSoup : string -> soup.
Variable json_loads : string -> option json.
Variable py_repr : json -> string.
Variable float_ext : string -> option pyfloat.
Variable dateparser_parse : string -> datetime -> option datetime.
Variable now : datetime.
Variable urlparse : string -> res parse_result.
Variable urljoin : string -> string -> res string.

(** How [extract_programs] gathers its candidates: the structured rows
    [js] and [md]; the list rows only when those are fewer than five; the
    fallback row only when all of that is empty. *)
Lemma candidate_rows_cases (sp : soup) (url : string) (rows : list row) :
  candidate_rows json_loads py_repr float_ext dateparser_parse now urlparse
    urljoin sp url = Ok rows ->
  exists js md,
    collect (fun obj => _rows_from_jsonld py_repr float_ext dateparser_parse now
                          obj url) (_iter_jsonld json_loads sp) = Ok js /\
    _rows_from_microdata float_ext dateparser_parse now urlparse urljoin sp url
    = Ok md /\
    ((5 <= List.length (js ++ md)%list)%nat /\ rows = (js ++ md)%list \/
     (List.length (js ++ md)%list < 5)%nat /\
     exists ls,
       _rows_from_lists float_ext urlparse urljoin sp url = Ok ls /\
       (((js ++ md) ++ ls)%list <> [] /\ rows = ((js ++ md) ++ ls)%list \/
        ((js ++ md) ++ ls)%list = [] /\
        rows = _rows_from_fallbacks float_ext dateparser_parse now sp url)).
Proof.
  unfold candidate_rows. intros H.
  apply bind_Ok in H as (js & Hjs & H). apply bind_Ok in H as (md & Hmd & H).
  cbv zeta in H. apply bind_Ok in H as (all & Hall & H). injection H as <-.
  exists js, md. split; [exact Hjs |]. split; [exact Hmd |].
  destruct (List.length (js ++ md)%list <? 5)%nat eqn:E.
  - apply Nat.ltb_lt in E. right. split; [exact E |].
    apply bind_Ok in Hall as (ls & Hls & Hall). injection Hall as <-.
    exists ls. split; [exact Hls |].
    destruct ((js ++ md) ++ ls)%list eqn:Eall; [right | left]; split;
      try reflexivity; discriminate.
  - apply Nat.ltb_ge in E. left. split; [exact E |].
    injection Hall as <-.
    destruct (js ++ md)%list eqn:Eall; [simpl in E; lia | reflexivity].
Qed.

(** Every candidate has no type yet or one of the four labels. *)
Lemma candidate_rows_type (sp : soup) (url : string) (rows : list row) (r : row) :
  candidate_rows json_loads py_repr float_ext dateparser_parse now urlparse
    urljoin sp url = Ok rows ->
  In r rows ->
  type r = None \/ exists t, type r = Some t /\ In t type_labels.
Proof.
  intros H Hin.
  assert (Hjs : forall js,
            collect (fun obj => _rows_from_jsonld py_repr float_ext
                                  dateparser_parse now obj url)
                    (_iter_jsonld json_loads sp) = Ok js ->
            In r js -> type r = None \/ exists t, type r = Some t /\ In t type_labels).
  { intros js Hjs Hr. destruct (collect_In _ _ _ _ Hjs Hr) as (obj & rs & _ & Hobj & Hrs).
    destruct (rows_from_jsonld_facts _ _ _ _ _ _ _ Hobj) as (_ & _ & Hall).
    destruct (Hall r Hrs) as (_ & _ & [Hn | [Hc | Hs]]); [now left | right | right];
      eexists; (split; [eassumption |]); unfold type_labels; simpl; tauto. }
  assert (Hmd : forall md,
            _rows_from_microdata float_ext dateparser_parse now urlparse urljoin
              sp url = Ok md ->
            In r md -> type r = None \/ exists t, type r = Some t /\ In t type_labels).
  { intros md Hmd Hr. unfold _rows_from_microdata in Hmd.
    destruct (collect_In _ _ _ _ Hmd Hr) as (item & rs & _ & Hitem & Hrs).
    destruct (microdata_row_facts _ _ _ _ _ _ _ _ Hitem) as (_ & Hall).
    right. apply (Hall r Hrs). }
  assert (Hls : forall ls,
            _rows_from_lists float_ext urlparse urljoin sp url = Ok ls ->
            In r ls -> type r = None \/ exists t, type r = Some t /\ In t type_labels).
  { intros ls Hls Hr. unfold _rows_from_lists in Hls.
    destruct (collect_In _ _ _ _ Hls Hr) as (item & rs & _ & Hitem & Hrs).
    destruct (list_row_facts _ _ _ _ _ _ Hitem) as (_ & Hall).
    right. apply (Hall r Hrs). }
  apply candidate_rows_cases in H as (js & md & Hj & Hm & Hcase).
  destruct Hcase as [[_ ->] | (_ & ls & Hl & [[_ ->] | [_ ->]])].
  - apply in_app_or in Hin as [Hin | Hin]; eauto.
  - apply in_app_or in Hin as [Hin | Hin]; [| eauto].
    apply in_app_or in Hin as [Hin | Hin]; eauto.
  - right. now apply (rows_from_fallbacks_facts float_ext dateparser_parse now sp url).
Qed.

(** A returned record is the normalization of a candidate. *)
Lemma extract_programs_from_candidate (html_raw url : string) (rows : list row)
    (r' : row) :
  extract_programs BeautifulSoup json_loads py_repr float_ext
    dateparser_parse now urlparse urljoin html_raw url = Ok rows ->
  In r' rows ->
  exists raw r,
    candidate_rows json_loads py_repr float_ext dateparser_parse now urlparse
      urljoin (BeautifulSoup html_raw) url = Ok raw /\
    In r raw /\ normalize_row url r = Ok r'.
Proof.
  unfold extract_programs. destruct (PyStr.truthy html_raw); cbn [negb].
  - intros H Hin. apply bind_Ok in H as (nr & Hnr & H). injection H as <-.
    unfold normalized_rows in Hnr. apply bind_Ok in Hnr as (raw & Hraw & Hnr).
    assert (Hin' : In r' nr).
    { eapply subsequence_In; [| exact Hin].
      eapply subsequence_trans; [apply cap_subsequence | apply dedupe_from_subsequence]. }
    destruct (normalize_rows_In _ _ _ Hnr r' Hin') as (r & Hr & Hn).
    exists raw, r. auto.
  - intros H. injection H as <-. intros [].
Qed.

End PipelineMore.

Lemma dedupe_from_distinct (seen : list (string * string)) (rows : list row) :
  NoDup (List.map dedupe_key rows) ->
  (forall r, In r rows -> ~ In (dedupe_key r) seen) ->
  dedupe_from seen rows = rows.
Proof.
  revert seen. induction rows as [| r rows IH]; intros seen Hnd Hseen; simpl;
    [reflexivity |].
  inversion Hnd as [| k ks Hk Hks]; subst.
  destruct (seen_mem (dedupe_key r) seen) eqn:E.
  - apply seen_mem_In in E. exfalso. apply (Hseen r); [now left | exact E].
  - f_equal. apply IH; [exact Hks |].
    intros r0 Hin [Heq | Hs].
    + apply Hk. rewrite Heq. now apply in_map.
    + apply (Hseen r0); [now right | exact Hs].
Qed.

Lemma float_lt_chain (p2 b p' : pyfloat) :
  float_lt p2 b = true -> float_lt p' b = false -> float_lt p' p2 = false.
Proof.
  destruct p2 as [q2 | n2 |], b as [qb | nb |], p' as [q' | n' |]; simpl;
    try discriminate; try reflexivity;
    try (destruct n2; simpl; try discriminate; try reflexivity);
    try (destruct nb; simpl; try discriminate; try reflexivity);
    try (destruct n'; simpl; try discriminate; try reflexivity).
  intros H1 H2. apply negb_true_iff in H1. apply negb_false_iff in H2.
  apply negb_false_iff. apply Qle_bool_iff. apply Qle_bool_iff in H2.
  destruct (Qlt_le_dec q2 qb) as [Hlt | Hle].
  - apply Qlt_le_weak. eapply Qlt_le_trans; eassumption.
  - apply Qle_bool_iff in Hle. congruence.
Qed.

Section OfferFacts.

Variable py_repr : json -> string.
Variable float_ext : string -> option pyfloat.

Lemma offer_step_quote (best : option pyfloat * option string) (it : json) :
  offer_step py_repr float_ext best it =
  match offer_quote py_repr float_ext it with
  | Some (pv, c) =>
      match fst best with
      | None => (Some pv, c)
      | Some b => if float_lt pv b then (Some pv, c) else best
      end
  | None => best
  end.
Proof.
  unfold offer_step, offer_quote. destruct it as [| b | z | f | s | l | d];
    try reflexivity.
  cbn [as_dict bind]. destruct (_norm_currency_any _) as [c | e]; [| reflexivity].
  cbn [bind]. destruct (Py.get d "price"); try reflexivity;
    (destruct (py_float float_ext _) as [pv | e]; [| reflexivity]);
    cbn [bind]; destruct (fst best) as [b0 |]; try reflexivity;
    destruct (float_lt pv b0); reflexivity.
Qed.

Lemma offers_loop (items seen : list json) (best : option pyfloat * option string) :
  offers_invariant py_repr float_ext seen best ->
  offers_invariant py_repr float_ext (seen ++ items)%list
    (fold_left (offer_step py_repr float_ext) items best).
Proof.
  revert seen best. induction items as [| it items IH]; intros seen best Hinv; simpl.
  - now rewrite app_nil_r.
  - replace (seen ++ it :: items)%list with ((seen ++ [it]) ++ items)%list
      by (rewrite <- app_assoc; reflexivity).
    apply IH. rewrite offer_step_quote. unfold offers_invariant in *.
    destruct (offer_quote py_repr float_ext it) as [[pv c] |] eqn:Eq.
    + destruct best as [[b |] cb]; cbn [fst snd] in *.
      * destruct Hinv as [(it0 & Hin0 & Hq0) Hmin].
        destruct (float_lt pv b) eqn:Elt; cbn [fst snd].
        -- split.
           ++ exists it. split; [apply in_or_app; right; now left | exact Eq].
           ++ intros it1 pv1 c1 Hin1 Hq1. apply in_app_or in Hin1 as [Hin1 | [<- | []]].
              ** eapply float_lt_chain; [exact Elt | eapply Hmin; eassumption].
              ** rewrite Eq in Hq1. injection Hq1 as <- <-.
                 destruct pv as [q | n |]; simpl; try reflexivity.
                 --- apply negb_false_iff, Qle_bool_iff, Qle_refl.
                 --- destruct n; reflexivity.
        -- split.
           ++ exists it0. split; [apply in_or_app; now left | exact Hq0].
           ++ intros it1 pv1 c1 Hin1 Hq1. apply in_app_or in Hin1 as [Hin1 | [<- | []]].
              ** eapply Hmin; eassumption.
              ** rewrite Eq in Hq1. injection Hq1 as <- <-. exact Elt.
      * cbn [fst snd]. destruct Hinv as [_ Hnone]. split.
        -- exists it. split; [apply in_or_app; right; now left | exact Eq].
        -- intros it1 pv1 c1 Hin1 Hq1. apply in_app_or in Hin1 as [Hin1 | [<- | []]].
           ++ rewrite (Hnone it1 Hin1) in Hq1. discriminate.
           ++ rewrite Eq in Hq1. injection Hq1 as <- <-.
              destruct pv as [q | n |]; simpl; try reflexivity.
              ** apply negb_false_iff, Qle_bool_iff, Qle_refl.
              ** destruct n; reflexivity.
    + destruct (fst best) as [b |].
      * destruct Hinv as [(it0 & Hin0 & Hq0) Hmin]. split.
        -- exists it0. split; [apply in_or_app; now left | exact Hq0].
        -- intros it1 pv1 c1 Hin1 Hq1. apply in_app_or in Hin1 as [Hin1 | [<- | []]].
           ++ eapply Hmin; eassumption.
           ++ rewrite Eq in Hq1. discriminate.
      * destruct Hinv as [Hc Hnone]. split; [exact Hc |].
        intros it1 Hin1. apply in_app_or in Hin1 as [Hin1 | [<- | []]]; auto.
Qed.

End OfferFacts.

Lemma clean_or_default (t : option string) :
  _clean_text (Some (or_default (_clean_text t) "Program"))
  = or_default (_clean_text t) "Program".
Proof.
  unfold or_default. destruct (PyStr.truthy (_clean_text t)) eqn:E;
    [apply clean_text_idem | reflexivity].
Qed.

Lemma normalize_row_description (page_url : string) (r r' : row) :
  normalize_row page_url r = Ok r' ->
  description r' = or_str (Some (_clean_text (description r))) None.
Proof.
  unfold normalize_row. intros H.
  apply bind_Ok in H as (t & _ & H). injection H as <-. reflexivity.
Qed.

(** X6: [_clean_text] gives a normal form: cleaning a cleaned text changes
    nothing, and a cleaned text has no white space at either end and none
    but single blanks inside. *)
Theorem clean_text_normal_form (x : option string) :
  _clean_text (Some (_clean_text x)) = _clean_text x /\
  PyStr.strip (_clean_text x) = _clean_text x /\
  single_spaced_from false (_clean_text x) = true.
Proof.
  split; [apply clean_text_idem | apply clean_text_normal].
Qed.

(** X7: a currency that [_norm_currency] has returned, when it is not
    empty, is returned unchanged by [_norm_currency]. *)
Theorem norm_currency_fixed_point (s c : string) :
  _norm_currency (Some s) = Some c -> c <> "" ->
  _norm_currency (Some c) = Some c.
Proof. apply norm_currency_stable. Qed.

(** X5: the normalization pass of [extract_programs] is idempotent: on a
    row that it has produced it does not raise and returns the row as it
    is. *)
Theorem normalization_pass_idempotent (page_url : string) (r r' : row) :
  normalize_row page_url r = Ok r' -> normalize_row page_url r' = Ok r'.
Proof. apply normalize_row_idem. Qed.

(** X8: [_dedupe] leaves a list whose keys are all different as it is, and
    so deduplicating twice is deduplicating once. *)
Theorem dedupe_idempotent (rows : list row) :
  (NoDup (List.map dedupe_key rows) -> _dedupe rows = rows) /\
  _dedupe (_dedupe rows) = _dedupe rows.
Proof.
  assert (H : forall l, NoDup (List.map dedupe_key l) -> _dedupe l = l).
  { intros l Hl. apply dedupe_from_distinct; [exact Hl | intros r _ []]. }
  split; [apply H |]. apply H. apply dedupe_from_NoDup.
Qed.

Section MoreTheorems.

Variable BeautifulSoup : string -> soup.
Variable json_loads : string -> option json.
Variable py_repr : json -> string.
Variable float_ext : string -> option pyfloat.
Variable dateparser_parse : string -> datetime -> option datetime.
Variable now : datetime.
Variable urlparse : string -> res parse_result.
Variable urljoin : string -> string -> res string.

(** X1: the type of every returned record is one of Video, Seminar, Course
    and Other. *)
Theorem extract_programs_type (html_raw url : string) (rows : list row) :
  extract_programs BeautifulSoup json_loads py_repr float_ext
    dateparser_parse now urlparse urljoin html_raw url = Ok rows ->
  Forall (fun r' => exists t, type r' = Some t /\ In t type_labels) rows.
Proof.
  intros H. apply Forall_forall. intros r' Hin.
  destruct (extract_programs_from_candidate _ _ _ _ _ _ _ _ _ _ _ _ H Hin)
    as (raw & r & Hraw & Hr & Hn).
  assert (Hty : type r = None \/ exists t, type r = Some t /\ In t type_labels)
    by (eapply candidate_rows_type; eassumption).
  unfold normalize_row in Hn. apply bind_Ok in Hn as (ty & Hty' & Hn).
  injection Hn as <-. cbv beta iota delta [type].
  destruct Hty as [Hnone | (t & Ht & Hl)].
  - rewrite Hnone in Hty'. cbn [truthy_opt] in Hty'.
    apply bind_Ok in Hty' as (s & _ & Hty'). injection Hty' as <-.
    eexists. split; [reflexivity | apply classify_type_label].
  - rewrite Ht in Hty'.
    assert (Htr : truthy_opt (Some t) = true).
    { unfold type_labels in Hl. simpl in Hl.
      repeat (destruct Hl as [<- | Hl]; [reflexivity |]). destruct Hl. }
    rewrite Htr in Hty'. injection Hty' as <-. eauto.
Qed.

(** X2: the title and the description of every returned record are in the
    normal form of [_clean_text]: no white space at either end, single
    blanks inside; the description is absent or not empty. *)
Theorem extract_programs_clean_text (html_raw url : string) (rows : list row) :
  extract_programs BeautifulSoup json_loads py_repr float_ext
    dateparser_parse now urlparse urljoin html_raw url = Ok rows ->
  Forall (fun r' =>
            (exists t, title r' = Some t /\ _clean_text (Some t) = t) /\
            (description r' = None \/
             exists d, description r' = Some d /\ d <> "" /\
                       _clean_text (Some d) = d))
         rows.
Proof.
  intros H. apply Forall_forall. intros r' Hin.
  destruct (extract_programs_In _ _ _ _ _ _ _ _ _ _ _ _ H Hin) as (r & Hn).
  rewrite (normalize_row_title _ _ _ Hn), (normalize_row_description _ _ _ Hn).
  split.
  - eexists. split; [reflexivity | apply clean_or_default].
  - unfold or_str. destruct (PyStr.truthy (_clean_text (description r))) eqn:E.
    + right. eexists. split; [reflexivity |]. split; [now apply truthy_nonempty |].
      apply clean_text_idem.
    + left. reflexivity.
Qed.


(** X11: a structured object gives at most one row; the row has a title or
    a description, a url that is not empty when the page URL is not, and
    the type Course or Seminar or none yet; an object whose type names a
    job posting, a person, an organization, a FAQ page or an article gives
    no row, whatever else the type names. *)
Theorem rows_from_jsonld_shape (obj : list (string * json)) (base_url : string)
    (rows : list row) :
  _rows_from_jsonld py_repr float_ext dateparser_parse now obj base_url = Ok rows ->
  (List.length rows <= 1)%nat /\
  (forall typ, jsonld_type py_repr obj = Some typ ->
               PyStr.any_in DENIED_TYPES typ = true -> rows = []) /\
  forall r, In r rows ->
    (truthy_opt (title r) || truthy_opt (description r) = true) /\
    (base_url <> "" -> url r <> "") /\
    (type r = None \/ type r = Some "Course" \/ type r = Some "Seminar").
Proof. apply rows_from_jsonld_facts. Qed.

(** X13: the list extractor returns at most 60 rows; each has a title, a
    url in which [urlparse] finds a network location and no fragment, one
    of the four types, the mode Online or none, and a text (title and
    description) that names an educational word. *)
Theorem rows_from_lists_shape (sp : soup) (base_url : string) (rows : list row) :
  _rows_from_lists float_ext urlparse urljoin sp base_url = Ok rows ->
  (List.length rows <= 60)%nat /\
  forall r, In r rows ->
    (exists t, title r = Some t) /\
    (exists p, urlparse (url r) = Ok p /\ netloc p <> "" /\ fragment p = "") /\
    (exists t, type r = Some t /\ In t type_labels) /\
    (mode r = None \/ mode r = Some "Online") /\
    _looks_educational
      (str_of_opt (title r) ++ " " ++
       match description r with Some d => d | None => "" end) = true.
Proof.
  unfold _rows_from_lists. intros H. split.
  - etransitivity.
    + eapply collect_length; [| exact H].
      intros item rs Hrs. now apply list_row_facts in Hrs.
    + apply firstn_le_length.
  - intros r Hin. destruct (collect_In _ _ _ _ H Hin) as (item & rs & _ & Hitem & Hrs).
    now apply (list_row_facts _ _ _ _ _ _ Hitem).
Qed.

(** X14: the fallback extractor gives no row exactly when the cleaned text
    of the page names no educational word, and otherwise one row, with the
    page URL, a title that is not empty, one of the four types and the mode
    Online or none. *)
Theorem rows_from_fallbacks_shape (sp : soup) (base_url : string) :
  let rows := _rows_from_fallbacks float_ext dateparser_parse now sp base_url in
  (List.length rows <= 1)%nat /\
  (rows = [] <-> _looks_educational (_clean_text (Some (soup_text sp))) = false) /\
  forall r, In r rows ->
    url r = base_url /\
    (exists t, title r = Some t /\ t <> "") /\
    (exists t, type r = Some t /\ In t type_labels) /\
    (mode r = None \/ mode r = Some "Online").
Proof. apply rows_from_fallbacks_facts. Qed.

(** X15: a block that [json.loads] rejects gives no object, and the
    objects of the other blocks are what they are without it. *)
Theorem iter_jsonld_skips_bad_block (sp1 sp2 : soup) (before after : list (option string))
    (bad : option string) :
  ld_json_scripts sp1 = (before ++ bad :: after)%list ->
  ld_json_scripts sp2 = (before ++ after)%list ->
  json_loads (script_text bad) = None ->
  _iter_jsonld json_loads sp1 = _iter_jsonld json_loads sp2.
Proof.
  intros H1 H2 Hbad. unfold _iter_jsonld. rewrite H1, H2, !flat_map_app.
  f_equal. cbn [flat_map]. unfold jsonld_of_script at 1.
  fold (script_text bad). rewrite Hbad. reflexivity.
Qed.

(** X16: of the offers that can be read, [_from_offers] returns the price
    and the currency of one than which none is cheaper; it returns no
    currency when it returns no price. *)
Theorem from_offers_lowest (offers : json) :
  (forall b c,
     _from_offers py_repr float_ext offers = (Some b, c) ->
     (exists it, In it (offer_items offers) /\
                 offer_quote py_repr float_ext it = Some (b, c)) /\
     forall it pv c', In it (offer_items offers) ->
       offer_quote py_repr float_ext it = Some (pv, c') -> float_lt pv b = false) /\
  (forall c, _from_offers py_repr float_ext offers = (None, c) -> c = None).
Proof.
  assert (Hinv : Py.truthy offers = true ->
            offers_invariant py_repr float_ext (offer_items offers)
              (_from_offers py_repr float_ext offers)).
  { intros Ht. unfold _from_offers. rewrite Ht. cbn [negb].
    apply (offers_loop py_repr float_ext (offer_items offers) [] (None, None)).
    split; [reflexivity | intros it []]. }
  split.
  - intros b c H. destruct (Py.truthy offers) eqn:Et.
    + specialize (Hinv eq_refl). rewrite H in Hinv. exact Hinv.
    + unfold _from_offers in H. rewrite Et in H. discriminate H.
  - intros c H. destruct (Py.truthy offers) eqn:Et.
    + specialize (Hinv eq_refl). rewrite H in Hinv. apply Hinv.
    + unfold _from_offers in H. rewrite Et in H. now injection H as <-.
Qed.

(** X17: [_to_iso] returns nothing exactly when the text is absent or
    empty or the parser does not read it: a text that the parser reads is
    never lost in the reinterpretation. *)
Theorem to_iso_none (d : option string) :
  _to_iso dateparser_parse now d = None <->
  d = None \/ d = Some "" \/ exists s, d = Some s /\ dateparser_parse s now = None.
Proof.
  unfold _to_iso. destruct d as [s |]; [| split; auto].
  destruct (PyStr.truthy s) eqn:Et; cbn [negb].
  - destruct (dateparser_parse s now) as [dt |] eqn:Ed.
    + split.
      * destruct (Calendar.date_lt dt now); [| discriminate].
        destruct (dateparser_parse (with_next_year now s) now) as [alt |];
          [| discriminate].
        destruct (Calendar.delta_days alt now <? 400)%Z; discriminate.
      * intros [H | [H | (s' & H & H')]]; try discriminate.
        -- injection H as ->. discriminate.
        -- injection H as ->. congruence.
    + split; [| reflexivity]. intros _. right. right. eauto.
  - destruct s; [| discriminate]. split; auto.
Qed.

End MoreTheorems.

Module ReSound.
Import Re.


Lemma app_assoc_str (a b c : string) : (a ++ b) ++ c = a ++ (b ++ c).
Proof. induction a as [| x a IH]; simpl; [reflexivity | now rewrite IH]. Qed.









End ReSound.

Module PriceSound.
Import Re.






























End PriceSound.

Lemma or_none_clean (x : option string) : clean_field (or_none (Some (_clean_text x))).
Proof.
  unfold or_none, or_str, clean_field.
  destruct (PyStr.truthy (_clean_text x)) eqn:E; [| now left].
  right. eexists. split; [reflexivity |].
  split; [now apply truthy_nonempty | apply clean_text_idem].
Qed.


Section SafeFacts.

Variable float_ext : string -> option pyfloat.
Variable dateparser_parse : string -> datetime -> option datetime.
Variable now : datetime.
Variable urlparse : string -> res parse_result.
Variable urljoin : string -> string -> res string.

Lemma microdata_row_cases (item : microdata_item) (base_url : string)
    (rows : list row) :
  microdata_row float_ext dateparser_parse now urlparse urljoin item base_url
  = Ok rows ->
  (microdata_selected item = false /\ rows = []) \/
  (microdata_selected item = true /\
   exists r, rows = [r] /\
     clean_field (title r) /\ clean_field (description r) /\
     clean_field (venue r) /\ clean_field (city r) /\ clean_field (country r) /\
     mode r = None /\ (exists t, type r = Some t /\ In t type_labels) /\
     (base_url <> "" -> url r <> "" \/ exists u, urljoin base_url u = Ok (url r))).
Proof.
  unfold microdata_row, microdata_selected. cbv zeta.
  destruct (PyStr.any_in _ _); [| intros H; injection H as <-; now left].
  intros H. right. split; [reflexivity |].
  apply bind_Ok in H as (url2 & Hu & H). injection H as <-.
  eexists. split; [reflexivity |].
  cbv beta iota delta [title description venue city country mode type url].
  repeat (split; [apply or_none_clean |]).
  split; [reflexivity |].
  split; [eexists; split; [reflexivity | apply classify_type_label] |].
  intros Hb.
  match type of Hu with
  | (if PyStr.truthy ?x then _ else _) = _ => set (u0 := x) in *
  end.
  assert (Hu0 : PyStr.truthy u0 = true).
  { unfold u0, or_default. destruct (PyStr.truthy (_clean_text _)) eqn:E; [exact E |].
    now apply truthy_nonempty. }
  rewrite Hu0 in Hu. apply bind_Ok in Hu as (p & _ & Hu).
  destruct (negb (PyStr.truthy (netloc p))).
  - right. now exists u0.
  - injection Hu as <-. left. now apply truthy_nonempty.
Qed.

Lemma microdata_rows_facts (sp : soup) (base_url : string) (rows : list row) (r : row) :
  _rows_from_microdata float_ext dateparser_parse now urlparse urljoin sp base_url
  = Ok rows ->
  In r rows ->
  clean_field (title r) /\ clean_field (description r) /\
  clean_field (venue r) /\ clean_field (city r) /\ clean_field (country r) /\
  mode r = None /\ (exists t, type r = Some t /\ In t type_labels).
Proof.
  unfold _rows_from_microdata. intros H Hin.
  destruct (collect_In _ _ _ _ H Hin) as (item & rs & _ & Hitem & Hrs).
  cbv beta in Hitem.
  apply microdata_row_cases in Hitem as [[_ ->] | [_ (r0 & -> & Hr0)]];
    [destruct Hrs |].
  destruct Hrs as [<- | []]. tauto.
Qed.

Lemma collect_filter_length {A : Type} (f : A -> res (list row)) (sel : A -> bool)
    (items : list A) (rows : list row) :
  (forall x rs, f x = Ok rs ->
     List.length rs = if sel x then 1%nat else 0%nat) ->
  collect f items = Ok rows ->
  List.length rows = List.length (filter sel items).
Proof.
  intros Hf. revert rows. induction items as [| x items IH]; simpl; intros rows H.
  - now injection H as <-.
  - apply bind_Ok in H as (rs & Hrs & H). apply bind_Ok in H as (rest & Hrest & H).
    injection H as <-. rewrite length_app, (Hf x rs Hrs), (IH rest Hrest).
    destruct (sel x); reflexivity.
Qed.


Hypothesis urlparse_total : forall u, exists p, urlparse u = Ok p.
Hypothesis urljoin_total : forall b u, exists v, urljoin b u = Ok v.



End SafeFacts.




Section TextRows.

Variable float_ext : string -> option pyfloat.
Variable dateparser_parse : string -> datetime -> option datetime.
Variable now : datetime.
Variable urlparse : string -> res parse_result.
Variable urljoin : string -> string -> res string.

(** X12: the microdata extractor gives one row for each annotated element
    whose type names a course, an event or education, whether the element
    has a name or not; the text fields of a row are absent or clean texts
    that are not empty, its mode is absent, its type is one of the four. *)
Theorem rows_from_microdata_shape (sp : soup) (base_url : string) (rows : list row) :
  _rows_from_microdata float_ext dateparser_parse now urlparse urljoin sp base_url
  = Ok rows ->
  List.length rows = List.length (filter microdata_selected (microdata_items sp)) /\
  forall r, In r rows ->
    clean_field (title r) /\ clean_field (description r) /\
    clean_field (venue r) /\ clean_field (city r) /\ clean_field (country r) /\
    mode r = None /\ (exists t, type r = Some t /\ In t type_labels).
Proof.
  intros H. split.
  - unfold _rows_from_microdata in H. eapply collect_filter_length; [| exact H].
    intros item rs Hrs. cbv beta in Hrs.
    apply microdata_row_cases in Hrs as [[-> ->] | [-> (r & -> & _)]]; reflexivity.
  - intros r Hin. eapply microdata_rows_facts; [exact H | exact Hin].
Qed.


End TextRows.

Section Safety.

Variable BeautifulSoup : string -> soup.
Variable json_loads : string -> option json.
Variable py_repr : json -> string.
Variable float_ext : string -> option pyfloat.
Variable dateparser_parse : string -> datetime -> option datetime.
Variable now : datetime.
Variable urlparse : string -> res parse_result.
Variable urljoin : string -> string -> res string.


End Safety.

Lemma existsb_same_elements {A : Type} (f : A -> bool) (l1 l2 : list A) :
  (forall x, In x l1 <-> In x l2) -> existsb f l1 = existsb f l2.
Proof.
  intros H. apply eq_true_iff_eq. rewrite !existsb_exists.
  split; intros (x & Hx & Hf); exists x; split; try exact Hf; now apply H.
Qed.

Lemma rates_lookup (s : string) :
  (dict_get App.EXCHANGE_RATES s = None /\ ~ In s canonical_codes) \/
  (In s canonical_codes /\
   exists rate usd,
     dict_get App.EXCHANGE_RATES s = Some rate /\ App.float_truthy rate = true /\
     dict_get App.EXCHANGE_RATES "USD" = Some usd).
Proof.
  unfold App.EXCHANGE_RATES, canonical_codes. cbn [dict_get].
  repeat match goal with
         | |- context [String.eqb ?k s] =>
             let E := fresh "E" in
             destruct (String.eqb k s) eqn:E;
             [apply String.eqb_eq in E; subst s; right;
              split; [simpl; tauto | do 2 eexists; repeat split; reflexivity] |
              apply String.eqb_neq in E]
         end.
  left. split; [reflexivity |]. simpl. intuition congruence.
Qed.

(** The currency of a normalized row is in upper case already. *)
Lemma normalized_currency_upper (page_url : string) (r r' : row) (c : string) :
  normalize_row page_url r = Ok r' -> currency r' = Some c -> PyStr.upper c = c.
Proof.
  intros Hn Hc. rewrite (normalize_row_currency _ _ _ Hn) in Hc.
  destruct (currency r) as [s |]; cbn [truthy_opt] in Hc; [| discriminate].
  destruct (PyStr.truthy s) eqn:Et.
  - unfold _norm_currency in Hc. rewrite Et in Hc. injection Hc as <-.
    destruct (currency_lookup_cases (PyStr.upper (PyStr.strip s))) as [Hin | [_ ->]].
    + unfold canonical_codes in Hin. simpl in Hin.
      repeat (destruct Hin as [<- | Hin]; [reflexivity |]). destruct Hin.
    + apply StrFacts.upper_idem.
  - injection Hc as <-. destruct s; [reflexivity | discriminate Et].
Qed.

Lemma take_chars_truthy (n : nat) (s : string) :
  PyStr.truthy s = true -> PyStr.truthy (App.take_chars (S n) s) = true.
Proof.
  destruct s as [| a s]; [discriminate |]. intros _. cbn [App.take_chars].
  destruct (App.is_continuation a); reflexivity.
Qed.

Lemma app_classify_type_label (text : string) : In (App.classify_type text) type_labels.
Proof.
  unfold App.classify_type, type_labels.
  repeat match goal with |- context [if ?b then _ else _] => destruct b end;
    simpl; tauto.
Qed.

Lemma opt_eqb_eq (x : option string) (s : string) :
  App.opt_eqb x s = true -> x = Some s.
Proof.
  destruct x as [t |]; simpl; [| discriminate].
  intros H. apply String.eqb_eq in H. now subst.
Qed.

Section UsdFacts.

Variable float_mul : pyfloat -> pyfloat -> pyfloat.
Variable float_div : pyfloat -> pyfloat -> pyfloat.

Lemma usd_price_none (price : option pyfloat) (currency : option string) :
  App.get_usd_price float_mul float_div price currency = None <->
  price = None \/ currency = None \/
  exists s, currency = Some s /\ ~ In (PyStr.upper s) canonical_codes.
Proof.
  unfold App.get_usd_price.
  destruct price as [p |]; [| split; auto].
  destruct currency as [c |]; [| split; auto].
  destruct (PyStr.truthy c) eqn:Et; cbn [negb].
  - destruct (rates_lookup (PyStr.upper c))
      as [[E Hn] | (Hin & rate & usd & E & Hr & Eu)]; rewrite E.
    + split; [| reflexivity]. intros _. right. right. now exists c.
    + rewrite Hr, Eu. cbn [negb]. split; [discriminate |].
      intros [H | [H | (s & H & Hn)]]; try discriminate.
      injection H as ->. contradiction.
  - split; [| reflexivity]. intros _. right. right. exists c.
    split; [reflexivity |]. destruct c; [| discriminate Et].
    cbv. intuition discriminate.
Qed.

End UsdFacts.

Section EnrichFacts.

Variable dateparser_default : string -> option datetime.
Variable float_mul : pyfloat -> pyfloat -> pyfloat.
Variable float_div : pyfloat -> pyfloat -> pyfloat.

Lemma enrich_row_title ht pt cb sc sr (r : row) :
  title (App.fields (App.enrich_row dateparser_default float_mul float_div
                       ht pt cb sc sr r))
  = if negb (truthy_opt (title r)) || App.opt_eqb (title r) "Program"
    then Some (App.take_chars 140 (or_default ht (or_default pt "Program")))
    else title r.
Proof. reflexivity. Qed.

Lemma enrich_row_type ht pt cb sc sr (r : row) :
  type (App.fields (App.enrich_row dateparser_default float_mul float_div
                      ht pt cb sc sr r))
  = if negb (truthy_opt (type r)) || App.opt_eqb (type r) "Other"
    then Some (App.classify_type cb) else type r.
Proof. reflexivity. Qed.

Lemma enrich_row_mode ht pt cb sc sr (r : row) :
  mode (App.fields (App.enrich_row dateparser_default float_mul float_div
                      ht pt cb sc sr r))
  = if negb (truthy_opt (mode r)) || App.opt_eqb (mode r) "Unknown"
    then (if PyStr.contains "online" (PyStr.lower cb) then Some "Online" else mode r)
    else mode r.
Proof. reflexivity. Qed.

Lemma enrich_row_url ht pt cb sc sr (r : row) :
  url (App.fields (App.enrich_row dateparser_default float_mul float_div
                     ht pt cb sc sr r)) = url r.
Proof. reflexivity. Qed.

Lemma enrich_row_price_usd ht pt cb sc sr (r : row) :
  App.price_usd (App.enrich_row dateparser_default float_mul float_div
                   ht pt cb sc sr r)
  = App.get_usd_price float_mul float_div (price r) (currency r).
Proof. reflexivity. Qed.

End EnrichFacts.

Lemma hits_of_facts (organic : list json) (out : list App.hit) :
  App.hits_of organic = Some out ->
  (List.length out <= List.length organic)%nat /\
  forall h, In h out -> Py.truthy (App.hit_link h) = true.
Proof.
  revert out. induction organic as [| r rest IH]; cbn [App.hits_of]; intros out H.
  - injection H as <-. split; [simpl; lia | intros h []].
  - destruct (App.hit_of r) as [hs |] eqn:Er; [| discriminate].
    destruct (App.hits_of rest) as [out' |]; [| discriminate].
    injection H as <-. destruct (IH out' eq_refl) as [Hl Ht].
    unfold App.hit_of in Er. destruct r; try discriminate Er.
    injection Er as <-.
    destruct (Py.truthy (Py.get_default fields "link" (JStr ""))) eqn:El.
    + split; [simpl; lia |]. intros h [<- | Hin]; [exact El | now apply Ht].
    + split; [simpl; lia |]. intros h Hin. now apply Ht.
Qed.

Lemma slice_to_length {A : Type} (n : Z) (l : list A) :
  (0 <= n)%Z -> (List.length (App.slice_to n l) <= Z.to_nat n)%nat.
Proof.
  intros Hn. unfold App.slice_to.
  destruct (0 <=? n)%Z eqn:E; [| apply Z.leb_gt in E; lia].
  rewrite length_firstn. lia.
Qed.

Section SearchFacts.

Variable API_KEY : string.
Variable GoogleSearch : string -> Z -> option json.

Lemma run_serpapi_query_facts (query : string) (max_results : Z) (out : list App.hit) :
  App._run_serpapi_query API_KEY GoogleSearch query max_results = Some out ->
  (forall h, In h out -> Py.truthy (App.hit_link h) = true) /\
  ((0 <= max_results)%Z -> (List.length out <= Z.to_nat max_results)%nat).
Proof.
  unfold App._run_serpapi_query.
  destruct (negb (PyStr.truthy API_KEY)); [discriminate |].
  destruct (GoogleSearch query max_results) as [[| | | | | | data] |]; try discriminate.
  destruct (Py.get_default data "organic_results" (JList [])) as [| | | | s | l |];
    try discriminate.
  - destruct (App.slice_is_empty max_results s); [| discriminate].
    intros H. injection H as <-. split; [intros h [] | simpl; lia].
  - intros H. apply hits_of_facts in H as [Hl Ht]. split; [exact Ht |].
    intros Hn. pose proof (slice_to_length max_results l Hn). lia.
Qed.

Lemma first_result_cases (max_results : Z) (queries : list (list string)) :
  App.first_result API_KEY GoogleSearch max_results queries = [] \/
  exists before parts after,
    queries = (before ++ parts :: after)%list /\
    App._run_serpapi_query API_KEY GoogleSearch (PyStr.join " " parts) max_results
    = Some (App.first_result API_KEY GoogleSearch max_results queries) /\
    forall parts', In parts' before ->
      App._run_serpapi_query API_KEY GoogleSearch (PyStr.join " " parts') max_results
      = None \/
      App._run_serpapi_query API_KEY GoogleSearch (PyStr.join " " parts') max_results
      = Some [].
Proof.
  induction queries as [| parts rest IH]; cbn [App.first_result]; [now left |].
  destruct (App._run_serpapi_query API_KEY GoogleSearch (PyStr.join " " parts)
              max_results) as [[| h res] |] eqn:E.
  - destruct IH as [IH | (before & parts0 & after & -> & Hrun & Hb)]; [now left |].
    right. exists (parts :: before), parts0, after.
    split; [reflexivity |]. split; [exact Hrun |].
    intros parts' [<- | Hin]; [now right | now apply Hb].
  - right. exists [], parts, rest. split; [reflexivity |]. split; [exact E |].
    intros parts' [].
  - destruct IH as [IH | (before & parts0 & after & -> & Hrun & Hb)]; [now left |].
    right. exists (parts :: before), parts0, after.
    split; [reflexivity |]. split; [exact Hrun |].
    intros parts' [<- | Hin]; [now left | now apply Hb].
Qed.

End SearchFacts.

Module SplitFacts.

Lemma append_empty (s : string) : s ++ "" = s.
Proof. induction s as [| a s IH]; simpl; [reflexivity | now rewrite IH]. Qed.

(** What [collapse_ws_from true] gives starts with no white space. *)
Lemma lstrip_collapse_true (s : string) :
  PyStr.lstrip (PyStr.collapse_ws_from true s) = PyStr.collapse_ws_from true s.
Proof.
  induction s as [| a s IH]; cbn [PyStr.collapse_ws_from]; [reflexivity |].
  destruct (PyStr.is_space a) eqn:E; [exact IH |].
  cbn [PyStr.lstrip]. now rewrite E.
Qed.

Lemma lstrip_collapse (s : string) :
  PyStr.lstrip (PyStr.collapse_ws s) = PyStr.collapse_ws_from true s.
Proof.
  unfold PyStr.collapse_ws. destruct s as [| a s]; [reflexivity |].
  cbn [PyStr.collapse_ws_from]. destruct (PyStr.is_space a) eqn:E.
  - cbn [PyStr.lstrip]. change (PyStr.is_space " ") with true. cbv iota.
    apply lstrip_collapse_true.
  - cbn [PyStr.lstrip]. now rewrite E.
Qed.

Lemma rstrip_cons_nonspace (a : ascii) (s : string) :
  PyStr.is_space a = false -> PyStr.rstrip (String a s) = String a (PyStr.rstrip s).
Proof.
  intros E. cbn [PyStr.rstrip]. rewrite E. now destruct (PyStr.rstrip s).
Qed.

Lemma rstrip_cons_space (s : string) :
  PyStr.rstrip (String " " s)
  = match PyStr.rstrip s with EmptyString => EmptyString | r => String " " r end.
Proof. cbn [PyStr.rstrip]. now destruct (PyStr.rstrip s). Qed.

Lemma split_words (s : string) : Forall (fun w => App.is_word w = true) (App.split s).
Proof.
  induction s as [| a s IH]; cbn [App.split]; [constructor |].
  destruct (PyStr.is_space a) eqn:E; [exact IH |].
  assert (H1 : App.is_word (String a "") = true)
    by (unfold App.is_word; simpl; now rewrite E).
  destruct s as [| b s']; [now repeat constructor |].
  destruct (PyStr.is_space b); [now constructor |].
  destruct (App.split (String b s')) as [| w ws]; [now repeat constructor |].
  inversion IH as [| w0 ws0 Hw Hws]; subst. constructor; [| exact Hws].
  unfold App.is_word in *. apply andb_prop in Hw as [_ Hw].
  simpl. now rewrite E, Hw.
Qed.

Lemma join_cons (p : string) (ps : list string) :
  PyStr.join " " (p :: ps)
  = match ps with [] => p | _ => p ++ " " ++ PyStr.join " " ps end.
Proof. reflexivity. Qed.

Lemma join_nonempty (ws : list string) :
  Forall (fun w => App.is_word w = true) ws ->
  PyStr.join " " ws = "" -> ws = [].
Proof.
  intros H. destruct ws as [| w ws]; [reflexivity |].
  inversion H as [| w0 ws0 Hw _]; subst.
  unfold App.is_word in Hw. apply andb_prop in Hw as [Hw _].
  destruct w as [| a w]; [discriminate Hw |].
  rewrite join_cons. destruct ws; discriminate.
Qed.

Lemma join_cons_char (a : ascii) (w : string) (ws : list string) :
  PyStr.join " " (String a w :: ws) = String a (PyStr.join " " (w :: ws)).
Proof. rewrite !join_cons. now destruct ws. Qed.

Lemma split_space (a : ascii) (s : string) :
  PyStr.is_space a = true -> App.split (String a s) = App.split s.
Proof. intros E. cbn [App.split]. now rewrite E. Qed.

Lemma split_before_space (a b : ascii) (s : string) :
  PyStr.is_space a = false -> PyStr.is_space b = true ->
  App.split (String a (String b s)) = String a "" :: App.split s.
Proof. intros Ea Eb. cbn [App.split]. now rewrite Ea, Eb. Qed.

Lemma split_before_char (a b : ascii) (s : string) :
  PyStr.is_space a = false -> PyStr.is_space b = false ->
  App.split (String a (String b s))
  = match App.split (String b s) with
    | w :: ws => String a w :: ws
    | [] => [String a ""]
    end.
Proof.
  intros Ea Eb. change (App.split (String a (String b s)))
    with (if PyStr.is_space a then App.split (String b s)
          else if PyStr.is_space b then String a "" :: App.split (String b s)
               else match App.split (String b s) with
                    | w :: ws => String a w :: ws
                    | [] => [String a ""]
                    end).
  now rewrite Ea, Eb.
Qed.

Lemma collapse_true_space (a : ascii) (s : string) :
  PyStr.is_space a = true ->
  PyStr.collapse_ws_from true (String a s) = PyStr.collapse_ws_from true s.
Proof. intros E. cbn [PyStr.collapse_ws_from]. now rewrite E. Qed.

Lemma collapse_false_space (a : ascii) (s : string) :
  PyStr.is_space a = true ->
  PyStr.collapse_ws_from false (String a s)
  = String " " (PyStr.collapse_ws_from true s).
Proof. intros E. cbn [PyStr.collapse_ws_from]. now rewrite E. Qed.

Lemma collapse_char (in_run : bool) (a : ascii) (s : string) :
  PyStr.is_space a = false ->
  PyStr.collapse_ws_from in_run (String a s)
  = String a (PyStr.collapse_ws_from false s).
Proof. intros E. cbn [PyStr.collapse_ws_from]. now rewrite E. Qed.

(** [" ".join(s.split())] is [s] with its white space collapsed and its
    ends trimmed. *)
Lemma join_split (s : string) :
  PyStr.join " " (App.split s) = PyStr.rstrip (PyStr.collapse_ws_from true s).
Proof.
  induction s as [| a s IH]; [reflexivity |].
  destruct (PyStr.is_space a) eqn:E.
  - now rewrite split_space, collapse_true_space.
  - rewrite (collapse_char _ _ _ E), (rstrip_cons_nonspace _ _ E).
    destruct s as [| b s']; [cbn [App.split]; now rewrite E |].
    destruct (PyStr.is_space b) eqn:Eb.
    + rewrite (split_before_space _ _ _ E Eb), (collapse_false_space _ _ Eb),
        rstrip_cons_space.
      rewrite (split_space _ _ Eb), (collapse_true_space _ _ Eb) in IH.
      rewrite <- IH, join_cons.
      pose proof (split_words s') as Hw.
      destruct (App.split s') as [| w ws] eqn:Es; [reflexivity |].
      destruct (PyStr.join " " (w :: ws)) eqn:Ej; [| reflexivity].
      apply join_nonempty in Ej; [discriminate Ej | exact Hw].
    + rewrite (split_before_char _ _ _ E Eb), (collapse_char false _ _ Eb).
      rewrite (collapse_char true _ _ Eb) in IH. rewrite <- IH.
      destruct (App.split (String b s')) as [| w ws]; [reflexivity |].
      now rewrite join_cons_char.
Qed.

Lemma join_split_clean (s : string) :
  PyStr.join " " (App.split s) = _clean_text (Some s).
Proof.
  rewrite join_split. unfold _clean_text, PyStr.strip.
  destruct s as [| a s]; [reflexivity |]. cbn [PyStr.truthy].
  now rewrite lstrip_collapse.
Qed.

(** A word in front of nothing or of white space is the first word. *)
Lemma split_word_app (w s : string) :
  App.is_word w = true ->
  match s with String b _ => PyStr.is_space b = true | EmptyString => True end ->
  App.split (w ++ s) = w :: App.split s.
Proof.
  unfold App.is_word. intros Hw Hs. apply andb_prop in Hw as [Hne Hw].
  induction w as [| a w IH]; [discriminate Hne |].
  cbn [App.no_space] in Hw. apply andb_prop in Hw as [Ha Hw].
  apply negb_true_iff in Ha.
  cbn [append App.split]. rewrite Ha.
  destruct w as [| b w'].
  - cbn [append]. destruct s as [| c s']; [reflexivity |]. now rewrite Hs.
  - specialize (IH eq_refl Hw). cbn [append] in *.
    cbn [App.no_space] in Hw. apply andb_prop in Hw as [Hb _].
    apply negb_true_iff in Hb. rewrite Hb, IH. reflexivity.
Qed.

Lemma split_join (ws : list string) :
  Forall (fun w => App.is_word w = true) ws ->
  App.split (PyStr.join " " ws) = ws.
Proof.
  induction 1 as [| w ws Hw Hws IH]; [reflexivity |].
  rewrite join_cons. destruct ws as [| q ps].
  - rewrite <- (append_empty w) at 1. now rewrite split_word_app.
  - rewrite split_word_app; [| exact Hw | reflexivity].
    f_equal. exact IH.
Qed.

Lemma join_cons_more (p : string) (l : list string) :
  l <> [] -> PyStr.join " " (p :: l) = p ++ " " ++ PyStr.join " " l.
Proof. intros H. rewrite join_cons. destruct l; [congruence | reflexivity]. Qed.

Lemma join_last_app (ws : list string) (w e : string) :
  PyStr.join " " (ws ++ [w])%list ++ e
  = PyStr.join " " (ws ++ [(w ++ e)%string])%list.
Proof.
  induction ws as [| p ps IH]; [reflexivity |].
  cbn [app]. rewrite !join_cons_more by (now destruct ps).
  now rewrite !ReSound.app_assoc_str, IH.
Qed.

Lemma no_space_app (w e : string) :
  App.no_space w = true -> App.no_space e = true -> App.no_space (w ++ e) = true.
Proof.
  intros Hw He. induction w as [| b w IH]; [exact He |].
  cbn [append App.no_space] in *. apply andb_prop in Hw as [Hb Hw].
  now rewrite Hb, IH.
Qed.

Lemma is_word_app (w e : string) :
  App.is_word w = true -> App.no_space e = true -> App.is_word (w ++ e) = true.
Proof.
  unfold App.is_word. intros Hw He. apply andb_prop in Hw as [Hne Hw].
  rewrite (no_space_app _ _ Hw He), andb_true_r.
  destruct w; [discriminate Hne | reflexivity].
Qed.

End SplitFacts.

(** X18: the page gate of [app.py] is narrower than the test of the
    extractor: a text is educational for the extractor exactly when it is
    for the page or it names one of mooc, lesson, curriculum, module. *)
Theorem looks_educational_is_educational (text : string) :
  _looks_educational text =
  App.is_educational text ||
  PyStr.any_in ["mooc"; "lesson"; "curriculum"; "module"] (PyStr.lower text).
Proof.
  unfold _looks_educational, App.is_educational, PyStr.any_in.
  rewrite <- existsb_app. apply existsb_same_elements.
  intros x. unfold EDU_WORDS, App.EDU_KEYWORDS. simpl. tauto.
Qed.

Section AppTheorems.

Variable BeautifulSoup : string -> soup.
Variable json_loads : string -> option json.
Variable py_repr : json -> string.
Variable float_ext : string -> option pyfloat.
Variable dateparser_parse : string -> datetime -> option datetime.
Variable now : datetime.
Variable urlparse : string -> res parse_result.
Variable urljoin : string -> string -> res string.
Variable dateparser_default : string -> option datetime.
Variable float_mul : pyfloat -> pyfloat -> pyfloat.
Variable float_div : pyfloat -> pyfloat -> pyfloat.

(** X19: what the search page makes of a record of [extract_programs]: the
    title, the type and the mode are not empty, the type is one of the
    four, the url is kept, and the record gets a price in dollars exactly
    when it has a price and its currency is one of the canonical codes. *)
Theorem enriched_record (html_raw page_url : string) (rows : list row)
    (hit_title page_title combined sel_country sel_region : string) :
  extract_programs BeautifulSoup json_loads py_repr float_ext
    dateparser_parse now urlparse urljoin html_raw page_url = Ok rows ->
  Forall (fun r' =>
            let p := App.enrich_row dateparser_default float_mul float_div
                       hit_title page_title combined sel_country sel_region r' in
            (exists t, title (App.fields p) = Some t /\ t <> "") /\
            (exists t, type (App.fields p) = Some t /\ In t type_labels) /\
            (exists m, mode (App.fields p) = Some m /\ m <> "") /\
            url (App.fields p) = url r' /\
            (App.price_usd p = None <->
             price r' = None \/
             forall c, currency r' = Some c -> ~ In c canonical_codes))
         rows.
Proof.
  intros H. apply Forall_forall. intros r' Hin. cbv zeta.
  destruct (extract_programs_from_candidate _ _ _ _ _ _ _ _ _ _ _ _ H Hin)
    as (raw & r & Hraw & Hr & Hn).
  rewrite enrich_row_title, enrich_row_type, enrich_row_mode, enrich_row_url,
    enrich_row_price_usd.
  split; [| split; [| split; [| split; [reflexivity |]]]].
  - rewrite (normalize_row_title _ _ _ Hn).
    destruct (negb _ || App.opt_eqb _ _).
    + eexists. split; [reflexivity |]. apply truthy_nonempty.
      apply take_chars_truthy. apply or_default_truthy. now apply or_default_truthy.
    + eexists. split; [reflexivity |]. apply truthy_nonempty.
      now apply or_default_truthy.
  - destruct (negb (truthy_opt (type r')) || App.opt_eqb (type r') "Other") eqn:E.
    + eexists. split; [reflexivity | apply app_classify_type_label].
    + apply orb_false_iff in E as [E _]. apply negb_false_iff in E.
      assert (Hty : type r = None \/ exists t, type r = Some t /\ In t type_labels)
        by (eapply candidate_rows_type; eassumption).
      unfold normalize_row in Hn. apply bind_Ok in Hn as (ty & Hty' & Hn).
      injection Hn as <-. cbv beta iota delta [type] in *.
      destruct Hty as [Hnone | (t & Ht & Hl)].
      * rewrite Hnone in Hty'. cbn [truthy_opt] in Hty'.
        apply bind_Ok in Hty' as (s & _ & Hty'). injection Hty' as <-.
        eexists. split; [reflexivity | apply classify_type_label].
      * rewrite Ht in Hty'.
        assert (Htr : truthy_opt (Some t) = true).
        { unfold type_labels in Hl. simpl in Hl.
          repeat (destruct Hl as [<- | Hl]; [reflexivity |]). destruct Hl. }
        rewrite Htr in Hty'. injection Hty' as <-. eauto.
  - rewrite (normalize_row_mode _ _ _ Hn).
    assert (Hm : normalize_mode (mode r) <> "").
    { apply truthy_nonempty.
      destruct (normalize_mode_cases (mode r)) as [Hc | (_ & Ht & _)]; [| exact Ht].
      unfold canonical_modes in Hc. simpl in Hc.
      repeat (destruct Hc as [<- | Hc]; [reflexivity |]). destruct Hc. }
    destruct (negb _ || App.opt_eqb _ _); [| eauto].
    destruct (PyStr.contains _ _); [| eauto].
    eexists. split; [reflexivity | discriminate].
  - rewrite usd_price_none. split.
    + intros [Hp | [Hc | (s & Hc & Hs)]]; [now left | right | right].
      * intros c Hc'. congruence.
      * intros c Hc'. rewrite Hc in Hc'. injection Hc' as <-.
        now rewrite (normalized_currency_upper _ _ _ _ Hn Hc) in Hs.
    + intros [Hp | Hc]; [now left |]. right.
      destruct (currency r') as [c |] eqn:Ec; [right | now left].
      exists c. split; [reflexivity |].
      rewrite (normalized_currency_upper _ _ _ _ Hn Ec). now apply Hc.
Qed.

End AppTheorems.

Section SearchTheorems.

Variable API_KEY : string.
Variable GoogleSearch : string -> Z -> option json.

(** X20: every result that [search_web] returns has a link that is not
    empty; there are at most [max_results] of them when that number is not
    negative; they are what one query of the list gave, the queries before
    it having raised or given nothing; and without a country the region is
    not looked at. *)
Theorem search_web_results (topic : string) (f : App.filters) (max_results : Z) :
  let res := App.search_web API_KEY GoogleSearch topic f max_results in
  (forall h, In h res -> Py.truthy (App.hit_link h) = true) /\
  ((0 <= max_results)%Z -> (List.length res <= Z.to_nat max_results)%nat) /\
  (res = [] \/
   exists before parts after,
     App.tries topic f = (before ++ parts :: after)%list /\
     App._run_serpapi_query API_KEY GoogleSearch (PyStr.join " " parts) max_results
     = Some res /\
     forall parts', In parts' before ->
       App._run_serpapi_query API_KEY GoogleSearch (PyStr.join " " parts') max_results
       = None \/
       App._run_serpapi_query API_KEY GoogleSearch (PyStr.join " " parts') max_results
       = Some []) /\
  (App.f_country f = "Any" ->
   forall region,
     App.search_web API_KEY GoogleSearch topic
       {| App.f_type := App.f_type f; App.f_mode := App.f_mode f;
          App.f_cost := App.f_cost f; App.f_country := App.f_country f;
          App.f_region := region |} max_results = res).
Proof.
  cbv zeta. unfold App.search_web.
  assert (Hcases := first_result_cases API_KEY GoogleSearch max_results
                      (App.tries topic f)).
  split; [| split; [| split]].
  - destruct (negb (PyStr.truthy API_KEY)); [intros h [] |].
    destruct Hcases as [-> | (before & parts & after & _ & Hrun & _)]; [intros h [] |].
    now apply (run_serpapi_query_facts _ _ _ _ _ Hrun).
  - destruct (negb (PyStr.truthy API_KEY)); [simpl; lia |].
    destruct Hcases as [-> | (before & parts & after & _ & Hrun & _)]; [simpl; lia |].
    now apply (run_serpapi_query_facts _ _ _ _ _ Hrun).
  - destruct (negb (PyStr.truthy API_KEY)); [now left |].
    destruct Hcases as [-> | Hcases]; [now left | now right].
  - intros Hc region. destruct (negb (PyStr.truthy API_KEY)); [reflexivity |].
    unfold App.tries, App.base_parts. cbn [App.f_type App.f_mode App.f_cost
      App.f_country App.f_region]. rewrite Hc. reflexivity.
Qed.

End SearchTheorems.

(** X21: [" ".join(s.split())], by which the page cleans the text and the
    title of a document, is [_clean_text], by which the extractor cleans
    its fields. *)
Theorem join_split_is_clean_text (s : string) :
  PyStr.join " " (App.split s) = _clean_text (Some s).
Proof. apply SplitFacts.join_split_clean. Qed.

(** X22: a preview has the first five words of the text and no more; a
    clean text of five words or fewer is its own preview. *)
Theorem preview_5_words_words (text : string) :
  List.length (App.split (App.preview_5_words text))
  = Nat.min 5 (List.length (App.split text)) /\
  ((List.length (App.split text) <= 5)%nat ->
   _clean_text (Some text) = text -> App.preview_5_words text = text).
Proof.
  unfold App.preview_5_words.
  destruct text as [| a s]; [split; reflexivity |]. cbn [PyStr.truthy negb].
  set (t := String a s). pose proof (SplitFacts.split_words t) as Hw.
  set (ws := App.split t) in *.
  assert (Hf : Forall (fun w => App.is_word w = true) (firstn 5 ws))
    by (rewrite <- (firstn_skipn 5 ws) in Hw; now apply Forall_app in Hw).
  split.
  - destruct (5 <? List.length ws)%nat eqn:E.
    + apply Nat.ltb_lt in E.
      assert (Hl : List.length (firstn 5 ws) = 5%nat) by (rewrite length_firstn; lia).
      destruct (exists_last (l := firstn 5 ws)) as (front & w & Efw);
        [intros E0; rewrite E0 in Hl; discriminate Hl |].
      rewrite Efw in *. rewrite SplitFacts.join_last_app.
      rewrite SplitFacts.split_join.
      * rewrite length_app in Hl. rewrite length_app.
        cbn [List.length] in *. lia.
      * apply Forall_app in Hf as [Hfront Hlast]. apply Forall_app. split; [exact Hfront |].
        constructor; [| constructor]. apply SplitFacts.is_word_app; [| reflexivity].
        now inversion Hlast.
    + apply Nat.ltb_ge in E. rewrite SplitFacts.append_empty.
      rewrite SplitFacts.split_join by exact Hf.
      rewrite length_firstn. lia.
  - intros Hle Hclean. apply Nat.ltb_ge in Hle. rewrite Hle.
    rewrite SplitFacts.append_empty, firstn_all2 by now apply Nat.ltb_ge.
    unfold ws. now rewrite SplitFacts.join_split_clean.
Qed.

Module DbFacts.
Import Db.

Lemma NoDup_snoc {A : Type} (l : list A) (x : A) :
  NoDup l -> ~ In x l -> NoDup (l ++ [x]).
Proof.
  intros Hl Hx. induction Hl as [| y l Hy Hl IH]; simpl.
  - constructor; [intros [] | constructor].
  - constructor.
    + intros Hin. apply in_app_or in Hin as [Hin | [<- | []]]; [contradiction |].
      apply Hx. now left.
    + apply IH. intros Hin. apply Hx. now right.
Qed.

Lemma Forall_snoc {A : Type} (P : A -> Prop) (l : list A) (x : A) :
  Forall P l -> P x -> Forall P (l ++ [x]).
Proof. intros Hl Hx. apply Forall_app. split; [exact Hl | now constructor]. Qed.

Lemma existsb_false_not_In {A : Type} (f : A -> bool) (l : list A) :
  existsb f l = false -> forall x, In x l -> f x = false.
Proof.
  intros H x Hin. destruct (f x) eqn:E; [| reflexivity].
  assert (existsb f l = true) by (apply existsb_exists; eauto). congruence.
Qed.

Lemma seq_not_In {A : Type} (id : A -> Z) (l : list A) (n : Z) :
  Forall (fun x => (id x <= n)%Z) l -> ~ In (n + 1)%Z (List.map id l).
Proof.
  intros H Hin. apply in_map_iff in Hin as (x & Hx & Hin).
  eapply Forall_forall in H; [| exact Hin]. lia.
Qed.

Lemma Forall_le_weaken {A : Type} (id : A -> Z) (l : list A) (n m : Z) :
  (n <= m)%Z -> Forall (fun x => (id x <= n)%Z) l -> Forall (fun x => (id x <= m)%Z) l.
Proof. intros Hnm. apply Forall_impl. intros x Hx. lia. Qed.

Lemma wf_empty : wf empty.
Proof. constructor; simpl; constructor. Qed.

(** *** Users *)

Lemma find_app_none {A : Type} (f : A -> bool) (l : list A) (x : A) :
  (forall y, In y l -> f y = false) -> f x = true -> find f (l ++ [x]) = Some x.
Proof.
  intros Hl Hx. induction l as [| y l IH]; simpl.
  - now rewrite Hx.
  - rewrite (Hl y (or_introl eq_refl)). apply IH. intros z Hz. apply Hl. now right.
Qed.

Lemma create_user_cases (d : t) (email name password role : string) :
  let e := PyStr.lower (PyStr.strip email) in
  (create_user d email name password role
   = (d, (false, "Email and password are required.")) /\
   (e = "" \/ password = "")) \/
  (create_user d email name password role = (d, (false, "Email already exists.")) /\
   e <> "" /\ password <> "" /\ In e (List.map user_email (users d))) \/
  (exists u,
     create_user d email name password role
     = ({| users := (users d ++ [u])%list; users_seq := (users_seq d + 1)%Z;
           sources := sources d; sources_seq := sources_seq d;
           programs := programs d; programs_seq := programs_seq d |},
        (true, "Account created.")) /\
     e <> "" /\ password <> "" /\ ~ In e (List.map user_email (users d)) /\
     user_id u = (users_seq d + 1)%Z /\ user_email u = e /\
     user_password_hash u = password /\ user_role u = role).
Proof.
  cbv zeta. unfold create_user.
  destruct (PyStr.truthy (PyStr.lower (PyStr.strip email))) eqn:Ee; cbn [negb orb].
  - destruct (PyStr.truthy password) eqn:Ep; cbn [negb].
    + apply truthy_nonempty in Ee, Ep.
      destruct (existsb _ (users d)) eqn:Ex.
      * right. left. repeat split; try assumption.
        apply existsb_exists in Ex as (u & Hu & Ex). apply String.eqb_eq in Ex.
        rewrite <- Ex. now apply in_map.
      * right. right. eexists. split; [reflexivity |].
        repeat split; try assumption.
        intros Hin. apply in_map_iff in Hin as (u & Hu & Hin).
        pose proof (existsb_false_not_In _ _ Ex u Hin) as Hf. cbv beta in Hf.
        rewrite Hu, String.eqb_refl in Hf. discriminate Hf.
    + left. split; [reflexivity |]. right. now destruct password.
  - left. split; [reflexivity |]. left.
    now destruct (PyStr.lower (PyStr.strip email)).
Qed.

Lemma create_user_wf (d d' : t) (email name password role : string) (out : bool * string) :
  wf d -> create_user d email name password role = (d', out) -> wf d'.
Proof.
  intros Hwf H.
  destruct (create_user_cases d email name password role)
    as [[E _] | [[E _] | (u & E & He & Hp & Hnew & Hid & Hem & _)]];
    rewrite E in H; injection H as <- <-; try exact Hwf.
  destruct Hwf. constructor; cbn [users users_seq sources sources_seq programs programs_seq];
    try assumption.
  - apply Forall_snoc; [assumption |]. rewrite Hem. apply StrFacts.lower_idem.
  - rewrite map_app. cbn [List.map]. apply NoDup_snoc; [assumption |]. now rewrite Hem.
  - rewrite map_app. cbn [List.map]. apply NoDup_snoc; [assumption |].
    rewrite Hid. now apply seq_not_In.
  - apply Forall_snoc; [| lia].
    eapply Forall_le_weaken; [| eassumption]. lia.
Qed.

(** After a registration, the new user is the one that a look-up of the
    email finds. *)
Lemma get_user_after_create (d : t) (u : user) (email' : string) (seq : Z)
    (s : list source) (ss : Z) (p : list stored) (ps : Z) :
  wf d -> ~ In (user_email u) (List.map user_email (users d)) ->
  sql_lower (user_email u) = user_email u ->
  sql_lower (PyStr.strip email') = user_email u ->
  get_user_by_email
    {| users := (users d ++ [u])%list; users_seq := seq;
       sources := s; sources_seq := ss; programs := p; programs_seq := ps |}
    email' = Some u.
Proof.
  intros Hwf Hnew Hlow Heq. unfold get_user_by_email. cbn [users].
  apply find_app_none.
  - intros y Hy. apply String.eqb_neq. intros E. apply Hnew.
    destruct Hwf as [Hl _ _ _ _ _ _ _ _ _ _ _ _].
    eapply Forall_forall in Hl; [| exact Hy]. rewrite Hl, Heq in E.
    rewrite <- E. now apply in_map.
  - rewrite Hlow, Heq. apply String.eqb_refl.
Qed.

End DbFacts.

Module StoreFacts.
Import Db.

Ltac split_ands := repeat match goal with |- _ /\ _ => split end.

Lemma program_keys_app (l1 l2 : list stored) :
  program_keys (l1 ++ l2) = (program_keys l1 ++ program_keys l2)%list.
Proof. unfold program_keys. apply flat_map_app. Qed.

(** An insertion into [programs] is ignored exactly when the new row has
    a title and its pair of url and title is there. *)
Lemma collision_iff (ps : list stored) (u : string) (x : option string) :
  existsb (fun q => String.eqb (url (App.fields (program q))) u &&
                    collide (title (App.fields (program q))) x) ps = true <->
  exists s, x = Some s /\ In (u, s) (program_keys ps).
Proof.
  rewrite existsb_exists. unfold program_keys. split.
  - intros (q & Hq & H). apply andb_prop in H as [Hu Ht].
    apply String.eqb_eq in Hu. unfold collide in Ht.
    destruct (title (App.fields (program q))) as [a |] eqn:Ea; [| discriminate].
    destruct x as [b |]; [| discriminate]. apply String.eqb_eq in Ht. subst b.
    exists a. split; [reflexivity |]. apply in_flat_map. exists q.
    split; [exact Hq |]. unfold unique_key. rewrite Ea, Hu. now left.
  - intros (s & -> & Hin). apply in_flat_map in Hin as (q & Hq & Hin).
    exists q. split; [exact Hq |]. unfold unique_key in Hin.
    destruct (title (App.fields (program q))) as [a |] eqn:Ea; [| destruct Hin].
    destruct Hin as [Hin | []]. injection Hin as Hu Ha. subst a.
    rewrite Hu, String.eqb_refl. cbn [collide andb]. apply String.eqb_refl.
Qed.

Lemma In_map_app_l {A B : Type} (f : A -> B) (l l' : list A) (y : B) :
  In y (List.map f l) -> In y (List.map f (l ++ l')).
Proof. intros H. rewrite map_app. apply in_or_app. now left. Qed.

Section Store.

Variable urlparse : string -> res parse_result.
Variable ignored_takes_id : bool.

Lemma insert_source_facts (d : t) (domain : string) :
  let d1 := insert_source ignored_takes_id d domain in
  users d1 = users d /\ users_seq d1 = users_seq d /\
  programs d1 = programs d /\ programs_seq d1 = programs_seq d /\
  (exists new, sources d1 = (sources d ++ new)%list) /\
  In domain (List.map source_url (sources d1)) /\
  (In domain (List.map source_url (sources d)) -> sources d1 = sources d) /\
  (wf d -> wf d1).
Proof.
  cbv zeta. unfold insert_source.
  destruct (existsb _ (sources d)) eqn:Ex.
  - cbn [users users_seq sources programs programs_seq].
    split_ands; try reflexivity.
    + exists []. now rewrite app_nil_r.
    + apply existsb_exists in Ex as (s & Hs & Ex). apply String.eqb_eq in Ex.
      rewrite <- Ex. now apply in_map.
    + intros [? ? ? ? ? ? Hseq ? ? ? ? ? ?].
      constructor; cbn [users users_seq sources sources_seq programs programs_seq];
        try assumption.
      destruct ignored_takes_id; [| assumption].
      eapply DbFacts.Forall_le_weaken; [| eassumption]. lia.
  - cbn [users users_seq sources programs programs_seq].
    assert (Hnew : ~ In domain (List.map source_url (sources d))).
    { intros Hin. apply in_map_iff in Hin as (s & Hs & Hin).
      pose proof (DbFacts.existsb_false_not_In _ _ Ex s Hin) as Hf. cbv beta in Hf.
      rewrite Hs, String.eqb_refl in Hf. discriminate Hf. }
    split_ands; try reflexivity.
    + eexists. reflexivity.
    + rewrite map_app. apply in_or_app. right. now left.
    + intros Hin. contradiction.
    + intros [? ? ? ? Hurls Hids Hseq ? Hsrc ? ? ? ?].
      constructor; cbn [users users_seq sources sources_seq programs programs_seq];
        try assumption.
      * rewrite map_app. now apply DbFacts.NoDup_snoc.
      * rewrite map_app. apply DbFacts.NoDup_snoc; [assumption |].
        now apply DbFacts.seq_not_In.
      * apply DbFacts.Forall_snoc; [| cbn [source_id]; lia].
        eapply DbFacts.Forall_le_weaken; [| eassumption]. lia.
      * eapply Forall_impl; [| exact Hsrc]. intros q Hq. now apply In_map_app_l.
Qed.

Lemma select_source_In (d : t) (domain : string) :
  In domain (List.map source_url (sources d)) ->
  exists id, select_source d domain = Ok id /\
             In id (List.map source_id (sources d)).
Proof.
  intros Hin. unfold select_source.
  destruct (find _ (sources d)) as [s |] eqn:Ef.
  - exists (source_id s). split; [reflexivity |].
    apply find_some in Ef as [Hs _]. now apply in_map.
  - exfalso. apply in_map_iff in Hin as (s & Hs & Hin).
    pose proof (find_none _ _ Ef s Hin) as Hf. cbv beta in Hf.
    rewrite Hs, String.eqb_refl in Hf. discriminate Hf.
Qed.

Lemma ensure_source_facts (d : t) (program_url : string) :
  exists d1 id,
    _ensure_source_within urlparse ignored_takes_id d program_url = Ok (d1, id) /\
    d1 = insert_source ignored_takes_id d (_domain_of urlparse program_url) /\
    In id (List.map source_id (sources d1)).
Proof.
  unfold _ensure_source_within.
  set (d1 := insert_source ignored_takes_id d (_domain_of urlparse program_url)).
  destruct (insert_source_facts d (_domain_of urlparse program_url))
    as (_ & _ & _ & _ & _ & Hin & _).
  destruct (select_source_In d1 _ Hin) as (id & -> & Hid).
  cbn [bind]. now exists d1, id.
Qed.

Lemma insert_program_facts (d : t) (sid : Z) (program_url : string) (p : App.program) :
  let d2 := insert_program ignored_takes_id d sid program_url p in
  users d2 = users d /\ users_seq d2 = users_seq d /\
  sources d2 = sources d /\ sources_seq d2 = sources_seq d /\
  (programs d2 = programs d \/
   programs d2
   = (programs d ++ [ {| program_id := (programs_seq d + 1)%Z; program_source := sid;
                         program := columns program_url p; is_approved := 1 |} ])%list /\
   forall s, title (App.fields p) = Some s ->
             ~ In (program_url, s) (program_keys (programs d))) /\
  (forall s, title (App.fields p) = Some s ->
             In (program_url, s) (program_keys (programs d2))) /\
  ((exists s, title (App.fields p) = Some s /\
              In (program_url, s) (program_keys (programs d))) ->
   programs d2 = programs d) /\
  (wf d -> program_url <> "" -> In sid (List.map source_id (sources d)) -> wf d2).
Proof.
  cbv zeta. unfold insert_program.
  destruct (existsb _ (programs d)) eqn:Ex.
  - cbn [users users_seq sources sources_seq programs].
    apply collision_iff in Ex as (s & Hs & Hin).
    split_ands; try reflexivity.
    + now left.
    + intros s' Hs'. rewrite Hs in Hs'. now injection Hs' as <-.
    + intros [? ? ? ? ? ? ? ? ? ? ? ? Hseq] _ _.
      constructor; cbn [users users_seq sources sources_seq programs programs_seq];
        try assumption.
      destruct ignored_takes_id; [| assumption].
      eapply DbFacts.Forall_le_weaken; [| eassumption]. lia.
  - cbn [users users_seq sources sources_seq programs].
    assert (Hfresh : forall s, title (App.fields p) = Some s ->
                               ~ In (program_url, s) (program_keys (programs d))).
    { intros s Hs Hin.
      assert (Ht : existsb (fun q => String.eqb (url (App.fields (program q))) program_url &&
                                     collide (title (App.fields (program q)))
                                             (title (App.fields p))) (programs d) = true)
        by (apply collision_iff; eauto).
      congruence. }
    split_ands; try reflexivity.
    + right. split; [reflexivity | exact Hfresh].
    + intros s Hs. rewrite program_keys_app. apply in_or_app. right.
      unfold program_keys, unique_key. cbn [flat_map program columns App.fields title url].
      rewrite Hs. now left.
    + intros (s & Hs & Hin). exfalso. now apply (Hfresh s).
    + intros [? ? ? ? ? ? ? Hurls Hsrc Hmarks Hkeys Hids Hseq] Hu Hsid.
      constructor; cbn [users users_seq sources sources_seq programs programs_seq];
        try assumption.
      * apply DbFacts.Forall_snoc; [assumption | exact Hu].
      * apply DbFacts.Forall_snoc; [assumption | exact Hsid].
      * apply DbFacts.Forall_snoc; [assumption | now right].
      * rewrite program_keys_app.
        unfold program_keys at 2, unique_key.
        cbn [flat_map program columns App.fields title url].
        destruct (title (App.fields p)) as [s |] eqn:Es.
        -- cbn [app]. apply DbFacts.NoDup_snoc; [assumption | now apply Hfresh].
        -- cbn [app]. now rewrite app_nil_r.
      * rewrite map_app. apply DbFacts.NoDup_snoc; [assumption |].
        now apply DbFacts.seq_not_In.
      * apply DbFacts.Forall_snoc; [| cbn [program_id]; lia].
        eapply DbFacts.Forall_le_weaken; [| eassumption]. lia.
Qed.

End Store.

End StoreFacts.

Module SaveFacts.
Import Db.

Lemma or_default_empty (u : string) : or_default u "" = u.
Proof. unfold or_default. now destruct u. Qed.

Section Store.

Variable urlparse : string -> res parse_result.
Variable ignored_takes_id : bool.

Local Abbreviation save_rows := (save_rows urlparse ignored_takes_id).
Local Abbreviation domain_of := (_domain_of urlparse).

(** One turn of the loop for a record with a url. *)
Lemma save_rows_step (d : t) (p : App.program) (rest : list App.program) :
  url (App.fields p) <> "" ->
  exists sid,
    save_rows d (p :: rest)
    = save_rows (insert_program ignored_takes_id
                   (insert_source ignored_takes_id d (domain_of (url (App.fields p))))
                   sid (url (App.fields p)) p) rest /\
    In sid (List.map source_id
              (sources (insert_source ignored_takes_id d
                          (domain_of (url (App.fields p)))))).
Proof.
  intros Hu. cbn [Db.save_rows]. rewrite or_default_empty.
  apply truthy_nonempty in Hu. rewrite Hu. cbn [negb].
  destruct (StoreFacts.ensure_source_facts urlparse ignored_takes_id d
              (url (App.fields p))) as (d1 & sid & -> & -> & Hsid).
  cbn [bind fst snd]. now exists sid.
Qed.

Lemma save_rows_skip (d : t) (p : App.program) (rest : list App.program) :
  url (App.fields p) = "" -> save_rows d (p :: rest) = save_rows d rest.
Proof.
  intros Hu. cbn [Db.save_rows]. rewrite or_default_empty, Hu. reflexivity.
Qed.

(** The loop returns; it leaves the users alone and the rows of the other
    two tables where they are; what it adds to [programs] comes from the
    records with a url, each at most once and approved; afterwards the
    domain of each such record is a source, and its url and title, if it
    has a title, are those of a program. *)
Lemma save_rows_facts (rows : list App.program) :
  forall d,
  exists d',
    save_rows d rows = Ok d' /\
    users d' = users d /\ users_seq d' = users_seq d /\
    (exists new, sources d' = (sources d ++ new)%list) /\
    (exists new,
       programs d' = (programs d ++ new)%list /\
       (List.length new <= List.length rows)%nat /\
       Forall (fun q => is_approved q = 1%Z /\
                        exists p, In p rows /\ url (App.fields p) <> "" /\
                                  program q = columns (url (App.fields p)) p) new) /\
    forall p, In p rows -> url (App.fields p) <> "" ->
      In (domain_of (url (App.fields p))) (List.map source_url (sources d')) /\
      forall s, title (App.fields p) = Some s ->
        In (url (App.fields p), s) (program_keys (programs d')).
Proof.
  induction rows as [| p rest IH]; intros d.
  - exists d. split; [reflexivity |]. split; [reflexivity |]. split; [reflexivity |].
    split; [exists []; now rewrite app_nil_r |].
    split; [exists []; rewrite app_nil_r; repeat split; [simpl; lia | constructor] |].
    intros p [].
  - destruct (string_dec (url (App.fields p)) "") as [Hu | Hu].
    + rewrite (save_rows_skip _ _ _ Hu).
      destruct (IH d) as (d' & Hd' & Hus & Huq & Hsrc & (new & Hp & Hlen & Hnew) & Hpres).
      exists d'. split; [exact Hd' |]. split; [exact Hus |]. split; [exact Huq |].
      split; [exact Hsrc |]. split.
      * exists new. split; [exact Hp |]. split; [simpl; lia |].
        eapply Forall_impl; [| exact Hnew].
        intros q (Ha & p0 & Hin & Hq). split; [exact Ha |].
        exists p0. split; [now right | exact Hq].
      * intros p0 [<- | Hin] Hu0; [contradiction | now apply Hpres].
    + destruct (save_rows_step d p rest Hu) as (sid & -> & Hsid).
      set (d1 := insert_source ignored_takes_id d (domain_of (url (App.fields p)))) in *.
      set (d2 := insert_program ignored_takes_id d1 sid (url (App.fields p)) p).
      destruct (StoreFacts.insert_source_facts ignored_takes_id d
                  (domain_of (url (App.fields p))))
        as (Hu1 & Hq1 & Hp1 & _ & (new1 & Hs1) & Hdom1 & _).
      fold d1 in Hu1, Hq1, Hp1, Hs1, Hdom1.
      destruct (StoreFacts.insert_program_facts ignored_takes_id d1 sid
                  (url (App.fields p)) p)
        as (Hu2 & Hq2 & Hs2 & _ & Hp2 & Hkey2 & _).
      fold d2 in Hu2, Hq2, Hs2, Hp2, Hkey2.
      destruct (IH d2) as (d' & Hd' & Hus & Huq & (news & Hsrc) & (new & Hp & Hlen & Hnew) & Hpres).
      exists d'. split; [exact Hd' |].
      split; [congruence |]. split; [congruence |].
      split; [exists (new1 ++ news)%list; rewrite Hsrc, Hs2, Hs1; now rewrite app_assoc |].
      split.
      * destruct Hp2 as [Hp2 | [Hp2 _]].
        -- exists new. split; [congruence |]. split; [simpl; lia |].
           eapply Forall_impl; [| exact Hnew].
           intros q (Ha & p0 & Hin & Hq). split; [exact Ha |].
           exists p0. split; [now right | exact Hq].
        -- eexists (_ :: new)%list. split.
           ++ rewrite Hp, Hp2, Hp1, <- app_assoc. reflexivity.
           ++ split; [simpl; lia |]. constructor.
              ** split; [reflexivity |]. exists p.
                 split; [now left |]. split; [exact Hu | reflexivity].
              ** eapply Forall_impl; [| exact Hnew].
                 intros q (Ha & p0 & Hin & Hq). split; [exact Ha |].
                 exists p0. split; [now right | exact Hq].
      * intros p0 [<- | Hin] Hu0; [| now apply Hpres]. split.
        -- rewrite Hsrc. apply StoreFacts.In_map_app_l. now rewrite Hs2.
        -- intros s Hs. rewrite Hp, StoreFacts.program_keys_app.
           apply in_or_app. left. now apply Hkey2.
Qed.

Lemma save_rows_wf (rows : list App.program) :
  forall d d', wf d -> save_rows d rows = Ok d' -> wf d'.
Proof.
  induction rows as [| p rest IH]; intros d d' Hwf H.
  - injection H as <-. exact Hwf.
  - destruct (string_dec (url (App.fields p)) "") as [Hu | Hu].
    + rewrite (save_rows_skip _ _ _ Hu) in H. now apply (IH d).
    + destruct (save_rows_step d p rest Hu) as (sid & E & Hsid). rewrite E in H.
      eapply IH; [| exact H].
      apply StoreFacts.insert_program_facts; [| exact Hu | exact Hsid].
      now apply StoreFacts.insert_source_facts.
Qed.

(** When the sources and the programs of the records are there already,
    the loop adds nothing. *)
Lemma save_rows_present (rows : list App.program) :
  forall d,
    (forall p, In p rows -> url (App.fields p) <> "" ->
       In (domain_of (url (App.fields p))) (List.map source_url (sources d)) /\
       exists s, title (App.fields p) = Some s /\
                 In (url (App.fields p), s) (program_keys (programs d))) ->
    exists d',
      save_rows d rows = Ok d' /\
      users d' = users d /\ sources d' = sources d /\ programs d' = programs d.
Proof.
  induction rows as [| p rest IH]; intros d Hpres.
  - exists d. repeat split.
  - destruct (string_dec (url (App.fields p)) "") as [Hu | Hu].
    + rewrite (save_rows_skip _ _ _ Hu). apply IH.
      intros p0 Hin. apply Hpres. now right.
    + destruct (save_rows_step d p rest Hu) as (sid & -> & Hsid).
      destruct (Hpres p (or_introl eq_refl) Hu) as (Hdom & s & Hs & Hkey).
      set (d1 := insert_source ignored_takes_id d (domain_of (url (App.fields p)))) in *.
      set (d2 := insert_program ignored_takes_id d1 sid (url (App.fields p)) p).
      destruct (StoreFacts.insert_source_facts ignored_takes_id d
                  (domain_of (url (App.fields p))))
        as (Hu1 & _ & Hp1 & _ & _ & _ & Hs1 & _).
      fold d1 in Hu1, Hp1, Hs1. specialize (Hs1 Hdom).
      destruct (StoreFacts.insert_program_facts ignored_takes_id d1 sid
                  (url (App.fields p)) p)
        as (Hu2 & _ & Hs2 & _ & _ & _ & Hp2 & _).
      fold d2 in Hu2, Hs2, Hp2.
      assert (Hsame : programs d2 = programs d1)
        by (apply Hp2; exists s; split; [exact Hs | now rewrite Hp1]).
      destruct (IH d2) as (d' & Hd' & Hus & Hss & Hps).
      { intros p0 Hin Hu0. rewrite Hs2, Hs1, Hsame, Hp1.
        apply Hpres; [now right | exact Hu0]. }
      exists d'. split; [exact Hd' |]. repeat split; congruence.
Qed.

Lemma save_program_rows_eq (d : t) (rows : list App.program) :
  save_program_rows urlparse ignored_takes_id d rows = save_rows d rows.
Proof. now destruct rows. Qed.

End Store.

Lemma toggle_twice (d : t) (pid : Z) :
  toggle_program_approved (toggle_program_approved d pid) pid = d.
Proof.
  destruct d as [us uq ss sq ps pq]. unfold toggle_program_approved.
  cbn [users users_seq sources sources_seq programs programs_seq]. f_equal.
  rewrite map_map. rewrite <- (map_id ps) at 2. apply map_ext.
  intros [id src pr ap]. cbn [program_id].
  destruct (id =? pid)%Z eqn:E; cbn [program_id]; rewrite E; [| reflexivity].
  cbn [program_source program is_approved]. f_equal. lia.
Qed.

Lemma toggle_unknown (d : t) (pid : Z) :
  ~ In pid (List.map program_id (programs d)) -> toggle_program_approved d pid = d.
Proof.
  destruct d as [us uq ss sq ps pq]. unfold toggle_program_approved.
  cbn [users users_seq sources sources_seq programs programs_seq].
  intros Hn. f_equal. rewrite <- (map_id ps) at 2. apply map_ext_in.
  intros q Hq. destruct (program_id q =? pid)%Z eqn:E; [| reflexivity].
  apply Z.eqb_eq in E. exfalso. apply Hn. rewrite <- E. now apply in_map.
Qed.

Lemma toggle_keys (ps : list stored) (pid : Z) :
  program_keys
    (List.map (fun q => if (program_id q =? pid)%Z
                        then {| program_id := program_id q;
                                program_source := program_source q;
                                program := program q;
                                is_approved := 1 - is_approved q |}
                        else q) ps)
  = program_keys ps.
Proof.
  unfold program_keys. induction ps as [| q ps IH]; [reflexivity |].
  cbn [List.map flat_map]. rewrite IH. f_equal.
  now destruct (program_id q =? pid)%Z.
Qed.

Lemma toggle_wf (d : t) (pid : Z) : wf d -> wf (toggle_program_approved d pid).
Proof.
  intros [? ? ? ? ? ? ? Hurls Hsrc Hmarks Hkeys Hids Hseq].
  assert (Hmap : forall (P : stored -> Prop),
            (forall q, P q ->
               P {| program_id := program_id q; program_source := program_source q;
                    program := program q; is_approved := 1 - is_approved q |}) ->
            Forall P (programs d) ->
            Forall P (programs (toggle_program_approved d pid))).
  { intros P HP HF. cbn [toggle_program_approved programs].
    apply Forall_forall. intros q' Hin. apply in_map_iff in Hin as (q & <- & Hin).
    eapply Forall_forall in HF; [| exact Hin].
    destruct (program_id q =? pid)%Z; [now apply HP | exact HF]. }
  constructor; try assumption.
  - apply Hmap; [| exact Hurls]. now intros q Hq.
  - apply Hmap; [| exact Hsrc]. now intros q Hq.
  - apply Hmap; [| exact Hmarks]. intros q [Hq | Hq]; cbn [is_approved]; lia.
  - cbn [toggle_program_approved programs]. now rewrite toggle_keys.
  - cbn [toggle_program_approved programs]. rewrite map_map.
    erewrite map_ext; [exact Hids |].
    intros q. now destruct (program_id q =? pid)%Z.
  - apply Hmap; [| exact Hseq]. now intros q Hq.
Qed.

End SaveFacts.

Lemma toggle_stats_split (l1 l2 : list Db.stored) (q : Db.stored) (pid : Z) :
  Db.program_id q = pid ->
  ~ In pid (List.map Db.program_id l1) -> ~ In pid (List.map Db.program_id l2) ->
  List.map (fun q => if (Db.program_id q =? pid)%Z
                     then {| Db.program_id := Db.program_id q;
                             Db.program_source := Db.program_source q;
                             Db.program := Db.program q;
                             Db.is_approved := 1 - Db.is_approved q |}
                     else q) (l1 ++ q :: l2)
  = (l1 ++ {| Db.program_id := Db.program_id q;
              Db.program_source := Db.program_source q;
              Db.program := Db.program q;
              Db.is_approved := 1 - Db.is_approved q |} :: l2)%list.
Proof.
  intros Hq H1 H2.
  assert (Hsame : forall l, ~ In pid (List.map Db.program_id l) ->
            List.map (fun q => if (Db.program_id q =? pid)%Z
                               then {| Db.program_id := Db.program_id q;
                                       Db.program_source := Db.program_source q;
                                       Db.program := Db.program q;
                                       Db.is_approved := 1 - Db.is_approved q |}
                               else q) l = l).
  { intros l Hl. rewrite <- (map_id l) at 2. apply map_ext_in. intros x Hx.
    destruct (Db.program_id x =? pid)%Z eqn:E; [| reflexivity].
    apply Z.eqb_eq in E. exfalso. apply Hl. rewrite <- E. now apply in_map. }
  rewrite map_app. cbn [List.map]. rewrite (Hsame l1 H1), (Hsame l2 H2).
  apply Z.eqb_eq in Hq. now rewrite Hq.
Qed.

(** X23: after [create_user] has registered an email, [verify_user] accepts
    that email, in whatever case it is written and with whatever blanks
    around it, with the password that was given and with no other; the
    password is kept as it was given; the tables stay well formed.  The
    emails are ASCII texts, on which [str.lower] of Python and [LOWER] of
    SQLite agree. *)
Theorem create_user_then_verify_user (d d' : Db.t) (email name password role msg : string) :
  Db.wf d -> Db.ascii_text email = true ->
  Db.create_user d email name password role = (d', (true, msg)) ->
  Db.wf d' /\
  (exists u, In u (Db.users d') /\
             Db.user_email u = PyStr.lower (PyStr.strip email) /\
             Db.user_password_hash u = password) /\
  forall email',
    Db.ascii_text email' = true ->
    PyStr.lower (PyStr.strip email') = PyStr.lower (PyStr.strip email) ->
    (exists id nm,
       Db.verify_user d' email' password
       = Some (id, PyStr.lower (PyStr.strip email), nm, role)) /\
    forall pw, pw <> password -> Db.verify_user d' email' pw = None.
Proof.
  intros Hwf _ H.
  assert (Hwf' : Db.wf d') by (eapply DbFacts.create_user_wf; eassumption).
  split; [exact Hwf' |].
  destruct (DbFacts.create_user_cases d email name password role)
    as [[E _] | [[E _] | (u & E & He & Hp & Hnew & Hid & Hem & Hpw & Hrole)]];
    rewrite E in H; try discriminate H.
  injection H as <- _. split.
  - exists u. cbn [Db.users]. split; [apply in_or_app; right; now left |]. now split.
  - intros email' _ Heq.
    assert (Hget : Db.get_user_by_email
                     {| Db.users := (Db.users d ++ [u])%list;
                        Db.users_seq := (Db.users_seq d + 1)%Z;
                        Db.sources := Db.sources d; Db.sources_seq := Db.sources_seq d;
                        Db.programs := Db.programs d;
                        Db.programs_seq := Db.programs_seq d |} email' = Some u).
    { apply DbFacts.get_user_after_create; [exact Hwf | now rewrite Hem | |].
      - rewrite Hem. apply StrFacts.lower_idem.
      - rewrite Hem. exact Heq. }
    unfold Db.verify_user. rewrite Hget, Hpw. split.
    + rewrite String.eqb_refl, Hem, Hrole. eauto.
    + intros pw Hne. apply String.eqb_neq in Hne. now rewrite Hne.
Qed.

(** X24: [create_user] refuses an email that is registered, in whatever
    case it is written and with whatever blanks around it, and leaves the
    tables as they are. *)
Theorem create_user_refuses_registered_email (d d' : Db.t)
    (email name password role msg email' name' password' role' : string) :
  Db.ascii_text email = true -> Db.ascii_text email' = true ->
  Db.create_user d email name password role = (d', (true, msg)) ->
  PyStr.lower (PyStr.strip email') = PyStr.lower (PyStr.strip email) ->
  password' <> "" ->
  Db.create_user d' email' name' password' role'
  = (d', (false, "Email already exists.")).
Proof.
  intros _ _ H Heq Hpw.
  destruct (DbFacts.create_user_cases d email name password role)
    as [[E _] | [[E _] | (u & E & He & Hp & Hnew & Hid & Hem & _)]];
    rewrite E in H; try discriminate H.
  injection H as <- _.
  unfold Db.create_user. rewrite Heq. cbn [Db.users].
  apply truthy_nonempty in He, Hpw. rewrite He, Hpw. cbn [negb orb].
  rewrite existsb_app. cbn [existsb]. rewrite Hem, String.eqb_refl.
  now rewrite orb_true_r.
Qed.

Section StoreTheorems.

Variable urlparse : string -> res parse_result.
Variable ignored_takes_id : bool.

(** X25: on well-formed tables [save_program_rows] raises nothing and
    leaves them well formed: no two programs with a title share url and
    title, every program has a url and a source that is there.  It leaves
    the users alone and the programs that are there where they are; what
    it adds comes from the records that have a url, each at most once,
    and is approved. *)
Theorem save_program_rows_invariants (d : Db.t) (rows : list App.program) :
  Db.wf d ->
  exists d',
    Db.save_program_rows urlparse ignored_takes_id d rows = Ok d' /\
    Db.wf d' /\ Db.users d' = Db.users d /\
    exists new,
      Db.programs d' = (Db.programs d ++ new)%list /\
      (List.length new <= List.length rows)%nat /\
      Forall (fun q => Db.is_approved q = 1%Z /\
                       exists p, In p rows /\ url (App.fields p) <> "" /\
                                 Db.program q = Db.columns (url (App.fields p)) p)
             new.
Proof.
  intros Hwf. rewrite SaveFacts.save_program_rows_eq.
  destruct (SaveFacts.save_rows_facts urlparse ignored_takes_id rows d)
    as (d' & Hd' & Hus & _ & _ & Hnew & _).
  exists d'. split; [exact Hd' |].
  split; [eapply SaveFacts.save_rows_wf; eassumption |].
  split; [exact Hus | exact Hnew].
Qed.

(** X26: saving the same records once more adds nothing, when each record
    that has a url has a title: the three tables hold the rows that they
    held. *)
Theorem save_program_rows_idempotent (d d1 : Db.t) (rows : list App.program) :
  (forall p, In p rows -> url (App.fields p) <> "" -> title (App.fields p) <> None) ->
  Db.save_program_rows urlparse ignored_takes_id d rows = Ok d1 ->
  exists d2,
    Db.save_program_rows urlparse ignored_takes_id d1 rows = Ok d2 /\
    Db.users d2 = Db.users d1 /\ Db.sources d2 = Db.sources d1 /\
    Db.programs d2 = Db.programs d1.
Proof.
  intros Htitles H. rewrite SaveFacts.save_program_rows_eq in *.
  destruct (SaveFacts.save_rows_facts urlparse ignored_takes_id rows d)
    as (d' & Hd' & _ & _ & _ & _ & Hpres).
  rewrite H in Hd'. injection Hd' as <-.
  apply SaveFacts.save_rows_present.
  intros p Hin Hu. destruct (Hpres p Hin Hu) as [Hdom Hkey].
  split; [exact Hdom |].
  destruct (title (App.fields p)) as [s |] eqn:Es.
  - exists s. split; [reflexivity | now apply Hkey].
  - exfalso. now apply (Htitles p Hin Hu).
Qed.

(** X27: what [save_result] stores, [get_results] returns first: for a link
    that is not empty and not yet stored under the title, the results
    after the call are the results before it with one more in front, made
    of the next id, the title or "Program", the link and the content. *)
Theorem save_result_then_get_results (d : Db.t) (query title_ link content : string) :
  link <> "" ->
  ~ In (link, or_default title_ "Program") (Db.program_keys (Db.programs d)) ->
  exists d',
    Db.save_result urlparse ignored_takes_id d query title_ link content = Ok d' /\
    Db.get_results d'
    = ((Db.programs_seq d + 1)%Z, "", or_default title_ "Program", link, content)
      :: Db.get_results d.
Proof.
  intros Hlink Hfresh. unfold Db.save_result. rewrite SaveFacts.save_program_rows_eq.
  match goal with
  | |- context [Db.save_rows _ _ _ [?x]] => set (p := x)
  end.
  destruct (SaveFacts.save_rows_step urlparse ignored_takes_id d p [] Hlink)
    as (sid & E & _).
  rewrite E. cbn [Db.save_rows]. eexists. split; [reflexivity |].
  change (url (App.fields p)) with link.
  destruct (StoreFacts.insert_source_facts ignored_takes_id d
              (Db._domain_of urlparse link)) as (_ & _ & Hp1 & Hq1 & _).
  cbv zeta in Hp1, Hq1.
  set (d1 := Db.insert_source ignored_takes_id d (Db._domain_of urlparse link)) in *.
  destruct (StoreFacts.insert_program_facts ignored_takes_id d1 sid link p)
    as (_ & _ & _ & _ & Hp2 & Hkey & _).
  cbv zeta in Hp2, Hkey.
  destruct Hp2 as [Hp2 | [Hp2 _]].
  - exfalso. apply Hfresh. rewrite <- Hp1, <- Hp2. now apply Hkey.
  - unfold Db.get_results. rewrite Hp2, Hp1, Hq1, rev_app_distr.
    cbn [rev app List.map Db.program Db.columns App.fields Db.program_id
         title url description p].
    now rewrite SaveFacts.or_default_empty.
Qed.

End StoreTheorems.

(** X28: [toggle_program_approved] twice on the same id gives the tables
    back; on an id that no program has it changes nothing; on the id of a
    program of well-formed tables it keeps them well formed and changes
    the count of approved programs by one, the two other counts of
    [quick_stats] staying as they are. *)
Theorem toggle_program_approved_twice (d : Db.t) (pid : Z) :
  Db.toggle_program_approved (Db.toggle_program_approved d pid) pid = d /\
  (~ In pid (List.map Db.program_id (Db.programs d)) ->
   Db.toggle_program_approved d pid = d) /\
  (Db.wf d ->
   Db.wf (Db.toggle_program_approved d pid) /\
   forall q, In q (Db.programs d) -> Db.program_id q = pid ->
     let '(total, approved, nsources) := Db.quick_stats d in
     Db.quick_stats (Db.toggle_program_approved d pid)
     = (total,
        if (Db.is_approved q =? 1)%Z then (approved - 1)%nat else (approved + 1)%nat,
        nsources)).
Proof.
  split; [apply SaveFacts.toggle_twice |].
  split; [apply SaveFacts.toggle_unknown |].
  intros Hwf. split; [now apply SaveFacts.toggle_wf |].
  intros q Hin Hq. unfold Db.quick_stats.
  destruct Hwf as [_ _ _ _ _ _ _ _ _ Hmarks _ Hids _].
  apply in_split in Hin as (l1 & l2 & Hsplit).
  rewrite Hsplit in Hids, Hmarks. rewrite map_app in Hids. cbn [List.map] in Hids.
  apply NoDup_remove_2 in Hids. rewrite Hq in Hids.
  assert (H1 : ~ In pid (List.map Db.program_id l1))
    by (intros H; apply Hids; apply in_or_app; now left).
  assert (H2 : ~ In pid (List.map Db.program_id l2))
    by (intros H; apply Hids; apply in_or_app; now right).
  cbn [Db.toggle_program_approved Db.programs Db.sources].
  rewrite Hsplit, (toggle_stats_split l1 l2 q pid Hq H1 H2).
  rewrite !filter_app, !length_app. cbn [filter List.length Db.is_approved].
  apply Forall_app in Hmarks as [_ Hmarks]. inversion Hmarks as [| q0 l0 Hm _]; subst q0 l0.
  destruct Hm as [-> | ->].
  - change (1 - 0 =? 1)%Z with true. change (0 =? 1)%Z with false.
    cbn [List.length]. do 2 f_equal. lia.
  - change (1 - 1 =? 1)%Z with false. change (1 =? 1)%Z with true.
    cbn [List.length]. do 2 f_equal. lia.
Qed.

Section PageFacts.

Variable BeautifulSoup : string -> soup.
Variable json_loads : string -> option json.
Variable py_repr : json -> string.
Variable float_ext : string -> option pyfloat.
Variable dateparser_parse : string -> datetime -> option datetime.
Variable now : datetime.
Variable urlparse : string -> res parse_result.
Variable urljoin : string -> string -> res string.
Variable dateparser_default : string -> option datetime.
Variable float_mul : pyfloat -> pyfloat -> pyfloat.
Variable float_div : pyfloat -> pyfloat -> pyfloat.
Variable fetch_html : string -> string.
Variable get_page_title_from_html : string -> option string.
Variable html_to_text : string -> string.

(** A record of a page is a record of [extract_programs] on the page,
    after the loop of the search page. *)
Lemma page_rows_In (topic sel_country sel_region : string) (r : App.result)
    (ps : list App.program) (p : App.program) :
  App.page_rows BeautifulSoup json_loads py_repr float_ext dateparser_parse now
    urlparse urljoin dateparser_default float_mul float_div fetch_html
    get_page_title_from_html html_to_text topic sel_country sel_region r = Ok ps ->
  In p ps ->
  exists rows r' page_title combined,
    extract_programs BeautifulSoup json_loads py_repr float_ext dateparser_parse
      now urlparse urljoin (fetch_html (App.r_link r)) (App.r_link r) = Ok rows /\
    In r' rows /\
    p = App.enrich_row dateparser_default float_mul float_div (App.r_title r)
          page_title combined sel_country sel_region r'.
Proof.
  unfold App.page_rows. cbv zeta.
  destruct (negb (App.is_educational _)); [intros H; injection H as <-; intros [] |].
  destruct (negb (App.matches_location _ _ _));
    [intros H; injection H as <-; intros [] |].
  cbn [App.llm_extract]. intros H Hin.
  apply bind_Ok in H as (rows & Hrows & H). injection H as <-.
  apply in_map_iff in Hin as (r' & <- & Hin).
  exists rows, r'. do 2 eexists. split; [exact Hrows |]. split; [exact Hin | reflexivity].
Qed.

Lemma all_rows_In (topic sel_country sel_region : string) (results : list App.result)
    (ps : list App.program) (p : App.program) :
  App.all_rows BeautifulSoup json_loads py_repr float_ext dateparser_parse now
    urlparse urljoin dateparser_default float_mul float_div fetch_html
    get_page_title_from_html html_to_text topic sel_country sel_region results
  = Ok ps ->
  In p ps ->
  exists r page,
    In r results /\
    App.page_rows BeautifulSoup json_loads py_repr float_ext dateparser_parse now
      urlparse urljoin dateparser_default float_mul float_div fetch_html
      get_page_title_from_html html_to_text topic sel_country sel_region r = Ok page /\
    In p page.
Proof.
  revert ps. induction results as [| r rest IH]; cbn [App.all_rows]; intros ps H Hin.
  - injection H as <-. destruct Hin.
  - apply bind_Ok in H as (page & Hpage & H). apply bind_Ok in H as (more & Hmore & H).
    injection H as <-. apply in_app_or in Hin as [Hin | Hin].
    + exists r, page. split; [now left |]. now split.
    + destruct (IH more Hmore Hin) as (r0 & page0 & Hr0 & Hp0 & Hin0).
      exists r0, page0. split; [now right |]. now split.
Qed.

Lemma all_rows_titled (topic sel_country sel_region : string) (results : list App.result)
    (ps : list App.program) (p : App.program) :
  App.all_rows BeautifulSoup json_loads py_repr float_ext dateparser_parse now
    urlparse urljoin dateparser_default float_mul float_div fetch_html
    get_page_title_from_html html_to_text topic sel_country sel_region results
  = Ok ps ->
  In p ps ->
  exists t, title (App.fields p) = Some t /\ t <> "".
Proof.
  intros H Hin.
  destruct (all_rows_In _ _ _ _ _ _ H Hin) as (r & page & _ & Hpage & Hp).
  destruct (page_rows_In _ _ _ _ _ _ Hpage Hp)
    as (rows & r' & page_title & combined & Hrows & Hr' & ->).
  destruct (extract_programs_In _ _ _ _ _ _ _ _ _ _ _ _ Hrows Hr') as (r0 & Hn).
  rewrite enrich_row_title, (normalize_row_title _ _ _ Hn).
  destruct (negb _ || App.opt_eqb _ _).
  - eexists. split; [reflexivity |]. apply truthy_nonempty.
    apply take_chars_truthy. apply or_default_truthy. now apply or_default_truthy.
  - eexists. split; [reflexivity |]. apply truthy_nonempty.
    now apply or_default_truthy.
Qed.

End PageFacts.

Lemma save_rows_twice (urlparse : string -> res parse_result) (ignored_takes_id : bool)
    (d d1 : Db.t) (rows : list App.program) :
  (forall p, In p rows -> url (App.fields p) <> "" -> title (App.fields p) <> None) ->
  Db.save_program_rows urlparse ignored_takes_id d rows = Ok d1 ->
  exists d2,
    Db.save_program_rows urlparse ignored_takes_id d1 rows = Ok d2 /\
    Db.users d2 = Db.users d1 /\ Db.sources d2 = Db.sources d1 /\
    Db.programs d2 = Db.programs d1.
Proof.
  intros Htitles H. rewrite SaveFacts.save_program_rows_eq in *.
  destruct (SaveFacts.save_rows_facts urlparse ignored_takes_id rows d)
    as (d' & Hd' & _ & _ & _ & _ & Hpres).
  rewrite H in Hd'. injection Hd' as <-.
  apply SaveFacts.save_rows_present.
  intros p Hin Hu. destruct (Hpres p Hin Hu) as [Hdom Hkey].
  split; [exact Hdom |].
  destruct (title (App.fields p)) as [s |] eqn:Es.
  - exists s. split; [reflexivity | now apply Hkey].
  - exfalso. now apply (Htitles p Hin Hu).
Qed.

Lemma filter_disjoint_length {A : Type} (f g h : A -> bool) (l : list A) :
  (forall x, f x = true -> h x = true) ->
  (forall x, g x = true -> h x = true) ->
  (forall x, f x = true -> g x = false) ->
  (List.length (filter f l) + List.length (filter g l)
   <= List.length (filter h l))%nat.
Proof.
  intros Hf Hg Hd. induction l as [| x l IH]; [simpl; lia |].
  cbn [filter]. destruct (f x) eqn:Ef.
  - rewrite (Hf x Ef), (Hd x Ef). cbn [List.length]. lia.
  - destruct (g x) eqn:Eg.
    + rewrite (Hg x Eg). cbn [List.length]. lia.
    + destruct (h x); cbn [List.length]; lia.
Qed.

Lemma zero_not_positive (x : pyfloat) :
  Db.float_is_zero x = true -> Db.float_is_positive x = false.
Proof.
  destruct x as [q | |]; try discriminate. unfold Db.float_is_zero, Db.float_is_positive.
  cbn [float_lt]. intros H. apply Qeq_bool_iff in H.
  apply negb_false_iff. apply Qle_bool_iff. rewrite H. apply Qle_refl.
Qed.

Section PageTheorems.

Variable BeautifulSoup : string -> soup.
Variable json_loads : string -> option json.
Variable py_repr : json -> string.
Variable float_ext : string -> option pyfloat.
Variable dateparser_parse : string -> datetime -> option datetime.
Variable now : datetime.
Variable urlparse : string -> res parse_result.
Variable urljoin : string -> string -> res string.
Variable dateparser_default : string -> option datetime.
Variable float_mul : pyfloat -> pyfloat -> pyfloat.
Variable float_div : pyfloat -> pyfloat -> pyfloat.
Variable fetch_html : string -> string.
Variable get_page_title_from_html : string -> option string.
Variable html_to_text : string -> string.
Variable ignored_takes_id : bool.

(** X29: a search that is run and saved a second time stores nothing new:
    every record that the loop over the search results gathers has a
    title, so that saving the records once more leaves the users, the
    sources and the programs as the first saving left them. *)
Theorem search_saved_twice (topic sel_country sel_region : string)
    (results : list App.result) (ps : list App.program) (d d1 : Db.t) :
  App.all_rows BeautifulSoup json_loads py_repr float_ext dateparser_parse now
    urlparse urljoin dateparser_default float_mul float_div fetch_html
    get_page_title_from_html html_to_text topic sel_country sel_region results
  = Ok ps ->
  Db.save_program_rows urlparse ignored_takes_id d ps = Ok d1 ->
  Forall (fun p => exists t, title (App.fields p) = Some t /\ t <> "") ps /\
  exists d2,
    Db.save_program_rows urlparse ignored_takes_id d1 ps = Ok d2 /\
    Db.users d2 = Db.users d1 /\ Db.sources d2 = Db.sources d1 /\
    Db.programs d2 = Db.programs d1.
Proof.
  intros Hall Hsave.
  assert (Ht : forall p, In p ps -> exists t, title (App.fields p) = Some t /\ t <> "")
    by (intros p Hin; eapply all_rows_titled; eassumption).
  split; [now apply Forall_forall |].
  eapply save_rows_twice; [| exact Hsave].
  intros p Hin _. destruct (Ht p Hin) as (t & -> & _). discriminate.
Qed.

End PageTheorems.

(** X30: the cost filter of [list_programs]: the programs listed as Free
    and those listed under any other cost are among those listed with the
    cost Any, and no program is in both lists; of the programs listed with
    Any, the Free ones are those without a price or with the price 0, the
    others those with a price above 0, so that a program whose price is
    not known is listed as Free and not as "Paid / Unknown". *)
Theorem list_programs_by_cost (sql_like : string -> string -> bool) (d : Db.t)
    (f : Db.listing_filters) :
  let with_cost c :=
    {| Db.lf_type := Db.lf_type f; Db.lf_mode := Db.lf_mode f; Db.lf_cost := c;
       Db.country_contains := Db.country_contains f;
       Db.city_contains := Db.city_contains f |} in
  (List.length (Db.list_programs sql_like d (with_cost "Free")) +
   List.length (Db.list_programs sql_like d (with_cost "Paid / Unknown"))
   <= List.length (Db.list_programs sql_like d (with_cost "Any")))%nat /\
  forall q, Db.listed sql_like (with_cost "Any") q = true ->
    (Db.listed sql_like (with_cost "Free") q = true <->
     price (App.fields (Db.program q)) = None \/
     exists x, price (App.fields (Db.program q)) = Some x /\
               Db.float_is_zero x = true) /\
    (Db.listed sql_like (with_cost "Paid / Unknown") q = true <->
     exists x, price (App.fields (Db.program q)) = Some x /\
               Db.float_is_positive x = true).
Proof.
  cbv zeta.
  assert (Hshape : forall c q,
            Db.listed sql_like
              {| Db.lf_type := Db.lf_type f; Db.lf_mode := Db.lf_mode f; Db.lf_cost := c;
                 Db.country_contains := Db.country_contains f;
                 Db.city_contains := Db.city_contains f |} q
            = Db.listed sql_like
                {| Db.lf_type := Db.lf_type f; Db.lf_mode := Db.lf_mode f;
                   Db.lf_cost := "Any";
                   Db.country_contains := Db.country_contains f;
                   Db.city_contains := Db.city_contains f |} q &&
              (if Db.chosen c then
                 if String.eqb c "Free"
                 then match price (App.fields (Db.program q)) with
                      | None => true | Some x => Db.float_is_zero x end
                 else match price (App.fields (Db.program q)) with
                      | None => false | Some x => Db.float_is_positive x end
               else true)).
  { intros c q. unfold Db.listed.
    cbn [Db.lf_type Db.lf_mode Db.lf_cost Db.country_contains Db.city_contains].
    change (Db.chosen "Any") with false. cbv iota.
    match goal with
    | |- ?a && ?b && ?c && ?e && ?g = _ =>
        generalize a, b, c, e, g
    end.
    intros [] [] [] [] []; reflexivity. }
  split.
  - unfold Db.list_programs. rewrite !length_map.
    apply filter_disjoint_length.
    + intros q Hq. rewrite Hshape in Hq. now apply andb_prop in Hq as [Hq _].
    + intros q Hq. rewrite Hshape in Hq. now apply andb_prop in Hq as [Hq _].
    + intros q Hq. rewrite (Hshape "Free" q) in Hq. rewrite (Hshape "Paid / Unknown" q).
      apply andb_prop in Hq as [Hq Hc].
      rewrite Hq. cbn [andb]. change (Db.chosen "Free") with true in Hc.
      change (Db.chosen "Paid / Unknown") with true.
      change (String.eqb "Free" "Free") with true in Hc.
      change (String.eqb "Paid / Unknown" "Free") with false. cbv iota in Hc |- *.
      destruct (price (App.fields (Db.program q))) as [x |]; [| reflexivity].
      now apply zero_not_positive.
  - intros q Hq. rewrite (Hshape "Free" q), (Hshape "Paid / Unknown" q), Hq. cbn [andb].
    change (Db.chosen "Free") with true. change (Db.chosen "Paid / Unknown") with true.
    change (String.eqb "Free" "Free") with true.
    change (String.eqb "Paid / Unknown" "Free") with false. cbv iota.
    destruct (price (App.fields (Db.program q))) as [x |]; split; split.
    + intros H. right. now exists x.
    + intros [H | (y & H & Hy)]; [discriminate | now injection H as <-].
    + intros H. now exists x.
    + intros (y & H & Hy). now injection H as <-.
    + intros _. now left.
    + reflexivity.
    + discriminate.
    + intros (y & H & _). discriminate.
Qed.

(** *** The further properties on the sample pages *)

Lemma norm_currency_fixed_point_witness :
  _norm_currency (Some " usd ") = Some "USD" /\
  _norm_currency (Some "USD") = Some "USD".
Proof.
  split; [reflexivity |].
  apply (norm_currency_fixed_point " usd " "USD"); [reflexivity | discriminate].
Defined.

Lemma normalization_pass_idempotent_witness :
  normalize_row "http://x" Sample.raw_row = Ok Sample.normal_row /\
  normalize_row "http://x" Sample.normal_row = Ok Sample.normal_row.
Proof.
  assert (H : normalize_row "http://x" Sample.raw_row = Ok Sample.normal_row)
    by (vm_compute; reflexivity).
  split; [exact H | exact (normalization_pass_idempotent _ _ _ H)].
Defined.

Lemma dedupe_idempotent_witness :
  NoDup (List.map dedupe_key Sample.twice_output) /\
  _dedupe Sample.twice_output = Sample.twice_output.
Proof.
  assert (H : NoDup (List.map dedupe_key Sample.twice_output)).
  { vm_compute. constructor; [intros [H | []]; discriminate H |].
    constructor; [intros [] | constructor]. }
  split; [exact H | exact (proj1 (dedupe_idempotent Sample.twice_output) H)].
Defined.

Lemma extract_programs_type_witness :
  Sample.run (Sample.jsonld_page Sample.twice) "http://x" = Ok Sample.twice_output /\
  Forall (fun r' => exists t, type r' = Some t /\ In t type_labels)
         Sample.twice_output.
Proof.
  assert (H : Sample.run (Sample.jsonld_page Sample.twice) "http://x"
              = Ok Sample.twice_output) by (vm_compute; reflexivity).
  split; [exact H |]. unfold Sample.run in H.
  exact (extract_programs_type _ _ _ _ _ _ _ _ _ _ _ H).
Defined.

Lemma extract_programs_clean_text_witness :
  Sample.run (Sample.jsonld_page Sample.twice) "http://x" = Ok Sample.twice_output /\
  Forall (fun r' => exists t, title r' = Some t /\ _clean_text (Some t) = t)
         Sample.twice_output.
Proof.
  assert (H : Sample.run (Sample.jsonld_page Sample.twice) "http://x"
              = Ok Sample.twice_output) by (vm_compute; reflexivity).
  split; [exact H |]. unfold Sample.run in H.
  eapply Forall_impl; [| exact (extract_programs_clean_text _ _ _ _ _ _ _ _ _ _ _ H)].
  intros r' [Ht _]. exact Ht.
Defined.


Lemma rows_from_jsonld_shape_witness :
  _rows_from_jsonld Sample.no_repr Sample.no_float Sample.no_date
    (Sample.midnight 2026 11 4) Sample.hybrid_fields "http://x"
  = Ok Sample.hybrid_rows /\
  (List.length Sample.hybrid_rows <= 1)%nat.
Proof.
  assert (H : _rows_from_jsonld Sample.no_repr Sample.no_float Sample.no_date
                (Sample.midnight 2026 11 4) Sample.hybrid_fields "http://x"
              = Ok Sample.hybrid_rows) by (vm_compute; reflexivity).
  split; [exact H | exact (proj1 (rows_from_jsonld_shape _ _ _ _ _ _ _ H))].
Defined.

Lemma rows_from_lists_shape_witness :
  _rows_from_lists Sample.no_float Sample.http_urlparse Sample.http_urljoin
    Sample.list_soup "http://host/" = Ok Sample.grade_rows /\
  (List.length Sample.grade_rows <= 60)%nat.
Proof.
  assert (H : _rows_from_lists Sample.no_float Sample.http_urlparse
                Sample.http_urljoin Sample.list_soup "http://host/"
              = Ok Sample.grade_rows) by (vm_compute; reflexivity).
  split; [exact H | exact (proj1 (rows_from_lists_shape _ _ _ _ _ _ H))].
Defined.

Lemma rows_from_fallbacks_shape_witness :
  Forall (fun r => url r = "http://x")
         (_rows_from_fallbacks Sample.no_float Sample.no_date Sample.november
            (Sample.text_soup "Grade 5 course") "http://x").
Proof.
  apply Forall_forall. intros r Hin.
  destruct (rows_from_fallbacks_shape Sample.no_float Sample.no_date
              Sample.november (Sample.text_soup "Grade 5 course") "http://x")
    as (_ & _ & Hall).
  exact (proj1 (Hall r Hin)).
Defined.

Lemma iter_jsonld_skips_bad_block_witness :
  _iter_jsonld (Sample.loads Sample.samples) Sample.broken_soup
  = _iter_jsonld (Sample.loads Sample.samples)
      (Sample.jsonld_soup Sample.hybrid_course).
Proof.
  apply (iter_jsonld_skips_bad_block (Sample.loads Sample.samples)
           Sample.broken_soup (Sample.jsonld_soup Sample.hybrid_course)
           [] [Some (Sample.show Sample.hybrid_course)] Sample.broken_block);
    reflexivity.
Defined.

Lemma from_offers_lowest_witness :
  _from_offers Sample.no_repr Sample.no_float Sample.three_offers
  = (Some (Fin (19 # 2)%Q), Some "EUR") /\
  exists it, In it (offer_items Sample.three_offers) /\
             offer_quote Sample.no_repr Sample.no_float it
             = Some (Fin (19 # 2)%Q, Some "EUR").
Proof.
  assert (H : _from_offers Sample.no_repr Sample.no_float Sample.three_offers
              = (Some (Fin (19 # 2)%Q), Some "EUR")) by (vm_compute; reflexivity).
  split; [exact H |].
  exact (proj1 (proj1 (from_offers_lowest Sample.no_repr Sample.no_float
                         Sample.three_offers) _ _ H)).
Defined.

Lemma to_iso_none_witness :
  _to_iso Sample.no_date Sample.november (Some "soon") = None.
Proof.
  apply (proj2 (to_iso_none Sample.no_date Sample.november (Some "soon"))).
  right. right. exists "soon". split; reflexivity.
Defined.


Lemma rows_from_microdata_shape_witness :
  _rows_from_microdata Sample.no_float Sample.no_date (Sample.midnight 2026 11 4)
    Sample.http_urlparse Sample.http_urljoin Sample.microdata_soup "http://host/"
  = Ok Sample.microdata_rows /\
  List.length Sample.microdata_rows
  = List.length (filter microdata_selected (microdata_items Sample.microdata_soup)).
Proof.
  assert (H : _rows_from_microdata Sample.no_float Sample.no_date
                (Sample.midnight 2026 11 4) Sample.http_urlparse Sample.http_urljoin
                Sample.microdata_soup "http://host/" = Ok Sample.microdata_rows)
    by (vm_compute; reflexivity).
  split; [exact H | exact (proj1 (rows_from_microdata_shape _ _ _ _ _ _ _ _ H))].
Defined.



Lemma enriched_record_witness :
  Sample.run (Sample.jsonld_page Sample.cad_course) "http://x" = Ok Sample.cad_output /\
  Forall (fun r' =>
            App.price_usd
              (App.enrich_row Sample.no_default_date Sample.exact_mul Sample.exact_div
                 "Intro" "" "Intro course" "Any" "Any" r') = None <->
            price r' = None \/
            forall c, currency r' = Some c -> ~ In c canonical_codes)
         Sample.cad_output.
Proof.
  assert (H : Sample.run (Sample.jsonld_page Sample.cad_course) "http://x"
              = Ok Sample.cad_output) by (vm_compute; reflexivity).
  split; [exact H |]. unfold Sample.run in H.
  eapply Forall_impl;
    [| exact (enriched_record _ _ _ _ _ _ _ _ Sample.no_default_date
                Sample.exact_mul Sample.exact_div _ _ _
                "Intro" "" "Intro course" "Any" "Any" H)].
  intros r' Hr'. cbv zeta in Hr'. exact (proj2 (proj2 (proj2 (proj2 Hr')))).
Defined.

Lemma search_web_results_witness :
  (0 <= 8)%Z /\
  (List.length (App.search_web "key" Sample.search_service "rocq"
                  Sample.any_filters 8) <= Z.to_nat 8)%nat.
Proof.
  assert (H : (0 <= 8)%Z) by lia.
  split; [exact H |].
  exact (proj1 (proj2 (search_web_results "key" Sample.search_service "rocq"
                         Sample.any_filters 8)) H).
Defined.

Lemma preview_5_words_words_witness :
  (List.length (App.split "short course") <= 5)%nat /\
  _clean_text (Some "short course") = "short course" /\
  App.preview_5_words "short course" = "short course".
Proof.
  assert (H1 : (List.length (App.split "short course") <= 5)%nat)
    by (vm_compute; repeat constructor).
  assert (H2 : _clean_text (Some "short course") = "short course") by reflexivity.
  split; [exact H1 |]. split; [exact H2 |].
  exact (proj2 (preview_5_words_words "short course") H1 H2).
Defined.

Lemma create_user_then_verify_user_witness :
  Db.create_user Db.empty " Ada@Example.org " "" "difference" "user"
  = (Sample.registered, (true, "Account created.")) /\
  Db.wf Sample.registered.
Proof.
  assert (H : Db.create_user Db.empty " Ada@Example.org " "" "difference" "user"
              = (Sample.registered, (true, "Account created.")))
    by (vm_compute; reflexivity).
  split; [exact H |].
  exact (proj1 (create_user_then_verify_user Db.empty Sample.registered
                  " Ada@Example.org " "" "difference" "user" "Account created."
                  DbFacts.wf_empty eq_refl H)).
Defined.

Lemma create_user_refuses_registered_email_witness :
  Db.create_user Db.empty " Ada@Example.org " "" "difference" "user"
  = (Sample.registered, (true, "Account created.")) /\
  Db.create_user Sample.registered "ADA@example.org" "Ada" "analytical" "admin"
  = (Sample.registered, (false, "Email already exists.")).
Proof.
  assert (H : Db.create_user Db.empty " Ada@Example.org " "" "difference" "user"
              = (Sample.registered, (true, "Account created.")))
    by (vm_compute; reflexivity).
  split; [exact H |].
  apply (create_user_refuses_registered_email Db.empty Sample.registered
           " Ada@Example.org " "" "difference" "user" "Account created."
           "ADA@example.org" "Ada" "analytical" "admin" eq_refl eq_refl H eq_refl).
  discriminate.
Defined.

Lemma save_program_rows_invariants_witness :
  exists d',
    Db.save_program_rows Sample.http_urlparse true Db.empty [Sample.saved_program]
    = Ok d' /\ Db.wf d'.
Proof.
  destruct (save_program_rows_invariants Sample.http_urlparse true Db.empty
              [Sample.saved_program] DbFacts.wf_empty) as (d' & H & Hwf & _).
  exists d'. split; [exact H | exact Hwf].
Defined.

Lemma save_program_rows_idempotent_witness :
  Db.save_program_rows Sample.http_urlparse true Db.empty [Sample.saved_program]
  = Ok Sample.stocked /\
  exists d2,
    Db.save_program_rows Sample.http_urlparse true Sample.stocked [Sample.saved_program]
    = Ok d2 /\
    Db.programs d2 = Db.programs Sample.stocked.
Proof.
  assert (H : Db.save_program_rows Sample.http_urlparse true Db.empty
                [Sample.saved_program] = Ok Sample.stocked)
    by (vm_compute; reflexivity).
  split; [exact H |].
  destruct (save_program_rows_idempotent Sample.http_urlparse true Db.empty
              Sample.stocked [Sample.saved_program]) as (d2 & H2 & _ & _ & Hp).
  - intros p [<- | []] _. discriminate.
  - exact H.
  - exists d2. split; [exact H2 | exact Hp].
Defined.

Lemma save_result_then_get_results_witness :
  exists d',
    Db.save_result Sample.http_urlparse true Db.empty "rocq" "" "http://host/a" "A course"
    = Ok d' /\
    Db.get_results d' = [(1%Z, "", "Program", "http://host/a", "A course")].
Proof.
  apply (save_result_then_get_results Sample.http_urlparse true Db.empty
           "rocq" "" "http://host/a" "A course").
  - discriminate.
  - intros [].
Defined.

Lemma toggle_program_approved_twice_witness :
  ~ In 7%Z (List.map Db.program_id (Db.programs Sample.stocked)) /\
  Db.toggle_program_approved Sample.stocked 7 = Sample.stocked.
Proof.
  assert (H : ~ In 7%Z (List.map Db.program_id (Db.programs Sample.stocked)))
    by (vm_compute; intros [H | []]; discriminate H).
  split; [exact H |].
  exact (proj1 (proj2 (toggle_program_approved_twice Sample.stocked 7)) H).
Defined.

Lemma search_saved_twice_witness :
  App.all_rows (Sample.parser Sample.pages) (Sample.loads Sample.samples)
    Sample.no_repr Sample.no_float Sample.no_date (Sample.midnight 2026 11 4)
    Sample.http_urlparse Sample.http_urljoin Sample.no_default_date
    Sample.exact_mul Sample.exact_div Sample.fetch Sample.no_page_title
    Sample.page_text "rocq" "Any" "Any" [Sample.one_result]
  = Ok Sample.search_rows /\
  Db.save_program_rows Sample.http_urlparse true Db.empty Sample.search_rows
  = Ok Sample.search_saved /\
  exists d2,
    Db.save_program_rows Sample.http_urlparse true Sample.search_saved
      Sample.search_rows = Ok d2 /\
    Db.programs d2 = Db.programs Sample.search_saved.
Proof.
  assert (H1 : App.all_rows (Sample.parser Sample.pages) (Sample.loads Sample.samples)
                 Sample.no_repr Sample.no_float Sample.no_date
                 (Sample.midnight 2026 11 4) Sample.http_urlparse Sample.http_urljoin
                 Sample.no_default_date Sample.exact_mul Sample.exact_div
                 Sample.fetch Sample.no_page_title Sample.page_text
                 "rocq" "Any" "Any" [Sample.one_result] = Ok Sample.search_rows)
    by (vm_compute; reflexivity).
  assert (H2 : Db.save_program_rows Sample.http_urlparse true Db.empty
                 Sample.search_rows = Ok Sample.search_saved)
    by (vm_compute; reflexivity).
  split; [exact H1 |]. split; [exact H2 |].
  destruct (search_saved_twice _ _ _ _ _ _ _ _ _ _ _ _ _ _ true _ _ _ _ _ _ _ H1 H2)
    as (_ & d2 & Hd2 & _ & _ & Hp).
  exists d2. split; [exact Hd2 | exact Hp].
Defined.

Lemma list_programs_by_cost_witness :
  Db.listed Sample.like_all Sample.no_listing_filters Sample.stocked_program = true /\
  (Db.listed Sample.like_all
     {| Db.lf_type := "Any"; Db.lf_mode := "Any"; Db.lf_cost := "Paid / Unknown";
        Db.country_contains := ""; Db.city_contains := "" |}
     Sample.stocked_program = true <->
   exists x, price (App.fields (Db.program Sample.stocked_program)) = Some x /\
             Db.float_is_positive x = true).
Proof.
  assert (H : Db.listed Sample.like_all Sample.no_listing_filters
                Sample.stocked_program = true) by reflexivity.
  split; [exact H |].
  exact (proj2 (proj2 (list_programs_by_cost Sample.like_all Sample.stocked
                         Sample.no_listing_filters) Sample.stocked_program H)).
Defined.
